(** * twitch_auto_watch: the poller of new_twitch_watcher.py

    A shallow embedding of the core of [new_twitch_watcher.py]: the ordered
    dictionaries the program passes around, [save_config], the worker
    [TwitchChecker.check_channels], and the methods of [MainWindow] that keep
    the token ([_ensure_token]), compute the poll interval
    ([_current_interval_sec]), start polling ([_start_poll]) and track live
    sessions ([_on_result]).

    Conventions.
    - Time is [int(time.time())]: an integer number of seconds, read by the
      caller and passed in as [now].
    - Widgets are modelled by the value they hold (the text of a line edit,
      the state of a check box); layout and styling are left out.
    - Every call that leaves the process (HTTP, browser, file, signal) is
      recorded as an event, in program order. *)

From Stdlib Require Import ZArith String Ascii List Bool Lia.
From stdpp Require Import base gmap strings list fin_maps pretty.

Set Warnings "-register-all".
Local Open Scope string_scope.
Local Open Scope list_scope.
Local Open Scope Z_scope.

(** ** Python values and ordered dictionaries *)

(** The JSON-shaped values that live in the configuration dictionary and in
    the token endpoint's payload. Floats are left out. *)
Inductive pyval : Type :=
  | PNone
  | PBool (b : bool)
  | PInt (z : Z)
  | PStr (s : string)
  | PList (l : list pyval)
  | PDict (d : list (string * pyval)).

(** Python truthiness, [bool(v)]. *)
Definition truthy (v : pyval) : bool :=
  match v with
  | PNone => false
  | PBool b => b
  | PInt z => negb (z =? 0)%Z
  | PStr s => negb (s =? "")%string
  | PList l => match l with [] => false | _ => true end
  | PDict d => match d with [] => false | _ => true end
  end.

(** Truthiness of a [str]. *)
Definition str_truthy (s : string) : bool := negb (s =? "")%string.

(** [a or b] on strings. *)
Definition str_or (a b : string) : string := if str_truthy a then a else b.

(** Truthiness of an [Optional[int]]: [None] and [0] are both false. *)
Definition optint_truthy (o : option Z) : bool :=
  match o with
  | Some t => negb (t =? 0)%Z
  | None => false
  end.

(** A [dict] keeps its keys in insertion order and holds each key once. *)
Definition odict (V : Type) : Type := list (string * V).

Section OrderedDict.
Context {V : Type}.

(** [d.get(k)] *)
Fixpoint dict_get (k : string) (d : odict V) : option V :=
  match d with
  | [] => None
  | (k', v) :: d' => if (k =? k')%string then Some v else dict_get k d'
  end.

(** [d.get(k, dflt)] *)
Definition dict_get_default (k : string) (dflt : V) (d : odict V) : V :=
  match dict_get k d with
  | Some v => v
  | None => dflt
  end.

(** [d[k] = v]: an existing key keeps its position, a new one goes last. *)
Fixpoint dict_set (k : string) (v : V) (d : odict V) : odict V :=
  match d with
  | [] => [(k, v)]
  | (k', v') :: d' =>
      if (k =? k')%string then (k, v) :: d' else (k', v') :: dict_set k v d'
  end.

(** [list(d.keys())] *)
Definition dict_keys (d : odict V) : list string := map fst d.
End OrderedDict.

(** The part of the Python runtime the program relies on without defining
    it: [str.strip], [str.lower] and [int(str)] ([None] when [int] raises
    [ValueError]). *)
Class PyRuntime : Type := {
  str_strip : string → string;
  str_lower : string → string;
  int_of_str : string → option Z;
}.

(** Exceptions, as far as the handlers tell them apart. *)
Inductive Exn : Type :=
  | RequestException (msg : string)
  | OtherException (msg : string).

(** ** Module constants *)

Definition TOKEN_REFRESH_BUFFER_SEC : Z := 300.
Definition RECONNECT_GRACE_SEC : Z := 300.

(** ** Session tracking: [MainWindow._on_result] *)

(** One entry of the poll result,
    [{live: bool, title: str, started_at: str, id: str}]. *)
Record Info : Type := {
  live : bool;
  title : string;
  started_at : string;
  id : string;
}.

(** One entry of [live_sessions],
    [{session_id: str, started_at: str, last_seen: int,
      offline_since: Optional[int]}]. *)
Record Session : Type := {
  session_id : string;
  sess_started_at : string;
  last_seen : Z;
  offline_since : option Z;
}.

(** Messages written to the log pane. *)
Inductive LogMsg : Type :=
  | MsgOpening (login url : string)
  | MsgReconnected (login : string)
  | MsgTempOffline (login : string) (grace : Z)
  | MsgNeedClientId
  | MsgNeedClientSecret
  | MsgTokenHttpError (status : Z) (snippet : string)
  | MsgTokenMalformed
  | MsgTokenOk
  | MsgNetworkError (e : string)
  | MsgUnknownError (e : string)
  | MsgNoToken
  | MsgPollStarted (interval : Z)
  | MsgNoChannels.

(** The form sent to the token endpoint. *)
Record PostData : Type := {
  pd_client_id : string;
  pd_client_secret : string;
  pd_grant_type : string;
}.

(** What the window does to the outside, in program order. *)
Inductive Event : Type :=
  | Log (m : LogMsg)
  | WebbrowserOpen (url : string)
  | WriteConfig (doc : odict pyval)
  | HttpPost (data : PostData)
  | SigCheck (logins : list string).

Definition stream_url (login : string) : string :=
  "https://www.twitch.tv/" +:+ login.

(** [_open_stream_once] *)
Definition _open_stream_once (login : string) : list Event :=
  let url := stream_url login in
  [Log (MsgOpening login url); WebbrowserOpen url].

(** [info.get("id") or info.get("started_at") or ""] *)
Definition session_key (info : Info) : string :=
  str_or (id info) (str_or (started_at info) "").

(** The test of the clean-up loop:
    [offline_since and (now_epoch - offline_since > RECONNECT_GRACE_SEC)]. *)
Definition grace_over (now : Z) (sess : Session) : bool :=
  match offline_since sess with
  | Some t => optint_truthy (Some t) && (RECONNECT_GRACE_SEC <? now - t)%Z
  | None => false
  end.

(** The test of the reconnect branch:
    [offline_since and (now_epoch - offline_since <= RECONNECT_GRACE_SEC)]. *)
Definition within_grace (now : Z) (prev : Session) : bool :=
  match offline_since prev with
  | Some t => optint_truthy (Some t) && (now - t <=? RECONNECT_GRACE_SEC)%Z
  | None => false
  end.

(** The logins collected in [to_delete]. *)
Definition to_delete (now : Z) (ls : gmap string Session) : list string :=
  (filter (λ e : string * Session, grace_over now e.2 = true)
          (map_to_list ls)).*1.

(** The clean-up loop: [live_sessions.pop(login, None)] for each of them. *)
Definition sweep (now : Z) (ls : gmap string Session) : gmap string Session :=
  foldl (λ m login, delete login m) ls (to_delete now ls).

(** The body of the second loop of [_on_result] for one [(login, info)]. *)
Definition track_one (now : Z) (login : string) (info : Info)
    (ls : gmap string Session) : gmap string Session * list Event :=
  if live info then
    let sid := session_key info in
    let st := started_at info in
    match ls !! login with
    | None =>
        (<[login := {| session_id := sid; sess_started_at := st;
                       last_seen := now; offline_since := None |}]> ls,
         _open_stream_once login)
    | Some prev =>
        if (sid =? session_id prev)%string then
          (<[login := {| session_id := session_id prev;
                         sess_started_at := sess_started_at prev;
                         last_seen := now; offline_since := None |}]> ls,
           [])
        else if within_grace now prev then
          (<[login := {| session_id := sid; sess_started_at := st;
                         last_seen := now; offline_since := None |}]> ls,
           [Log (MsgReconnected login)])
        else
          (<[login := {| session_id := sid; sess_started_at := st;
                         last_seen := now; offline_since := None |}]> ls,
           _open_stream_once login)
    end
  else
    match ls !! login with
    | Some prev =>
        if negb (optint_truthy (offline_since prev)) then
          (<[login := {| session_id := session_id prev;
                         sess_started_at := sess_started_at prev;
                         last_seen := last_seen prev;
                         offline_since := Some now |}]> ls,
           [Log (MsgTempOffline login RECONNECT_GRACE_SEC)])
        else (ls, [])
    | None => (ls, [])
    end.

(** The second loop of [_on_result], over [result.items()]. *)
Fixpoint track_all (now : Z) (result : odict Info) (ls : gmap string Session)
    : gmap string Session * list Event :=
  match result with
  | [] => (ls, [])
  | (login, info) :: rest =>
      let '(ls1, ev1) := track_one now login info ls in
      let '(ls2, ev2) := track_all now rest ls1 in
      (ls2, ev1 ++ ev2)
  end.

(** [_on_result] on the session table (the status table it repaints is
    display only). *)
Definition on_result (now : Z) (result : odict Info) (ls : gmap string Session)
    : gmap string Session * list Event :=
  track_all now result (sweep now ls).

(** How often the browser was opened on [login]'s page. *)
Definition is_open (login : string) (e : Event) : bool :=
  match e with
  | WebbrowserOpen url => (url =? stream_url login)%string
  | _ => false
  end.

Definition opened (login : string) (evs : list Event) : nat :=
  length (List.filter (is_open login) evs).

(** ** Configuration file: [save_config] *)

(** Dictionaries are objects: a store maps an address to the entries of the
    dictionary that lives there, so that a copy and its original are told
    apart. *)
Definition obj_get_default (l : positive) (k : string) (dflt : pyval)
    (h : gmap positive (odict pyval)) : pyval :=
  match h !! l with
  | Some d => dict_get_default k dflt d
  | None => dflt
  end.

(** [obj[k] = v] *)
Definition obj_set (l : positive) (k : string) (v : pyval)
    (h : gmap positive (odict pyval)) : gmap positive (odict pyval) :=
  alter (dict_set k v) l h.

(** [dict(src)]: a new object with the entries of [src]. *)
Definition dict_copy (src : positive) (h : gmap positive (odict pyval))
    : option (positive * gmap positive (odict pyval)) :=
  match h !! src with
  | Some d => let l := fresh (dom h) in Some (l, <[l := d]> h)
  | None => None
  end.

(** [save_config(cfg)]. Returns the store afterwards and the document handed
    to [CONFIG_PATH.write_text(json.dumps(...))]; the file's text is a
    function of that document. Any exception is swallowed. *)
Definition save_config (cfg : positive) (h : gmap positive (odict pyval))
    : gmap positive (odict pyval) * option (odict pyval) :=
  match dict_copy cfg h with
  | None => (h, None)
  | Some (cfg_to_write, h1) =>
      let h2 :=
        if negb (truthy (obj_get_default cfg_to_write "save_client_secret"
                                         (PBool false) h1))
        then obj_set cfg_to_write "client_secret" (PStr "") h1
        else h1 in
      (h2, h2 !! cfg_to_write)
  end.

(** ** The main window *)

(** The text of the expiry label. *)
Inductive ExpiryLabel : Type :=
  | LblNotYet
  | LblExpired (stamp : string)
  | LblRemaining (stamp : string) (minutes : Z).

(** [time.strftime('%Y-%m-%d %H:%M:%S', time.localtime(t))], [None] when the
    platform refuses the timestamp. *)
Class Clock : Type := {
  strftime_local : Z → option string;
}.

(** An HTTP response: [status_code], [text], and what [r.json()] does. *)
Record Response (B : Type) : Type := {
  status_code : Z;
  text : string;
  json : Exn + B;
}.
Arguments status_code {B} _.
Arguments text {B} _.
Arguments json {B} _.

(** [requests.Response.ok]: no 4xx or 5xx status. *)
Definition resp_ok {B : Type} (r : Response B) : bool :=
  negb ((400 <=? status_code r) && (status_code r <? 600)).

(** [s[:200]] *)
Definition snippet (s : string) : string := substring 0 200 s.

(** The state of the window that the modelled methods read or write. *)
Record MainWindow : Type := {
  cfg : odict pyval;
  live_sessions : gmap string Session;
  le_client_id : string;
  le_client_secret : string;
  cb_save_secret : bool;
  le_token : string;
  lbl_token_exp : ExpiryLabel;
  le_minutes : string;
  le_seconds : string;
  list_channels : list string;
  cb_autostart : bool;
  timer : option Z;
  btn_start_enabled : bool;
  btn_stop_enabled : bool;
}.

Definition set_cfg (c : odict pyval) (w : MainWindow) : MainWindow :=
  {| cfg := c; live_sessions := live_sessions w;
     le_client_id := le_client_id w; le_client_secret := le_client_secret w;
     cb_save_secret := cb_save_secret w; le_token := le_token w;
     lbl_token_exp := lbl_token_exp w; le_minutes := le_minutes w;
     le_seconds := le_seconds w; list_channels := list_channels w;
     cb_autostart := cb_autostart w; timer := timer w;
     btn_start_enabled := btn_start_enabled w;
     btn_stop_enabled := btn_stop_enabled w |}.

Definition set_live_sessions (ls : gmap string Session) (w : MainWindow)
    : MainWindow :=
  {| cfg := cfg w; live_sessions := ls;
     le_client_id := le_client_id w; le_client_secret := le_client_secret w;
     cb_save_secret := cb_save_secret w; le_token := le_token w;
     lbl_token_exp := lbl_token_exp w; le_minutes := le_minutes w;
     le_seconds := le_seconds w; list_channels := list_channels w;
     cb_autostart := cb_autostart w; timer := timer w;
     btn_start_enabled := btn_start_enabled w;
     btn_stop_enabled := btn_stop_enabled w |}.

Definition set_token_widgets (tok : string) (lbl : ExpiryLabel)
    (w : MainWindow) : MainWindow :=
  {| cfg := cfg w; live_sessions := live_sessions w;
     le_client_id := le_client_id w; le_client_secret := le_client_secret w;
     cb_save_secret := cb_save_secret w; le_token := tok;
     lbl_token_exp := lbl; le_minutes := le_minutes w;
     le_seconds := le_seconds w; list_channels := list_channels w;
     cb_autostart := cb_autostart w; timer := timer w;
     btn_start_enabled := btn_start_enabled w;
     btn_stop_enabled := btn_stop_enabled w |}.

Definition set_timer (t : option Z) (start_enabled stop_enabled : bool)
    (w : MainWindow) : MainWindow :=
  {| cfg := cfg w; live_sessions := live_sessions w;
     le_client_id := le_client_id w; le_client_secret := le_client_secret w;
     cb_save_secret := cb_save_secret w; le_token := le_token w;
     lbl_token_exp := lbl_token_exp w; le_minutes := le_minutes w;
     le_seconds := le_seconds w; list_channels := list_channels w;
     cb_autostart := cb_autostart w; timer := t;
     btn_start_enabled := start_enabled;
     btn_stop_enabled := stop_enabled |}.

(** How a call ends: it returns a value or lets an exception escape. *)
Inductive Outcome (A : Type) : Type :=
  | Ret (a : A)
  | Raise (e : Exn).
Arguments Ret {A} _.
Arguments Raise {A} _.

Section Window.
Context `{PyRuntime} `{Clock}.

(** [int(v)]; [None] when it raises. *)
Definition py_int (v : pyval) : option Z :=
  match v with
  | PInt z => Some z
  | PBool b => Some (if b then 1 else 0)
  | PStr s => int_of_str s
  | PNone | PList _ | PDict _ => None
  end.

(** [_fmt_expiry_label]; [None] when formatting the timestamp raises. *)
Definition _fmt_expiry_label (now exp_epoch : Z) : option ExpiryLabel :=
  if exp_epoch =? 0 then Some LblNotYet
  else
    let remain := exp_epoch - now in
    match strftime_local exp_epoch with
    | None => None
    | Some stamp =>
        if remain <=? 0 then Some (LblExpired stamp)
        else Some (LblRemaining stamp (remain / 60))
    end.

(** The helper [_ival] of [_current_interval_sec]:
    [int(s or default)], [default] on [ValueError], then the clamp. *)
Definition _ival (s : string) (lo hi dflt : Z) : Z :=
  let v :=
    if str_truthy s then
      match int_of_str s with
      | Some v => v
      | None => dflt
      end
    else dflt in
  Z.max lo (Z.min hi v).

(** [_current_interval_sec] *)
Definition _current_interval_sec (w : MainWindow) : Z :=
  let m := _ival (le_minutes w) 0 9999 0 in
  let s := _ival (le_seconds w) 0 59 0 in
  let total := m * 60 + s in
  Z.max 1 total.

(** [_channels] *)
Definition _channels (w : MainWindow) : list string :=
  map (λ login, str_lower (str_strip login)) (list_channels w).

(** The address [self.cfg] is given while [save_config] runs. *)
Definition cfg_addr : positive := 1%positive.

(** [_persist_config] *)
Definition _persist_config (w : MainWindow) : MainWindow * list Event :=
  let c1 := dict_set "client_id" (PStr (str_strip (le_client_id w))) (cfg w) in
  let c2 := dict_set "client_secret"
              (PStr (str_strip (le_client_secret w))) c1 in
  let c3 := dict_set "save_client_secret" (PBool (cb_save_secret w)) c2 in
  let c4 := dict_set "access_token" (PStr (str_strip (le_token w))) c3 in
  let c5 := dict_set "poll_interval_sec"
              (PInt (_current_interval_sec w)) c4 in
  let c6 := dict_set "channels" (PList (map PStr (_channels w))) c5 in
  let c7 := dict_set "autostart" (PBool (cb_autostart w)) c6 in
  let '(h, doc) := save_config cfg_addr {[cfg_addr := c7]} in
  (set_cfg (default c7 (h !! cfg_addr)) w,
   match doc with
   | Some d => [WriteConfig d]
   | None => []
   end).

(** The log line of the two handlers at the end of [_ensure_token]. *)
Definition handler_msg (e : Exn) : LogMsg :=
  match e with
  | RequestException m => MsgNetworkError m
  | OtherException m => MsgUnknownError m
  end.

(** [_ensure_token(force, force_refresh)]. [requests_post] answers the
    one request the method can make. *)
Definition _ensure_token (requests_post : PostData → Exn + Response pyval)
    (now : Z) (force force_refresh : bool) (w : MainWindow)
    : Outcome bool * MainWindow * list Event :=
  let client_id := str_strip (le_client_id w) in
  let client_secret := str_strip (le_client_secret w) in
  match py_int (dict_get_default "token_expires_at" (PInt 0) (cfg w)) with
  | None => (Raise (OtherException "int"), w, [])
  | Some exp_at =>
    if negb force_refresh
       && truthy (dict_get_default "access_token" PNone (cfg w))
       && (TOKEN_REFRESH_BUFFER_SEC <? exp_at - now)
       && negb force
    then (Ret true, w, [])
    else if negb (str_truthy client_id) then
      (Ret false, w, [Log MsgNeedClientId])
    else if negb (str_truthy client_secret) then
      (Ret false, w, if force then [Log MsgNeedClientSecret] else [])
    else
      let data := {| pd_client_id := client_id;
                     pd_client_secret := client_secret;
                     pd_grant_type := "client_credentials" |} in
      match requests_post data with
      | inl e => (Ret false, w, [HttpPost data; Log (handler_msg e)])
      | inr r =>
        if negb (resp_ok r) then
          (Ret false, w,
           [HttpPost data;
            Log (MsgTokenHttpError (status_code r) (snippet (text r)))])
        else
          match json r with
          | inl e => (Ret false, w, [HttpPost data; Log (handler_msg e)])
          | inr (PDict payload) =>
            let access_token :=
              dict_get_default "access_token" (PStr "") payload in
            match py_int (dict_get_default "expires_in" (PInt 0) payload) with
            | None =>
                (Ret false, w,
                 [HttpPost data; Log (MsgUnknownError "int")])
            | Some expires_in =>
              if negb (truthy access_token) || (expires_in =? 0) then
                (Ret false, w, [HttpPost data; Log MsgTokenMalformed])
              else
                let c1 := dict_set "access_token" access_token (cfg w) in
                let c2 := dict_set "token_expires_at"
                            (PInt (now + expires_in)) c1 in
                let w1 := set_cfg c2 w in
                match access_token, _fmt_expiry_label now (now + expires_in) with
                | PStr tok, Some lbl =>
                    let w2 := set_token_widgets tok lbl w1 in
                    let c3 := dict_set "client_id" (PStr client_id) (cfg w2) in
                    let c4 := dict_set "save_client_secret"
                                (PBool (cb_save_secret w2)) c3 in
                    let c5 := if cb_save_secret w2
                              then dict_set "client_secret"
                                     (PStr client_secret) c4
                              else c4 in
                    let '(w3, evs) := _persist_config (set_cfg c5 w2) in
                    (Ret true, w3,
                     [HttpPost data] ++ evs ++ [Log MsgTokenOk])
                | PStr tok, None =>
                    (Ret false,
                     set_token_widgets tok (lbl_token_exp w1) w1,
                     [HttpPost data; Log (MsgUnknownError "localtime")])
                | _, _ =>
                    (Ret false, w1,
                     [HttpPost data; Log (MsgUnknownError "setText")])
                end
            end
          | inr _ =>
              (Ret false, w, [HttpPost data; Log (MsgUnknownError "get")])
          end
      end
  end.

(** [_invoke_check] *)
Definition _invoke_check (w : MainWindow) : list Event :=
  let logins := _channels w in
  match logins with
  | [] => [Log MsgNoChannels]
  | _ => [SigCheck logins]
  end.

(** [_start_poll]; the timer holds the interval it was started with, in
    milliseconds. *)
Definition _start_poll (requests_post : PostData → Exn + Response pyval)
    (now : Z) (w : MainWindow) : Outcome unit * MainWindow * list Event :=
  let '(w1, ev1) := _persist_config w in
  let w2 := set_live_sessions ∅ w1 in
  match _ensure_token requests_post now false false w2 with
  | (Raise e, w3, ev2) => (Raise e, w3, ev1 ++ ev2)
  | (Ret got, w3, ev2) =>
      let ev3 := if got then [] else [Log MsgNoToken] in
      let w4 := set_timer (Some (_current_interval_sec w3 * 1000))
                          false true w3 in
      (Ret tt, w4,
       ev1 ++ ev2 ++ ev3
       ++ [Log (MsgPollStarted (_current_interval_sec w4))]
       ++ _invoke_check w4)
  end.

(** [_on_result] as a method of the window. *)
Definition _on_result (now : Z) (result : odict Info) (w : MainWindow)
    : MainWindow * list Event :=
  let '(ls, evs) := on_result now result (live_sessions w) in
  (set_live_sessions ls w, evs).
End Window.

(** ** The worker: [TwitchChecker.check_channels] *)

(** Request headers, [{"Client-Id": ..., "Authorization": ...}]. *)
Definition Headers : Type := odict string.

(** One element of the upstream [data] list as the loop reads it. A field is
    [None] when the key is missing (for [title], [started_at] and [id] also
    when it is null). *)
Record StreamItem : Type := {
  user_login : option string;
  item_title : option string;
  item_started_at : option string;
  item_id : option string;
}.

(** [r.json().get("data", [])] as the loop walks it: the elements in order,
    [inl e] for an element on which the loop body raises [e]. *)
Definition StreamData : Type := list (Exn + StreamItem).

(** The text of an [errorSignal]. *)
Inductive ErrPayload : Type :=
  | ErrGiven (err : string)
  | ErrNotReady
  | ErrRefreshFailed
  | ErrQueryFailed (status : Z) (body : string)
  | ErrNetwork (e : string)
  | ErrUnknown (e : string).

(** What the worker does, in program order: the signals it emits and the
    calls it makes, each call with the answer it got. *)
Inductive CheckerEvent : Type :=
  | GetHeaders (force_refresh : bool) (answer : bool * Headers * string)
  | RequestsGet (headers : Headers) (params : list (string * string))
                (answer : Exn + Response StreamData)
  | AuthErrorSignal
  | ErrorSignal (p : ErrPayload)
  | ResultReady (out : odict Info).

(** The worker object: it holds the callable it was built with. The callable
    answers [(ok, headers, err)] and may change the world [W] (the token
    store, the network). *)
Record TwitchChecker (W : Type) : Type := {
  _get_headers : bool → W → (bool * Headers * string) * W;
}.
Arguments _get_headers {W} _ _ _.

(** [requests.get(TWITCH_HELIX_STREAMS, headers=..., params=..., timeout=10)]:
    an exception or a response. *)
Class Upstream (W : Type) : Type := {
  requests_get :
    Headers → list (string * string) → W → (Exn + Response StreamData) * W;
}.

(** [range(0, stop, step)] *)
Definition py_range (stop step : nat) : list nat :=
  map (λ k, (k * step)%nat) (seq 0 ((stop + step - 1) / step)%nat).

(** [[logins[i:i + 100] for i in range(0, len(logins), 100)]] *)
Definition chunks (logins : list string) : list (list string) :=
  map (λ i, firstn 100 (skipn i logins)) (py_range (length logins) 100).

Definition default_info : Info :=
  {| live := false; title := ""; started_at := ""; id := "" |}.

(** How one turn of the loop over the chunks ends. *)
Inductive Flow : Type :=
  | Continue
  | Break
  | Raised (e : Exn).

Section Checker.
Context `{PyRuntime} {W : Type} `{Upstream W}.

(** The list comprehension at the head of [check_channels]. *)
Definition normalize (logins : list string) : list string :=
  map (λ l, str_lower (str_strip l))
      (List.filter (λ l, str_truthy l && str_truthy (str_strip l)) logins).

(** The dict comprehension that fills [out]. *)
Definition initial_out (logins : list string) : odict Info :=
  fold_left (λ out l, dict_set l default_info out) logins [].

(** The loop [for item in data]. *)
Fixpoint read_items (data : StreamData) (out : odict Info)
    : odict Info * option Exn :=
  match data with
  | [] => (out, None)
  | inl e :: _ => (out, Some e)
  | inr item :: rest =>
      let login := str_lower (default "" (user_login item)) in
      read_items rest
        (dict_set login
           {| live := true;
              title := str_or (default "" (item_title item)) "";
              started_at := str_or (default "" (item_started_at item)) "";
              id := str_or (default "" (item_id item)) "" |}
           out)
  end.

(** The loop body from [if not r.ok] on, for the response [r] in hand. *)
Definition use_response (r : Response StreamData) (out : odict Info)
    : Flow * odict Info * list CheckerEvent :=
  if negb (resp_ok r) then
    (Continue, out,
     [ErrorSignal (ErrQueryFailed (status_code r) (snippet (text r)))])
  else
    match json r with
    | inl e => (Raised e, out, [])
    | inr data =>
        let '(out', raised) := read_items data out in
        (match raised with
         | Some e => Raised e
         | None => Continue
         end, out', [])
    end.

(** One turn of [for chunk in chunks]. *)
Definition do_chunk (self : TwitchChecker W) (headers : Headers)
    (chunk : list string) (out : odict Info) (w : W)
    : Flow * odict Info * W * list CheckerEvent :=
  let params := map (λ l, ("user_login", l)) chunk in
  let '(a1, w1) := requests_get headers params w in
  let ev1 := [RequestsGet headers params a1] in
  match a1 with
  | inl e => (Raised e, out, w1, ev1)
  | inr r =>
      if status_code r =? 401 then
        let '(a2, w2) := _get_headers self true w1 in
        let ev2 := ev1 ++ [AuthErrorSignal; GetHeaders true a2] in
        let '(ok2, headers2, err2) := a2 in
        if negb ok2 then
          (Break, out, w2,
           ev2 ++ [ErrorSignal (if str_truthy err2 then ErrGiven err2
                                else ErrRefreshFailed)])
        else
          let '(a3, w3) := requests_get headers2 params w2 in
          let ev3 := ev2 ++ [RequestsGet headers2 params a3] in
          match a3 with
          | inl e => (Raised e, out, w3, ev3)
          | inr r' =>
              let '(fl, out', ev4) := use_response r' out in
              (fl, out', w3, ev3 ++ ev4)
          end
      else
        let '(fl, out', ev4) := use_response r out in
        (fl, out', w1, ev1 ++ ev4)
  end.

(** [for chunk in chunks: ...] *)
Fixpoint run_chunks (self : TwitchChecker W) (headers : Headers)
    (cs : list (list string)) (out : odict Info) (w : W)
    : Flow * odict Info * W * list CheckerEvent :=
  match cs with
  | [] => (Continue, out, w, [])
  | chunk :: rest =>
      let '(fl, out1, w1, ev1) := do_chunk self headers chunk out w in
      match fl with
      | Continue =>
          let '(fl2, out2, w2, ev2) := run_chunks self headers rest out1 w1 in
          (fl2, out2, w2, ev1 ++ ev2)
      | Break => (Break, out1, w1, ev1)
      | Raised e => (Raised e, out1, w1, ev1)
      end
  end.

(** [check_channels] *)
Definition check_channels (self : TwitchChecker W) (logins : list string)
    (w : W) : list CheckerEvent * W :=
  let logins := normalize logins in
  let out := initial_out logins in
  match logins with
  | [] => ([ResultReady out], w)
  | _ :: _ =>
      let '(a, w1) := _get_headers self false w in
      let '(ok, headers, err) := a in
      if negb ok then
        ([GetHeaders false a;
          ErrorSignal (if str_truthy err then ErrGiven err else ErrNotReady);
          ResultReady out], w1)
      else
        let '(fl, out', w2, ev) :=
          run_chunks self headers (chunks logins) out w1 in
        (GetHeaders false a :: ev ++
           match fl with
           | Raised (RequestException m) =>
               [ErrorSignal (ErrNetwork m); ResultReady out']
           | Raised (OtherException m) =>
               [ErrorSignal (ErrUnknown m); ResultReady out']
           | Continue | Break => [ResultReady out']
           end, w2)
  end.
End Checker.

(** ** A runtime for ASCII text, and scripted collaborators

    Concrete instances of the interfaces above, used to run the model. *)

Definition is_space (c : ascii) : bool :=
  let n := nat_of_ascii c in
  ((n =? 32) || ((9 <=? n) && (n <=? 13)) || ((28 <=? n) && (n <=? 31)))%nat.

Fixpoint lstrip (s : string) : string :=
  match s with
  | EmptyString => EmptyString
  | String c s' => if is_space c then lstrip s' else s
  end.

Definition ascii_strip (s : string) : string :=
  String.rev (lstrip (String.rev (lstrip s))).

Definition lower_char (c : ascii) : ascii :=
  let n := nat_of_ascii c in
  if ((65 <=? n) && (n <=? 90))%nat then ascii_of_nat (n + 32) else c.

Fixpoint ascii_lower (s : string) : string :=
  match s with
  | EmptyString => EmptyString
  | String c s' => String (lower_char c) (ascii_lower s')
  end.

Fixpoint digits_value (s : string) (acc : Z) : option Z :=
  match s with
  | EmptyString => Some acc
  | String c s' =>
      let n := Z.of_nat (nat_of_ascii c) in
      if (48 <=? n) && (n <=? 57) then digits_value s' (10 * acc + (n - 48))
      else None
  end.

Definition ascii_int (s : string) : option Z :=
  match ascii_strip s with
  | EmptyString => None
  | String "-" (String c r) => Z.opp <$> digits_value (String c r) 0
  | String "+" (String c r) => digits_value (String c r) 0
  | String "-" EmptyString | String "+" EmptyString => None
  | t => digits_value t 0
  end.

Definition ascii_runtime : PyRuntime :=
  {| str_strip := ascii_strip; str_lower := ascii_lower;
     int_of_str := ascii_int |}.

(** A clock whose formatting never fails. *)
Definition plain_clock : Clock :=
  {| strftime_local := λ _, Some "yyyy-mm-dd HH:MM:SS" |}.

(** A world that plays back prepared answers: one list for the headers
    callable, one for [requests.get]. When a list runs out the callable fails
    and the request raises. *)
Record Script : Type := {
  header_answers : list (bool * Headers * string);
  get_answers : list (Exn + Response StreamData);
}.

Definition scripted_checker : TwitchChecker Script :=
  {| _get_headers := λ _ w,
       match header_answers w with
       | a :: rest =>
           (a, {| header_answers := rest; get_answers := get_answers w |})
       | [] => ((false, [], ""), w)
       end |}.

Definition scripted_upstream : Upstream Script :=
  {| requests_get := λ _ _ w,
       match get_answers w with
       | a :: rest =>
           (a, {| header_answers := header_answers w; get_answers := rest |})
       | [] => (inl (RequestException "no answer"), w)
       end |}.

(** ** Statements taken from the specification, for comparison *)

(** "Clamped to [lo, hi]", as a case distinction. *)
Definition clamped (lo hi v : Z) : Z :=
  if v <? lo then lo else if hi <? v then hi else v.

(** The number a text field stands for: 0 when it is empty or not a number. *)
Definition field_value `{PyRuntime} (s : string) : Z :=
  if (s =? "")%string then 0
  else match int_of_str s with
       | Some v => v
       | None => 0
       end.

(** How many requests in a trace carry the logins of [chunk]. *)
Definition requests_for (chunk : list string) (e : CheckerEvent) : bool :=
  match e with
  | RequestsGet _ params _ =>
      bool_decide (params = map (λ l, ("user_login", l)) chunk)
  | _ => false
  end.

(** No item of a successful response among the events [ev] is for the
    login [l]. *)
Definition unseen `{PyRuntime} (l : string) (ev : list CheckerEvent) : Prop :=
  ∀ h p r data item,
    RequestsGet h p (inr r) ∈ ev →
    resp_ok r = true →
    json r = inr data →
    inr item ∈ data →
    str_lower (default "" (user_login item)) ≠ l.

Definition is_request (e : CheckerEvent) : bool :=
  match e with
  | RequestsGet _ _ _ => true
  | _ => false
  end.

Definition is_error_signal (e : CheckerEvent) : bool :=
  match e with
  | ErrorSignal _ => true
  | _ => false
  end.

Definition is_result_ready (e : CheckerEvent) : bool :=
  match e with
  | ResultReady _ => true
  | _ => false
  end.

(** The specification's reading of a 401: the batch whose first answer is a
    401 is requested exactly twice, and every batch is requested. *)
Definition spec_retry_once (first : list string) (all : list (list string))
    (tr : list CheckerEvent) : Prop :=
  length (List.filter (requests_for first) tr) = 2%nat
  ∧ ∀ c, c ∈ all → (0 < length (List.filter (requests_for c) tr))%nat.


(** ** Sample polls *)

Definition alice_live (stream : string) : Info :=
  {| live := true; title := "speedrun"; started_at := "2024-05-01T10:00:00Z";
     id := stream |}.

Definition poll_alice (stream : string) : odict Info :=
  [("alice", alice_live stream); ("bob", default_info)].

Definition alice_session (stream : string) (seen : Z) (off : option Z)
    : Session :=
  {| session_id := stream; sess_started_at := "2024-05-01T10:00:00Z";
     last_seen := seen; offline_since := off |}.

(** ** Sample configurations, windows and token answers *)

Definition sample_cfg (secret : string) : odict pyval :=
  [("client_id", PStr "abc123"); ("client_secret", PStr secret);
   ("save_client_secret", PBool false); ("access_token", PStr "tok");
   ("token_expires_at", PInt 5000)].

Definition sample_window (minutes seconds : string) : MainWindow :=
  {| cfg := sample_cfg "hunter2";
     live_sessions := {["alice" := alice_session "100" 940 None]};
     le_client_id := "abc123"; le_client_secret := "hunter2";
     cb_save_secret := false; le_token := "tok"; lbl_token_exp := LblNotYet;
     le_minutes := minutes; le_seconds := seconds;
     list_channels := ["alice"; "bob"]; cb_autostart := false;
     timer := None; btn_start_enabled := true; btn_stop_enabled := false |}.

(** A token endpoint that always answers 200 with the given JSON object. *)
Definition answer_200 (payload : odict pyval)
    : PostData → Exn + Response pyval :=
  λ _, inr {| status_code := 200; text := ""; json := inr (PDict payload) |}.

(** A token endpoint that cannot be reached. *)
Definition unreachable : PostData → Exn + Response pyval :=
  λ _, inl (RequestException "timeout").

(** ** Sample worker runs *)

(** [n] channel names, [chan0], [chan1], ... *)
Definition channel_names (n : nat) : list string :=
  map (λ k, "chan" +:+ pretty k) (seq 0 n).

Definition bearer (token : string) : Headers :=
  [("Client-Id", "abc123"); ("Authorization", "Bearer " +:+ token)].

Definition answer (status : Z) (data : StreamData) : Exn + Response StreamData :=
  inr {| status_code := status; text := ""; json := inr data |}.

Definition item_for (login stream : string) : Exn + StreamItem :=
  inr {| user_login := Some login; item_title := Some "speedrun";
         item_started_at := Some "2024-05-01T10:00:00Z";
         item_id := Some stream |}.

(** The token is stale and cannot be refreshed: the first request is
    answered 401 and the forced refresh fails. *)
Definition stale_no_refresh : Script :=
  {| header_answers := [(true, bearer "old", "");
                        (false, [], "no valid access token")];
     get_answers := [answer 401 []; answer 200 []] |}.

(** The token is stale and the refresh works: 401, then 200 with [alice]
    live. *)
Definition stale_then_fresh : Script :=
  {| header_answers := [(true, bearer "old", ""); (true, bearer "new", "")];
     get_answers := [answer 401 []; answer 200 [item_for "Alice" "100"]] |}.

(** [stale_then_fresh] once the headers have been handed out, at the start
    of the loop over the batches. *)
Definition stale_in_loop : Script :=
  {| header_answers := [(true, bearer "new", "")];
     get_answers := [answer 401 []; answer 200 [item_for "Alice" "100"]] |}.

Definition unauthorized : Response StreamData :=
  {| status_code := 401; text := ""; json := inr [] |}.

(** The walk-through of the specification: [alice] goes live at 1000, is
    seen again at 1060, is offline at 1120. *)
Definition poll_alice_offline : odict Info :=
  [("alice", default_info); ("bob", default_info)].

Definition after_poll1 : gmap string Session :=
  (on_result 1000 (poll_alice "100") ∅).1.

Definition after_poll2 : gmap string Session :=
  (on_result 1060 (poll_alice "100") after_poll1).1.

Definition after_poll3 : gmap string Session :=
  (on_result 1120 poll_alice_offline after_poll2).1.

(** Every record's [offline_since], when there is one, is a real timestamp
    (not the epoch itself, which the program reads as "not set"). *)
Definition stamps_set (ls : gmap string Session) : Prop :=
  ∀ login sess, ls !! login = Some sess → offline_since sess ≠ Some 0.

(** ** More of the main window: channel list, manual check, credentials *)

(** Log lines of the methods below. *)
Inductive UiMsg : Type :=
  | MsgChannelExists (login : string)
  | MsgChannelAdded (login : string)
  | MsgChannelRemoved (login : string).

(** What these methods do to the outside: an event of the kinds above, or
    one of their own log lines. *)
Inductive UiEvent : Type :=
  | Core (e : Event)
  | UiLog (m : UiMsg).

Definition set_channels (cs : list string) (w : MainWindow) : MainWindow :=
  {| cfg := cfg w; live_sessions := live_sessions w;
     le_client_id := le_client_id w; le_client_secret := le_client_secret w;
     cb_save_secret := cb_save_secret w; le_token := le_token w;
     lbl_token_exp := lbl_token_exp w; le_minutes := le_minutes w;
     le_seconds := le_seconds w; list_channels := cs;
     cb_autostart := cb_autostart w; timer := timer w;
     btn_start_enabled := btn_start_enabled w;
     btn_stop_enabled := btn_stop_enabled w |}.

Definition set_interval_fields (minutes seconds : string) (w : MainWindow)
    : MainWindow :=
  {| cfg := cfg w; live_sessions := live_sessions w;
     le_client_id := le_client_id w; le_client_secret := le_client_secret w;
     cb_save_secret := cb_save_secret w; le_token := le_token w;
     lbl_token_exp := lbl_token_exp w; le_minutes := minutes;
     le_seconds := seconds; list_channels := list_channels w;
     cb_autostart := cb_autostart w; timer := timer w;
     btn_start_enabled := btn_start_enabled w;
     btn_stop_enabled := btn_stop_enabled w |}.

(** The loop of [_remove_channel_by_login]: take out the first row whose
    login is [login]. *)
Fixpoint take_first (login : string) (rows : list string) : list string :=
  match rows with
  | [] => []
  | row :: rest =>
      if (row =? login)%string then rest else row :: take_first login rest
  end.

(** [str(v)] for a value that is not a [str], as an f-string renders it. *)
Class PyStr : Type := {
  str_of : pyval → string;
}.

(** [f"{v}"] *)
Definition format_value `{PyStr} (v : pyval) : string :=
  match v with
  | PStr s => s
  | _ => str_of v
  end.

(** The two refusals of [_get_headers_safely]. *)
Definition NO_VALID_TOKEN : string := "尚未取得有效的 Access Token。".
Definition NOT_ENOUGH_CREDENTIALS : string := "認證資訊不足。".

(** An operand of integer arithmetic: an [int] or a [bool]; [None] when
    the operation raises [TypeError]. *)
Definition py_num (v : pyval) : option Z :=
  match v with
  | PInt z => Some z
  | PBool b => Some (if b then 1 else 0)
  | _ => None
  end.

Section WindowMore.
Context `{PyRuntime} `{Clock} `{PyStr}.

(** [_add_channel_item] *)
Definition _add_channel_item (login : string) (w : MainWindow)
    : MainWindow * list UiEvent :=
  let login := str_lower (str_strip login) in
  if negb (str_truthy login) then (w, [])
  else if existsb (λ c, (login =? c)%string) (_channels w) then
    (w, [UiLog (MsgChannelExists login)])
  else
    let '(w1, evs) :=
      _persist_config (set_channels (list_channels w ++ [login]) w) in
    (w1, map Core evs ++ [UiLog (MsgChannelAdded login)]).

(** The loop of [__init__] that fills the list from the configuration:
    [for c in self.cfg.get("channels", []): self._add_channel_item(c)]. *)
Fixpoint add_channels (cs : list string) (w : MainWindow)
    : MainWindow * list UiEvent :=
  match cs with
  | [] => (w, [])
  | c :: rest =>
      let '(w1, ev1) := _add_channel_item c w in
      let '(w2, ev2) := add_channels rest w1 in
      (w2, ev1 ++ ev2)
  end.

(** [_remove_channel_by_login] *)
Definition _remove_channel_by_login (login : string) (w : MainWindow)
    : MainWindow * list UiEvent :=
  let '(w1, evs) :=
    _persist_config (set_channels (take_first login (list_channels w)) w) in
  (w1, map Core evs ++ [UiLog (MsgChannelRemoved login)]).

(** [_manual_check] *)
Definition _manual_check (w : MainWindow) : MainWindow * list Event :=
  let '(w1, evs) := _persist_config w in
  (w1, evs ++ _invoke_check w1).

(** [_on_creds_changed]: the slot of both credential fields. *)
Definition _on_creds_changed (requests_post : PostData → Exn + Response pyval)
    (now : Z) (w : MainWindow) : Outcome unit * MainWindow * list Event :=
  let w1 := set_token_widgets "" (lbl_token_exp w) w in
  let c1 := dict_set "access_token" (PStr "") (cfg w1) in
  let c2 := dict_set "token_expires_at" (PInt 0) c1 in
  let w2 := set_cfg c2 w1 in
  match _fmt_expiry_label now 0 with
  | None => (Raise (OtherException "localtime"), w2, [])
  | Some lbl =>
      let w3 := set_token_widgets (le_token w2) lbl w2 in
      let '(w4, ev1) := _persist_config w3 in
      match _ensure_token requests_post now false false w4 with
      | (Raise e, w5, ev2) => (Raise e, w5, ev1 ++ ev2)
      | (Ret _, w5, ev2) => (Ret tt, w5, ev1 ++ ev2)
      end
  end.

(** [_get_headers_safely(force_refresh)]. The method reads the clock up to
    three times ([now1] in the first [_ensure_token], [now2] itself, [now3]
    in the second [_ensure_token]) and can send up to two requests, answered
    by [post1] and [post2]. *)
Definition _get_headers_safely
    (post1 post2 : PostData → Exn + Response pyval) (now1 now2 now3 : Z)
    (force_refresh : bool) (w : MainWindow)
    : Outcome (bool * Headers * string) * MainWindow * list Event :=
  match _ensure_token post1 now1 false force_refresh w with
  | (Raise e, w1, ev1) => (Raise e, w1, ev1)
  | (Ret false, w1, ev1) => (Ret (false, [], NO_VALID_TOKEN), w1, ev1)
  | (Ret true, w1, ev1) =>
      let near_expiry :=
        if truthy (dict_get_default "access_token" PNone (cfg w1)) then
          match py_num (dict_get_default "token_expires_at" (PInt 0)
                          (cfg w1)) with
          | Some exp_at => Some (exp_at - now2 <=? TOKEN_REFRESH_BUFFER_SEC)
          | None => None
          end
        else Some false in
      match near_expiry with
      | None => (Raise (OtherException "TypeError"), w1, ev1)
      | Some again =>
          let '(r2, w2, ev2) :=
            if again then _ensure_token post2 now3 false true w1
            else (Ret true, w1, []) in
          match r2 with
          | Raise e => (Raise e, w2, ev1 ++ ev2)
          | Ret _ =>
              let token := dict_get_default "access_token" (PStr "") (cfg w2) in
              let client_id := str_strip (le_client_id w2) in
              if negb (truthy token) || negb (str_truthy client_id) then
                (Ret (false, [], NOT_ENOUGH_CREDENTIALS), w2, ev1 ++ ev2)
              else
                (Ret (true,
                      [("Client-Id", client_id);
                       ("Authorization", "Bearer " +:+ format_value token)],
                      ""),
                 w2, ev1 ++ ev2)
          end
      end
  end.

(** The lines of [__init__] that fill the two interval fields from the
    configuration: [int(cfg.get("poll_interval_sec", 60))], then
    [divmod(max(1, total_sec), 60)], then [str] of each part. [None] when
    [int] raises. *)
Definition init_interval_fields (c : odict pyval) : option (string * string) :=
  match py_int (dict_get_default "poll_interval_sec" (PInt 60) c) with
  | None => None
  | Some total_sec =>
      let t := Z.max 1 total_sec in
      Some (pretty (t / 60), pretty (t mod 60))
  end.
End WindowMore.

(** Scalars the way Python prints them; containers are not rendered. *)
Definition scalar_str : PyStr :=
  {| str_of := λ v,
       match v with
       | PNone => "None"
       | PBool b => if b then "True" else "False"
       | PInt z => pretty z
       | PStr s => s
       | PList _ | PDict _ => "..."
       end |}.

(** A window whose channel list is empty. *)
Definition empty_window : MainWindow :=
  {| cfg := []; live_sessions := ∅; le_client_id := "abc123";
     le_client_secret := "hunter2"; cb_save_secret := false; le_token := "";
     lbl_token_exp := LblNotYet; le_minutes := "1"; le_seconds := "0";
     list_channels := []; cb_autostart := false; timer := None;
     btn_start_enabled := true; btn_stop_enabled := false |}.

(** A token endpoint that answers 200 with a one-hour token. *)
Definition fresh_token : PostData → Exn + Response pyval :=
  answer_200 [("access_token", PStr "newtok"); ("expires_in", PInt 3600)].

(** ** Readings of a worker run *)

(** The mapping [out] reports [l] as live. *)
Definition reported_live (l : string) (out : odict Info) : Prop :=
  ∃ info, dict_get l out = Some info ∧ live info = true.

(** The error text the two handlers of [check_channels] emit for [e]. *)
Definition exn_payload (e : Exn) : ErrPayload :=
  match e with
  | RequestException m => ErrNetwork m
  | OtherException m => ErrUnknown m
  end.

(** The token is fine but the network is down: the request raises. *)
Definition network_down : Script :=
  {| header_answers := [(true, bearer "old", "")]; get_answers := [] |}.

Definition alice_item : StreamItem :=
  {| user_login := Some "Alice"; item_title := Some "speedrun";
     item_started_at := Some "2024-05-01T10:00:00Z"; item_id := Some "100" |}.

Definition alice_listed : Response StreamData :=
  {| status_code := 200; text := ""; json := inr [inr alice_item] |}.

(** ** Readings of a window trace *)

Definition is_http_post (e : Event) : bool :=
  match e with
  | HttpPost _ => true
  | _ => false
  end.

(** The configuration [_persist_config] builds from the widgets of [w]. *)
Definition widgets_cfg `{PyRuntime} (w : MainWindow) : odict pyval :=
  dict_set "autostart" (PBool (cb_autostart w))
    (dict_set "channels" (PList (map PStr (_channels w)))
       (dict_set "poll_interval_sec" (PInt (_current_interval_sec w))
          (dict_set "access_token" (PStr (str_strip (le_token w)))
             (dict_set "save_client_secret" (PBool (cb_save_secret w))
                (dict_set "client_secret"
                   (PStr (str_strip (le_client_secret w)))
                   (dict_set "client_id"
                      (PStr (str_strip (le_client_id w))) (cfg w))))))).

(** A window with a saved channel and a secret the user asked to keep. *)
Definition keeper_window : MainWindow :=
  {| cfg := []; live_sessions := ∅; le_client_id := " abc123 ";
     le_client_secret := "hunter2"; cb_save_secret := true; le_token := "";
     lbl_token_exp := LblNotYet; le_minutes := "2"; le_seconds := "30";
     list_channels := ["alice"]; cb_autostart := false; timer := Some 60000;
     btn_start_enabled := false; btn_stop_enabled := true |}.

(** * Properties *)

(** ** Ordered dictionaries *)

Section OrderedDictFacts.
Context {V : Type}.
Implicit Types (d : odict V) (k : string) (v : V).

Lemma dict_get_set_eq k v d : dict_get k (dict_set k v d) = Some v.
Proof.
  induction d as [|[k' v'] d IH]; simpl.
  - by rewrite String.eqb_refl.
  - destruct (String.eqb_spec k k') as [->|Hne]; simpl.
    + by rewrite String.eqb_refl.
    + by rewrite (proj2 (String.eqb_neq k k') Hne).
Qed.

Lemma dict_get_set_ne k k' v d :
  k ≠ k' → dict_get k (dict_set k' v d) = dict_get k d.
Proof.
  intros Hne. induction d as [|[k2 v2] d IH]; simpl.
  - by rewrite (proj2 (String.eqb_neq k k') Hne).
  - destruct (String.eqb_spec k' k2) as [->|Hne2]; simpl.
    + by rewrite (proj2 (String.eqb_neq k k2) Hne).
    + by rewrite IH.
Qed.

Lemma dict_set_set k v v' d :
  dict_set k v' (dict_set k v d) = dict_set k v' d.
Proof.
  induction d as [|[k2 v2] d IH]; simpl.
  - by rewrite String.eqb_refl.
  - destruct (String.eqb_spec k k2) as [->|Hne]; simpl.
    + by rewrite String.eqb_refl.
    + by rewrite (proj2 (String.eqb_neq k k2) Hne), IH.
Qed.

Lemma dict_get_Some_keys k v d : dict_get k d = Some v → k ∈ dict_keys d.
Proof.
  induction d as [|[k2 v2] d IH]; simpl; [done|].
  destruct (String.eqb_spec k k2) as [->|Hne]; intros Hg.
  - apply list_elem_of_here.
  - apply list_elem_of_further, IH, Hg.
Qed.

Lemma dict_get_is_Some_set k k' v d :
  is_Some (dict_get k d) → is_Some (dict_get k (dict_set k' v d)).
Proof.
  intros Hs. destruct (decide (k = k')) as [->|Hne].
  - rewrite dict_get_set_eq. by eexists.
  - by rewrite dict_get_set_ne.
Qed.
End OrderedDictFacts.

(** ** The session tracker *)

Lemma append_inj_r (p a b : string) : p +:+ a = p +:+ b → a = b.
Proof.
  induction p as [|c p IH]; cbn [String.append]; [done|].
  intros Heq. apply IH. by simplify_eq.
Qed.

Lemma stream_url_inj a b : stream_url a = stream_url b → a = b.
Proof. apply append_inj_r. Qed.

Lemma opened_app login e1 e2 :
  opened login (e1 ++ e2) = (opened login e1 + opened login e2)%nat.
Proof. unfold opened. by rewrite List.filter_app, length_app. Qed.

Lemma opened_open_same login : opened login (_open_stream_once login) = 1%nat.
Proof.
  unfold opened, _open_stream_once; cbn [List.filter is_open].
  by rewrite String.eqb_refl.
Qed.

Lemma opened_open_other login other :
  login ≠ other → opened login (_open_stream_once other) = 0%nat.
Proof.
  intros Hne. unfold opened, _open_stream_once; cbn [List.filter is_open].
  destruct (String.eqb_spec (stream_url other) (stream_url login)) as [Heq|]; [|done].
  apply stream_url_inj in Heq. congruence.
Qed.

Lemma lookup_foldl_delete (l : list string) (m : gmap string Session) k :
  foldl (λ m login, delete login m) m l !! k
  = if decide (k ∈ l) then None else m !! k.
Proof.
  revert m. induction l as [|x l IH]; intros m; cbn [foldl].
  - destruct (decide (k ∈ [])) as [Hin|]; [by apply elem_of_nil in Hin | done].
  - rewrite IH. destruct (decide (k = x)) as [->|Hne].
    + rewrite lookup_delete_eq.
      destruct (decide (x ∈ x :: l)) as [|Hn]; [by destruct (decide (x ∈ l))|].
      exfalso. apply Hn, list_elem_of_here.
    + rewrite lookup_delete_ne by done.
      destruct (decide (k ∈ l)) as [H1|H1];
        destruct (decide (k ∈ x :: l)) as [H2|H2]; try done.
      * exfalso. apply H2. by apply list_elem_of_further.
      * exfalso. apply elem_of_cons in H2 as [?|?]; [done|]. by apply H1.
Qed.

Lemma elem_of_to_delete now ls k :
  k ∈ to_delete now ls ↔ ∃ s, ls !! k = Some s ∧ grace_over now s = true.
Proof.
  unfold to_delete. rewrite list_elem_of_fmap. split.
  - intros [[k' s] [-> Hin]]. apply list_elem_of_filter in Hin as [Hg Hin].
    apply elem_of_map_to_list in Hin. by exists s.
  - intros (s & Hl & Hg). exists (k, s). split; [done|].
    apply list_elem_of_filter. split; [done|]. by apply elem_of_map_to_list.
Qed.

(** The clean-up loop removes exactly the records whose grace is over. *)
Lemma sweep_lookup now ls k :
  sweep now ls !! k
  = match ls !! k with
    | Some s => if grace_over now s then None else Some s
    | None => None
    end.
Proof.
  unfold sweep. rewrite lookup_foldl_delete. case_decide as Hin.
  - apply elem_of_to_delete in Hin as (s & -> & ->). done.
  - destruct (ls !! k) as [s|] eqn:Hl; [|done].
    destruct (grace_over now s) eqn:Hg; [|done].
    exfalso. apply Hin, elem_of_to_delete. by exists s.
Qed.

(** A turn of the loop for another login leaves this login alone. *)
Lemma track_one_other now login other info ls :
  login ≠ other →
  (track_one now other info ls).1 !! login = ls !! login
  ∧ opened login (track_one now other info ls).2 = 0%nat.
Proof.
  intros Hne. unfold track_one.
  destruct (live info); destruct (ls !! other) as [prev|];
    repeat (match goal with |- context [if ?b then _ else _] => destruct b end);
    simpl; rewrite ?lookup_insert_ne by done;
    rewrite ?opened_open_other by done; done.
Qed.

(** What a turn does to its own login depends on that login's record only. *)
Lemma track_one_local now login info ls ls' :
  ls !! login = ls' !! login →
  (track_one now login info ls).1 !! login
  = (track_one now login info ls').1 !! login
  ∧ (track_one now login info ls).2 = (track_one now login info ls').2.
Proof.
  intros Heq. unfold track_one. rewrite <- Heq.
  destruct (live info); destruct (ls !! login) as [prev|] eqn:Hl;
    repeat (match goal with |- context [if ?b then _ else _] => destruct b end);
    simpl; rewrite ?lookup_insert_eq; try done.
  all: by rewrite Hl, <- Heq.
Qed.

Lemma track_all_absent now result login ls :
  login ∉ dict_keys result →
  (track_all now result ls).1 !! login = ls !! login
  ∧ opened login (track_all now result ls).2 = 0%nat.
Proof.
  revert ls. induction result as [|[other info] rest IH]; intros ls Hnot; [done|].
  simpl in *. apply not_elem_of_cons in Hnot as [Hne Hnot].
  destruct (track_one now other info ls) as [ls1 ev1] eqn:H1.
  destruct (track_all now rest ls1) as [ls2 ev2] eqn:H2. simpl.
  destruct (IH ls1 Hnot) as [IHa IHb]. rewrite H2 in IHa, IHb. simpl in *.
  destruct (track_one_other now login other info ls Hne) as [Ha Hb].
  rewrite H1 in Ha, Hb. simpl in *.
  by rewrite opened_app, IHa, IHb, Ha, Hb.
Qed.

(** In a result whose keys are distinct, a login's record and the pages
    opened for it are those of its own turn. *)
Lemma track_all_present now result login info ls :
  NoDup (dict_keys result) →
  (login, info) ∈ result →
  (track_all now result ls).1 !! login = (track_one now login info ls).1 !! login
  ∧ opened login (track_all now result ls).2
    = opened login (track_one now login info ls).2.
Proof.
  revert ls. induction result as [|[other info'] rest IH]; intros ls Hnd Hin.
  { by apply elem_of_nil in Hin. }
  simpl in *. apply NoDup_cons in Hnd as [Hfresh Hnd].
  destruct (track_one now other info' ls) as [ls1 ev1] eqn:H1.
  destruct (track_all now rest ls1) as [ls2 ev2] eqn:H2. simpl.
  apply elem_of_cons in Hin as [Heq|Hin].
  - simplify_eq. rewrite H1. simpl.
    destruct (track_all_absent now rest other ls1 Hfresh) as [Ha Hb].
    rewrite H2 in Ha, Hb. simpl in *.
    rewrite opened_app, Ha, Hb. split; [done|lia].
  - assert (login ≠ other) as Hne.
    { intros ->. apply Hfresh. apply list_elem_of_fmap. by exists (other, info). }
    destruct (IH ls1 Hnd Hin) as [IHa IHb]. rewrite H2 in IHa, IHb. simpl in *.
    destruct (track_one_other now login other info' ls Hne) as [Ha Hb].
    rewrite H1 in Ha, Hb. simpl in *.
    destruct (track_one_local now login info ls1 ls Ha) as [La Lb].
    rewrite opened_app, IHa, IHb, Hb, La, Lb. done.
Qed.

Lemma session_key_cases info :
  (id info ≠ "" → session_key info = id info)
  ∧ (id info = "" → session_key info = started_at info).
Proof.
  unfold session_key, str_or, str_truthy. split.
  - intros Hne. by rewrite (proj2 (String.eqb_neq _ _) Hne).
  - intros ->. simpl.
    destruct (String.eqb_spec (started_at info) "") as [->|]; done.
Qed.

(** A live channel without a record gets its page opened once and a new
    record. *)
Lemma first_live_is_new now result ls login info :
  NoDup (dict_keys result) →
  (login, info) ∈ result →
  live info = true →
  ls !! login = None →
  opened login (on_result now result ls).2 = 1%nat
  ∧ (on_result now result ls).1 !! login
    = Some {| session_id := session_key info;
              sess_started_at := started_at info;
              last_seen := now;
              offline_since := None |}.
Proof.
  intros Hnd Hin Hlive Hnone. unfold on_result.
  destruct (track_all_present now result login info (sweep now ls) Hnd Hin)
    as [-> ->].
  unfold track_one. rewrite Hlive, sweep_lookup, Hnone. cbn [fst snd].
  split; [apply opened_open_same | by rewrite lookup_insert_eq].
Qed.

(** [C1] A channel without a session record that a poll reports live gets
    its page opened exactly once by [_on_result], and gets a record whose
    session key is the stream id when that is not empty and the start
    timestamp otherwise. *)
Theorem first_live_opens_once now result ls login info :
  NoDup (dict_keys result) →
  (login, info) ∈ result →
  live info = true →
  ls !! login = None →
  opened login (on_result now result ls).2 = 1%nat
  ∧ ∃ r, (on_result now result ls).1 !! login = Some r
      ∧ (id info ≠ "" → session_id r = id info)
      ∧ (id info = "" → session_id r = started_at info)
      ∧ sess_started_at r = started_at info
      ∧ last_seen r = now
      ∧ offline_since r = None.
Proof.
  intros Hnd Hin Hlive Hnone.
  destruct (first_live_is_new now result ls login info Hnd Hin Hlive Hnone)
    as [Hone Hrec].
  split; [exact Hone|]. eexists; split; [exact Hrec|].
  destruct (session_key_cases info) as [Hid Hst]. by cbn.
Qed.

Lemma first_live_opens_once_witness :
  opened "alice" (on_result 1000 (poll_alice "100") ∅).2 = 1%nat
  ∧ ∃ r, (on_result 1000 (poll_alice "100") ∅).1 !! "alice" = Some r
      ∧ (id (alice_live "100") ≠ "" → session_id r = id (alice_live "100"))
      ∧ (id (alice_live "100") = ""
         → session_id r = started_at (alice_live "100"))
      ∧ sess_started_at r = started_at (alice_live "100")
      ∧ last_seen r = 1000
      ∧ offline_since r = None.
Proof.
  apply (first_live_opens_once 1000 (poll_alice "100") ∅ "alice"
           (alice_live "100")).
  - apply (bool_decide_unpack _). vm_compute. exact I.
  - apply list_elem_of_here.
  - reflexivity.
  - apply lookup_empty.
Defined.

(** [C2] For a channel that has a session record when the transition
    rules run, a live observation opens no page when its session key equals
    the record's, or when the key differs but [offline_since] is set and at
    most 300 seconds old. The record is refreshed either way: [last_seen]
    becomes [now], [offline_since] is cleared, and when the key differs the
    record takes the new key and start timestamp. This holds of the loop
    over the result, and so of [_on_result] for every record that its
    clean-up leaves in place. *)
Theorem known_session_not_reopened now result login info prev :
  NoDup (dict_keys result) →
  (login, info) ∈ result →
  live info = true →
  (session_key info = session_id prev
   ∨ (session_key info ≠ session_id prev
      ∧ ∃ t, offline_since prev = Some t ∧ t ≠ 0 ∧ now - t ≤ 300)) →
  let updated :=
    {| session_id := session_key info;
       sess_started_at :=
         if (session_key info =? session_id prev)%string
         then sess_started_at prev else started_at info;
       last_seen := now;
       offline_since := None |} in
  (∀ ls,
     ls !! login = Some prev →
     opened login (track_all now result ls).2 = 0%nat
     ∧ (track_all now result ls).1 !! login = Some updated)
  ∧ (∀ ls,
       ls !! login = Some prev →
       grace_over now prev = false →
       opened login (on_result now result ls).2 = 0%nat
       ∧ (on_result now result ls).1 !! login = Some updated).
Proof.
  intros Hnd Hin Hlive Hcase updated.
  assert (∀ ls, ls !! login = Some prev →
            opened login (track_all now result ls).2 = 0%nat
            ∧ (track_all now result ls).1 !! login = Some updated) as Hrules.
  { intros ls Hprev.
    destruct (track_all_present now result login info ls Hnd Hin) as [-> ->].
    unfold track_one. rewrite Hlive, Hprev. subst updated.
    destruct Hcase as [Hsame | (Hdiff & t & Hoff & Ht & Hle)].
    - rewrite Hsame, String.eqb_refl. cbn [fst snd].
      by rewrite lookup_insert_eq.
    - rewrite (proj2 (String.eqb_neq _ _) Hdiff).
      assert (within_grace now prev = true) as ->.
      { unfold within_grace, optint_truthy, RECONNECT_GRACE_SEC. rewrite Hoff.
        apply andb_true_iff. split; [|lia].
        apply negb_true_iff. lia. }
      cbn [fst snd]. by rewrite lookup_insert_eq. }
  split; [exact Hrules|].
  intros ls Hprev Hkeep. unfold on_result. apply Hrules.
  by rewrite sweep_lookup, Hprev, Hkeep.
Qed.

Lemma known_session_not_reopened_witness :
  opened "alice" (on_result 1240 (poll_alice "101") after_poll3).2 = 0%nat
  ∧ (on_result 1240 (poll_alice "101") after_poll3).1 !! "alice"
    = Some (alice_session "101" 1240 None).
Proof.
  apply (known_session_not_reopened 1240 (poll_alice "101") "alice"
           (alice_live "101") (alice_session "100" 1060 (Some 1120))).
  - apply (bool_decide_unpack _). vm_compute. exact I.
  - apply list_elem_of_here.
  - reflexivity.
  - right. split; [by vm_compute|].
    exists 1120. repeat split; [done|lia].
  - by vm_compute.
  - reflexivity.
Defined.

(** [C3] [_on_result] first drops every record whose [offline_since] is set
    and more than 300 seconds old, and only then runs the transition rules;
    so a channel seen live after its grace is over gets its page opened
    again, whatever its session key. *)
Theorem expired_record_swept_then_reopened now ls login prev t :
  ls !! login = Some prev →
  offline_since prev = Some t →
  t ≠ 0 →
  300 < now - t →
  sweep now ls !! login = None
  ∧ ∀ result info,
      NoDup (dict_keys result) →
      (login, info) ∈ result →
      live info = true →
      on_result now result ls = track_all now result (sweep now ls)
      ∧ opened login (on_result now result ls).2 = 1%nat
      ∧ (on_result now result ls).1 !! login
        = Some {| session_id := session_key info;
                  sess_started_at := started_at info;
                  last_seen := now;
                  offline_since := None |}.
Proof.
  intros Hprev Hoff Ht Hlate.
  assert (sweep now ls !! login = None) as Hgone.
  { rewrite sweep_lookup, Hprev.
    assert (grace_over now prev = true) as ->; [|done].
    unfold grace_over, optint_truthy, RECONNECT_GRACE_SEC. rewrite Hoff.
    apply andb_true_iff. split; [apply negb_true_iff|]; lia. }
  split; [done|]. intros result info Hnd Hin Hlive.
  split; [done|]. unfold on_result.
  destruct (track_all_present now result login info (sweep now ls) Hnd Hin)
    as [-> ->].
  unfold track_one. rewrite Hlive, Hgone. cbn [fst snd].
  split; [apply opened_open_same | by rewrite lookup_insert_eq].
Qed.

Lemma expired_record_swept_then_reopened_witness :
  sweep 1400 {["alice" := alice_session "100" 940 (Some 1000)]} !! "alice"
  = None
  ∧ opened "alice"
      (on_result 1400 (poll_alice "100")
         {["alice" := alice_session "100" 940 (Some 1000)]}).2 = 1%nat.
Proof.
  destruct (expired_record_swept_then_reopened 1400
              {["alice" := alice_session "100" 940 (Some 1000)]} "alice"
              (alice_session "100" 940 (Some 1000)) 1000) as [Hgone Hopen].
  - apply lookup_singleton_eq.
  - reflexivity.
  - lia.
  - lia.
  - split; [exact Hgone|].
    apply (Hopen (poll_alice "100") (alice_live "100")).
    + apply (bool_decide_unpack _). vm_compute. exact I.
    + apply list_elem_of_here.
    + reflexivity.
Defined.

(** The program reads an [offline_since] of 0 like a missing one. *)
Lemma offline_zero_reads_unset now sess :
  offline_since sess = Some 0 →
  grace_over now sess = false ∧ within_grace now sess = false.
Proof. unfold grace_over, within_grace. by intros ->. Qed.

Lemma track_one_stamps now login info ls :
  now ≠ 0 → stamps_set ls → stamps_set (track_one now login info ls).1.
Proof.
  intros Hnow Hls l s. unfold track_one.
  destruct (live info); destruct (ls !! login) as [prev|] eqn:Hprev;
    repeat (match goal with |- context [if ?b then _ else _] => destruct b end);
    cbn [fst]; try apply Hls.
  all: destruct (decide (l = login)) as [->|Hne];
    [ rewrite lookup_insert_eq; intros [= <-]; cbn; congruence
    | rewrite lookup_insert_ne by done; apply Hls ].
Qed.

Lemma track_all_stamps now result ls :
  now ≠ 0 → stamps_set ls → stamps_set (track_all now result ls).1.
Proof.
  intros Hnow. revert ls.
  induction result as [|[login info] rest IH]; intros ls Hls; [done|].
  cbn [track_all].
  pose proof (track_one_stamps now login info ls Hnow Hls) as H1.
  destruct (track_one now login info ls) as [ls1 ev1]. cbn [fst] in H1.
  specialize (IH ls1 H1).
  by destruct (track_all now rest ls1) as [ls2 ev2].
Qed.

(** With a clock that never reads 0, [_on_result] never stores an
    [offline_since] of 0: the records it keeps are all properly stamped. *)
Lemma on_result_stamps now result ls :
  now ≠ 0 → stamps_set ls → stamps_set (on_result now result ls).1.
Proof.
  intros Hnow Hls. apply track_all_stamps; [done|].
  intros l s. rewrite sweep_lookup.
  destruct (ls !! l) as [s'|] eqn:Hl; [|done].
  destruct (grace_over now s'); [done|]. intros [= <-]. by eapply Hls.
Qed.

Example poll1_opens_alice_only :
  opened "alice" (on_result 1000 (poll_alice "100") ∅).2 = 1%nat
  ∧ opened "bob" (on_result 1000 (poll_alice "100") ∅).2 = 0%nat
  ∧ after_poll1 !! "bob" = None.
Proof. by vm_compute. Qed.

Example poll2_same_stream_is_quiet :
  (on_result 1060 (poll_alice "100") after_poll1).2 = [].
Proof. by vm_compute. Qed.

Example poll3_offline_starts_grace :
  after_poll3 !! "alice" = Some (alice_session "100" 1060 (Some 1120))
  ∧ (on_result 1120 poll_alice_offline after_poll2).2
    = [Log (MsgTempOffline "alice" 300)].
Proof. by vm_compute. Qed.

Example poll4_reconnect_is_suppressed :
  on_result 1240 (poll_alice "101") after_poll3
  = ({["alice" := alice_session "101" 1240 None]},
     [Log (MsgReconnected "alice")]).
Proof. by vm_compute. Qed.

Example reconnect_at_the_boundary_is_suppressed :
  opened "alice" (on_result 1420 (poll_alice "101") after_poll3).2 = 0%nat.
Proof. by vm_compute. Qed.

Example reconnect_after_grace_opens_again :
  opened "alice" (on_result 1421 (poll_alice "102") after_poll3).2 = 1%nat.
Proof. by vm_compute. Qed.

(** The same stream coming back after the grace is over is opened again:
    its record was dropped by the clean-up. *)
Example same_stream_after_grace_opens_again :
  opened "alice" (on_result 1421 (poll_alice "100") after_poll3).2 = 1%nat.
Proof. by vm_compute. Qed.

(** A new stream id while the channel was never seen offline is a new
    broadcast. *)
Example new_stream_without_gap_opens :
  opened "alice" (on_result 1060 (poll_alice "101") after_poll1).2 = 1%nat.
Proof. by vm_compute. Qed.

(** ** The interval and the start of polling *)

Section WindowFacts.
Context `{PyRuntime} `{Clock}.

Lemma ival_clamped s lo hi :
  _ival s lo hi 0 = Z.max lo (Z.min hi (field_value s)).
Proof.
  unfold _ival, field_value, str_truthy.
  by destruct (String.eqb_spec s "").
Qed.

Lemma max_min_clamped lo hi v :
  lo ≤ hi → Z.max lo (Z.min hi v) = clamped lo hi v.
Proof.
  intros Hle. unfold clamped.
  destruct (Z.ltb_spec v lo); [lia|]. destruct (Z.ltb_spec hi v); lia.
Qed.

Lemma persist_config_frame w :
  live_sessions (_persist_config w).1 = live_sessions w
  ∧ le_minutes (_persist_config w).1 = le_minutes w
  ∧ le_seconds (_persist_config w).1 = le_seconds w.
Proof.
  unfold _persist_config.
  by destruct (save_config _ _) as [h doc].
Qed.

Lemma ensure_token_frame post now force force_refresh w :
  live_sessions (_ensure_token post now force force_refresh w).1.2
  = live_sessions w
  ∧ le_minutes (_ensure_token post now force force_refresh w).1.2
    = le_minutes w
  ∧ le_seconds (_ensure_token post now force force_refresh w).1.2
    = le_seconds w.
Proof.
  unfold _ensure_token.
  repeat (match goal with
          | |- context [match ?x with _ => _ end] =>
              lazymatch x with
              | _persist_config _ => fail
              | _ => destruct x eqn:?
              end
          end; cbn [fst snd]); try done.
  all: match goal with
       | |- context [_persist_config ?x] =>
           destruct (persist_config_frame x) as (Ha & Hb & Hc);
           destruct (_persist_config x) as [w3 evs]
       end.
  all: cbn [fst snd] in *; by rewrite Ha, Hb, Hc.
Qed.

Lemma interval_depends_on_fields w w' :
  le_minutes w = le_minutes w' → le_seconds w = le_seconds w' →
  _current_interval_sec w = _current_interval_sec w'.
Proof. unfold _current_interval_sec. by intros -> ->. Qed.
End WindowFacts.

(** ** The configuration file *)

(** The document [save_config] writes for a dictionary with entries [d]. *)
Lemma save_config_run cfg h d :
  h !! cfg = Some d →
  (save_config cfg h).2
  = Some (if truthy (dict_get_default "save_client_secret" (PBool false) d)
          then d else dict_set "client_secret" (PStr "") d)
  ∧ ∀ l, is_Some (h !! l) → (save_config cfg h).1 !! l = h !! l.
Proof.
  intros Hd. unfold save_config, dict_copy. rewrite Hd.
  set (l := fresh (dom h)).
  assert (h !! l = None) as Hl by apply not_elem_of_dom, is_fresh.
  unfold obj_get_default, obj_set. rewrite lookup_insert_eq.
  destruct (truthy (dict_get_default "save_client_secret" (PBool false) d));
    cbn [negb fst snd].
  - rewrite lookup_insert_eq. split; [done|].
    intros l' [x Hx]. rewrite lookup_insert_ne; [done|]. congruence.
  - rewrite lookup_alter_eq, lookup_insert_eq. split; [done|].
    intros l' [x Hx].
    rewrite lookup_alter_ne, lookup_insert_ne; [done| |]; congruence.
Qed.

(** [C10] When [save_client_secret] is false or missing, the document
    [save_config] writes has an empty [client_secret]; a configuration that
    differs from this one in [client_secret] only is written as the same
    document; and the dictionary passed in, like every other object, is
    left as it was. *)
Theorem secret_kept_out_of_file cfg h d :
  h !! cfg = Some d →
  (dict_get "save_client_secret" d = None
   ∨ dict_get "save_client_secret" d = Some (PBool false)) →
  (∃ doc, (save_config cfg h).2 = Some doc
          ∧ dict_get "client_secret" doc = Some (PStr ""))
  ∧ (∀ secret cfg' h',
       h' !! cfg' = Some (dict_set "client_secret" secret d) →
       (save_config cfg' h').2 = (save_config cfg h).2)
  ∧ (save_config cfg h).1 !! cfg = Some d
  ∧ ∀ l, is_Some (h !! l) → (save_config cfg h).1 !! l = h !! l.
Proof.
  intros Hd Hflag.
  assert (∀ secret,
    truthy (dict_get_default "save_client_secret" (PBool false)
              (dict_set "client_secret" secret d)) = false) as Hoff.
  { intros secret. unfold dict_get_default.
    rewrite dict_get_set_ne by done. by destruct Hflag as [-> | ->]. }
  assert (truthy (dict_get_default "save_client_secret" (PBool false) d)
          = false) as Hoff0.
  { unfold dict_get_default. by destruct Hflag as [-> | ->]. }
  destruct (save_config_run cfg h d Hd) as [Hdoc Hframe].
  rewrite Hoff0 in Hdoc. repeat split.
  - eexists. split; [exact Hdoc|]. apply dict_get_set_eq.
  - intros secret cfg' h' Hd'.
    destruct (save_config_run cfg' h' _ Hd') as [Hdoc' _].
    by rewrite Hdoc', Hdoc, Hoff, dict_set_set.
  - rewrite Hframe; [done|]. by eexists.
  - exact Hframe.
Qed.

Lemma secret_kept_out_of_file_witness :
  (save_config 1%positive {[1%positive := sample_cfg "hunter2"]}).2
  = Some (sample_cfg "")
  ∧ (save_config 1%positive {[1%positive := sample_cfg "other"]}).2
    = (save_config 1%positive {[1%positive := sample_cfg "hunter2"]}).2
  ∧ (save_config 1%positive {[1%positive := sample_cfg "hunter2"]}).1
      !! 1%positive
    = Some (sample_cfg "hunter2").
Proof.
  destruct (secret_kept_out_of_file 1%positive
              {[1%positive := sample_cfg "hunter2"]} (sample_cfg "hunter2"))
    as (_ & Hsame & Hkept & _).
  - apply lookup_singleton_eq.
  - right. reflexivity.
  - split; [by vm_compute|]. split; [|exact Hkept].
    apply (Hsame (PStr "other")). apply lookup_singleton_eq.
Defined.

(** ** The token *)

Section TokenFacts.
Context `{PyRuntime} `{Clock}.

(** [_persist_config] leaves in [self.cfg] the seven entries it sets. *)
Lemma persist_config_cfg w :
  cfg (_persist_config w).1
  = dict_set "autostart" (PBool (cb_autostart w))
      (dict_set "channels" (PList (map PStr (_channels w)))
         (dict_set "poll_interval_sec" (PInt (_current_interval_sec w))
            (dict_set "access_token" (PStr (str_strip (le_token w)))
               (dict_set "save_client_secret" (PBool (cb_save_secret w))
                  (dict_set "client_secret"
                     (PStr (str_strip (le_client_secret w)))
                     (dict_set "client_id"
                        (PStr (str_strip (le_client_id w))) (cfg w))))))).
Proof.
  unfold _persist_config.
  match goal with
  | |- context [save_config ?a ?h] =>
      destruct (save_config_run a h _ (lookup_singleton_eq _ _)) as [_ Hf];
      specialize (Hf a); destruct (save_config a h) as [h' doc]
  end.
  cbn [fst snd] in *. rewrite Hf by (rewrite lookup_singleton_eq; by eexists).
  by rewrite lookup_singleton_eq.
Qed.

Lemma persist_config_keeps_expiry w :
  dict_get "token_expires_at" (cfg (_persist_config w).1)
  = dict_get "token_expires_at" (cfg w).
Proof. rewrite persist_config_cfg. by rewrite !dict_get_set_ne by done. Qed.


(** [C5] With no forced refresh, a cached token that is not empty and has
    more than 300 seconds left, [_ensure_token] succeeds at once: no
    request is sent and the window, its configuration included, is left as
    it was. *)
Theorem cached_token_reused post now w tok exp :
  dict_get "access_token" (cfg w) = Some (PStr tok) →
  tok ≠ "" →
  dict_get "token_expires_at" (cfg w) = Some (PInt exp) →
  300 < exp - now →
  _ensure_token post now false false w = (Ret true, w, []).
Proof.
  intros Htok Hne Hexp Hleft. unfold _ensure_token, dict_get_default.
  rewrite Hexp, Htok. cbn [py_int truthy negb andb].
  rewrite (proj2 (String.eqb_neq _ _) Hne). cbn [negb andb].
  unfold TOKEN_REFRESH_BUFFER_SEC.
  by rewrite (proj2 (Z.ltb_lt _ _) Hleft).
Qed.
End TokenFacts.

Lemma cached_token_reused_witness :
  @_ensure_token ascii_runtime plain_clock unreachable 1000 false false
    (sample_window "1" "0")
  = (Ret true, sample_window "1" "0", []).
Proof.
  apply (@cached_token_reused ascii_runtime plain_clock unreachable 1000
           (sample_window "1" "0") "tok" 5000).
  - reflexivity.
  - discriminate.
  - reflexivity.
  - lia.
Defined.

Section ExchangeFacts.
Context `{PyRuntime} `{Clock}.



End ExchangeFacts.



(** An [expires_in] that [int()] refuses is not reported as malformed, even
    with no [access_token] at all: the conversion raises first. *)
Example unconvertible_expiry_is_unknown_error :
  @_ensure_token ascii_runtime plain_clock
    (answer_200 [("expires_in", PStr "abc")]) 1000 true false
    (sample_window "1" "0")
  = (Ret false, sample_window "1" "0",
     [HttpPost {| pd_client_id := "abc123"; pd_client_secret := "hunter2";
                  pd_grant_type := "client_credentials" |};
      Log (MsgUnknownError "int")]).
Proof. reflexivity. Qed.


(** ** The poll interval and the start of polling *)

Section SchedulerFacts.
Context `{PyRuntime} `{Clock}.

Lemma start_poll_returns post now w :
  is_Some (py_int (dict_get_default "token_expires_at" (PInt 0) (cfg w))) →
  ∃ w' evs,
    _start_poll post now w = (Ret tt, w', evs)
    ∧ timer w' = Some (_current_interval_sec w * 1000)
    ∧ live_sessions w' = ∅.
Proof.
  intros [exp Hexp]. unfold _start_poll.
  pose proof (persist_config_frame w) as (_ & Hm & Hs).
  pose proof (persist_config_keeps_expiry w) as Hk.
  destruct (_persist_config w) as [w1 ev1]. cbn [fst snd] in *.
  pose proof (ensure_token_frame post now false false
                (set_live_sessions ∅ w1)) as (Hl & Hm2 & Hs2).
  destruct (_ensure_token post now false false (set_live_sessions ∅ w1))
    as [[[got|e] w3] ev2] eqn:Hrun; cbn [fst snd] in *.
  - eexists _, _. split; [done|]. cbn [timer set_timer live_sessions].
    split; [|done]. f_equal. f_equal.
    cbn [le_minutes le_seconds set_live_sessions] in *.
    apply interval_depends_on_fields; congruence.
  - exfalso. revert Hrun. unfold _ensure_token.
    cbn [cfg set_live_sessions]. unfold dict_get_default in *.
    rewrite Hk, Hexp.
    repeat (match goal with
            | |- context [match ?x with _ => _ end] => destruct x
            end; try discriminate).
Qed.

Lemma start_poll_clears post now w :
  live_sessions (_start_poll post now w).1.2 = ∅.
Proof.
  unfold _start_poll.
  destruct (_persist_config w) as [w1 ev1].
  pose proof (ensure_token_frame post now false false
                (set_live_sessions ∅ w1)) as (Hl & _).
  by destruct (_ensure_token post now false false (set_live_sessions ∅ w1))
    as [[[got|e] w3] ev2].
Qed.

(** [C8] [_current_interval_sec] clamps the minutes field to [0, 9999]
    and the seconds field to [0, 59], each on its own and with an empty or
    non-numeric text read as 0, and returns [max(1, 60 * minutes +
    seconds)]; so the interval is at least one second, and [_start_poll]
    arms the timer with it (in milliseconds). *)
Theorem interval_clamped_at_least_one w :
  let m := clamped 0 9999 (field_value (le_minutes w)) in
  let s := clamped 0 59 (field_value (le_seconds w)) in
  _current_interval_sec w = Z.max 1 (60 * m + s)
  ∧ 0 ≤ m ≤ 9999
  ∧ 0 ≤ s ≤ 59
  ∧ 1 ≤ _current_interval_sec w
  ∧ ∀ post now,
      is_Some (py_int (dict_get_default "token_expires_at" (PInt 0)
                         (cfg w))) →
      ∃ w' evs,
        _start_poll post now w = (Ret tt, w', evs)
        ∧ timer w' = Some (_current_interval_sec w * 1000)
        ∧ 1000 ≤ _current_interval_sec w * 1000.
Proof.
  intros m s.
  assert (_current_interval_sec w = Z.max 1 (60 * m + s)) as Heq.
  { unfold _current_interval_sec. rewrite !ival_clamped.
    rewrite !max_min_clamped by lia. subst m s. f_equal. lia. }
  assert (0 ≤ m ≤ 9999) as Hm.
  { subst m. unfold clamped.
    destruct (Z.ltb_spec (field_value (le_minutes w)) 0); [lia|].
    destruct (Z.ltb_spec 9999 (field_value (le_minutes w))); lia. }
  assert (0 ≤ s ≤ 59) as Hs.
  { subst s. unfold clamped.
    destruct (Z.ltb_spec (field_value (le_seconds w)) 0); [lia|].
    destruct (Z.ltb_spec 59 (field_value (le_seconds w))); lia. }
  repeat split; try lia.
  intros post now Hint.
  destruct (start_poll_returns post now w Hint) as (w' & evs & Hrun & Ht & _).
  exists w', evs. repeat split; try done. lia.
Qed.

(** [C9] [_start_poll] empties [live_sessions], whatever was tracked
    before; so on the next poll result every channel reported live gets
    its page opened, once. *)
Theorem start_poll_forgets_sessions post now w :
  live_sessions (_start_poll post now w).1.2 = ∅
  ∧ ∀ now' result login info,
      NoDup (dict_keys result) →
      (login, info) ∈ result →
      live info = true →
      opened login
        (_on_result now' result (_start_poll post now w).1.2).2 = 1%nat.
Proof.
  pose proof (start_poll_clears post now w) as Hclear.
  split; [done|]. intros now' result login info Hnd Hin Hlive.
  unfold _on_result. rewrite Hclear.
  pose proof (first_live_is_new now' result ∅ login info Hnd Hin Hlive
                (lookup_empty _)) as [Hone _].
  by destruct (on_result now' result ∅) as [ls evs].
Qed.
End SchedulerFacts.

Lemma interval_clamped_at_least_one_witness :
  @_current_interval_sec ascii_runtime (sample_window "2" "75") = 179
  ∧ ∃ w' evs,
      @_start_poll ascii_runtime plain_clock unreachable 1000
        (sample_window "2" "75") = (Ret tt, w', evs)
      ∧ timer w' = Some 179000.
Proof.
  destruct (@interval_clamped_at_least_one ascii_runtime plain_clock
              (sample_window "2" "75")) as (_ & _ & _ & _ & Hstart).
  split; [reflexivity|].
  destruct (Hstart unreachable 1000) as (w' & evs & Hrun & Htimer & _).
  - by eexists.
  - exists w', evs. split; [exact Hrun|]. rewrite Htimer. reflexivity.
Defined.

Lemma start_poll_forgets_sessions_witness :
  opened "alice"
    (_on_result 1060 (poll_alice "100")
       (@_start_poll ascii_runtime plain_clock unreachable 1000
          (sample_window "1" "0")).1.2).2 = 1%nat.
Proof.
  apply (proj2 (@start_poll_forgets_sessions ascii_runtime plain_clock
                  unreachable 1000 (sample_window "1" "0"))
           1060 (poll_alice "100") "alice" (alice_live "100")).
  - apply (bool_decide_unpack _). vm_compute. exact I.
  - apply list_elem_of_here.
  - reflexivity.
Defined.

(** ** The worker *)

Section CheckerFacts.
Context `{PyRuntime} {W : Type} `{Upstream W}.

Lemma unseen_app l e1 e2 : unseen l (e1 ++ e2) → unseen l e1 ∧ unseen l e2.
Proof.
  intros Hu. split; intros h p r data item Hin; eapply Hu;
    apply elem_of_app; [by left | by right].
Qed.

Lemma initial_out_default l logins :
  l ∈ logins → dict_get l (initial_out logins) = Some default_info.
Proof.
  unfold initial_out.
  assert (∀ acc, l ∈ logins ∨ dict_get l acc = Some default_info →
          dict_get l (fold_left (λ out l, dict_set l default_info out)
                        logins acc) = Some default_info) as Hgen.
  { induction logins as [|x xs IH]; intros acc Hor; cbn [fold_left].
    - destruct Hor as [Hin|Hg]; [by apply elem_of_nil in Hin | done].
    - apply IH. destruct Hor as [Hin|Hg].
      + apply elem_of_cons in Hin as [->|Hin]; [|by left].
        right. apply dict_get_set_eq.
      + destruct (decide (l = x)) as [->|Hne].
        * right. apply dict_get_set_eq.
        * right. by rewrite dict_get_set_ne. }
  intros Hin. apply Hgen. by left.
Qed.

Lemma read_items_keeps data out l :
  (is_Some (dict_get l out) → is_Some (dict_get l (read_items data out).1))
  ∧ ((∀ item, inr item ∈ data →
        str_lower (default "" (user_login item)) ≠ l) →
     dict_get l (read_items data out).1 = dict_get l out).
Proof.
  revert out. induction data as [|[e|item] rest IH]; intros out;
    cbn [read_items fst]; [done|done|].
  destruct (IH (dict_set (str_lower (default "" (user_login item)))
                  {| live := true;
                     title := str_or (default "" (item_title item)) "";
                     started_at :=
                       str_or (default "" (item_started_at item)) "";
                     id := str_or (default "" (item_id item)) "" |} out))
    as [IHa IHb].
  split.
  - intros Hs. by apply IHa, dict_get_is_Some_set.
  - intros Hno. rewrite IHb.
    + apply dict_get_set_ne. intros ->. eapply Hno; [|done].
      apply list_elem_of_here.
    + intros it Hin. apply Hno. by apply list_elem_of_further.
Qed.

Lemma use_response_keeps r out l :
  (is_Some (dict_get l out) → is_Some (dict_get l (use_response r out).1.2))
  ∧ ((resp_ok r = true → ∀ data item, json r = inr data → inr item ∈ data →
        str_lower (default "" (user_login item)) ≠ l) →
     dict_get l (use_response r out).1.2 = dict_get l out)
  ∧ List.filter is_result_ready (use_response r out).2 = []
  ∧ List.filter is_request (use_response r out).2 = [].
Proof.
  unfold use_response. destruct (resp_ok r); cbn [negb]; [|done].
  destruct (json r) as [e|data]; [done|].
  destruct (read_items_keeps data out l) as [Ha Hb].
  destruct (read_items data out) as [out' raised]. cbn [fst snd] in *.
  repeat split; try done.
  intros Hno. apply Hb. intros item Hin. by eapply Hno.
Qed.

Lemma do_chunk_keeps self headers chunk out w l :
  (is_Some (dict_get l out) →
   is_Some (dict_get l (do_chunk self headers chunk out w).1.1.2))
  ∧ (unseen l (do_chunk self headers chunk out w).2 →
     dict_get l (do_chunk self headers chunk out w).1.1.2 = dict_get l out)
  ∧ List.filter is_result_ready (do_chunk self headers chunk out w).2 = [].
Proof.
  unfold do_chunk.
  destruct (requests_get headers _ w) as [[e|r] w1]; [done|].
  destruct (status_code r =? 401).
  - destruct (_get_headers self true w1) as [[[ok2 headers2] err2] w2].
    destruct ok2; cbn [negb]; [|done].
    destruct (requests_get headers2 _ w2) as [[e|r'] w3]; [done|].
    destruct (use_response_keeps r' out l) as (Ha & Hb & Hc & _).
    destruct (use_response r' out) as [[fl out'] ev4]. cbn [fst snd] in *.
    split; [exact Ha|split].
    + intros Hu. apply Hb. intros Hok data item Hj Hin.
      eapply (Hu headers2 _ r' data item); try done.
      rewrite !elem_of_app, !elem_of_cons. left; right. by left.
    + by rewrite !List.filter_app, Hc.
  - destruct (use_response_keeps r out l) as (Ha & Hb & Hc & _).
    destruct (use_response r out) as [[fl out'] ev4]. cbn [fst snd] in *.
    split; [exact Ha|split].
    + intros Hu. apply Hb. intros Hok data item Hj Hin.
      eapply (Hu headers _ r data item); try done.
      rewrite !elem_of_app, !elem_of_cons. left. by left.
    + by rewrite !List.filter_app, Hc.
Qed.

Lemma run_chunks_keeps self headers cs out w l :
  (is_Some (dict_get l out) →
   is_Some (dict_get l (run_chunks self headers cs out w).1.1.2))
  ∧ (unseen l (run_chunks self headers cs out w).2 →
     dict_get l (run_chunks self headers cs out w).1.1.2 = dict_get l out)
  ∧ List.filter is_result_ready (run_chunks self headers cs out w).2 = [].
Proof.
  revert out w. induction cs as [|chunk rest IH]; intros out w;
    cbn [run_chunks]; [done|].
  destruct (do_chunk_keeps self headers chunk out w l) as (Ha & Hb & Hc).
  destruct (do_chunk self headers chunk out w) as [[[fl out1] w1] ev1].
  cbn [fst snd] in *. destruct fl; [|done|done].
  destruct (IH out1 w1) as (IHa & IHb & IHc).
  destruct (run_chunks self headers rest out1 w1) as [[[fl2 out2] w2] ev2].
  cbn [fst snd] in *. repeat split.
  - intros Hs. by apply IHa, Ha.
  - intros Hu. apply unseen_app in Hu as [Hu1 Hu2].
    by rewrite IHb, Hb.
  - by rewrite List.filter_app, Hc, IHc.
Qed.
End CheckerFacts.

Section CheckerResult.
Context `{PyRuntime} {W : Type} `{Upstream W}.

Lemma elem_of_normalize x logins :
  x ∈ normalize logins
  ↔ ∃ l, l ∈ logins ∧ l ≠ "" ∧ str_strip l ≠ ""
         ∧ x = str_lower (str_strip l).
Proof.
  unfold normalize. rewrite list_elem_of_In, in_map_iff. split.
  - intros (l & <- & Hin). apply filter_In in Hin as [Hin Hok].
    apply andb_true_iff in Hok as [H1 H2]. unfold str_truthy in *.
    apply negb_true_iff, String.eqb_neq in H1, H2.
    exists l. by rewrite list_elem_of_In.
  - intros (l & Hin & H1 & H2 & ->). exists l. split; [done|].
    apply filter_In. split; [by apply list_elem_of_In|].
    unfold str_truthy.
    by rewrite (proj2 (String.eqb_neq _ _) H1),
               (proj2 (String.eqb_neq _ _) H2).
Qed.

(** [C7] [check_channels] works on the logins trimmed, lower-cased and
    with the empty ones dropped. It emits [resultReady] once, as its last
    act, and the mapping it emits has an entry for every normalized
    login; a login that no successful response lists is reported as not
    live (the default entry), which covers the logins of batches that
    failed. When no login is left after normalizing, the empty mapping is
    emitted at once: the headers callable is not called and no request is
    sent. *)
Theorem check_channels_covers_input self logins w :
  (∀ x, x ∈ normalize logins
        ↔ ∃ l, l ∈ logins ∧ l ≠ "" ∧ str_strip l ≠ ""
               ∧ x = str_lower (str_strip l))
  ∧ (∃ out,
       List.filter is_result_ready (check_channels self logins w).1
       = [ResultReady out]
       ∧ last (check_channels self logins w).1 = Some (ResultReady out)
       ∧ (∀ l, l ∈ normalize logins → is_Some (dict_get l out))
       ∧ (∀ l, l ∈ normalize logins →
               unseen l (check_channels self logins w).1 →
               dict_get l out = Some default_info))
  ∧ (normalize logins = [] →
     check_channels self logins w = ([ResultReady []], w)).
Proof.
  split; [intros x; apply elem_of_normalize|].
  unfold check_channels.
  destruct (normalize logins) as [|l0 ls] eqn:Hnorm.
  { split; [|done]. exists (initial_out []). cbn.
    repeat split; try done; intros l Hin; by apply elem_of_nil in Hin. }
  split; [|done]. set (names := l0 :: ls).
  destruct (_get_headers self false w) as [[[ok headers] err] w1].
  destruct ok; cbn [negb].
  - destruct (run_chunks self headers (chunks names) (initial_out names) w1)
      as [[[fl out'] w2] ev] eqn:Hrun.
    exists out'. cbn [fst].
    assert (∀ l, (is_Some (dict_get l (initial_out names))
                  → is_Some (dict_get l out'))
                 ∧ (unseen l ev
                    → dict_get l out' = dict_get l (initial_out names))
                 ∧ List.filter is_result_ready ev = []) as Hkeep.
    { intros l.
      pose proof (run_chunks_keeps self headers (chunks names)
                    (initial_out names) w1 l) as Hk.
      by rewrite Hrun in Hk. }
    assert (List.filter is_result_ready ev = []) as Hnone
      by apply (Hkeep l0).
    repeat split.
    + cbn [List.filter is_result_ready]. rewrite List.filter_app, Hnone.
      by destruct fl as [| |[m|m]].
    + rewrite last_cons.
      destruct fl as [| |[m|m]];
        rewrite ?(last_app_cons ev), ?last_cons; cbn [last]; try done;
        by rewrite last_snoc.
    + intros l Hin. apply Hkeep. rewrite initial_out_default by done.
      by eexists.
    + intros l Hin Hu.
      assert (unseen l ev) as Hev.
      { intros h p r data item Hi. eapply Hu.
        apply list_elem_of_further, elem_of_app. by left. }
      destruct (Hkeep l) as (_ & Hsame & _).
      rewrite Hsame by done. by apply initial_out_default.
  - exists (initial_out names). cbn [fst].
    repeat split; try done.
    + intros l Hin. rewrite initial_out_default by done. by eexists.
    + intros l Hin _. by apply initial_out_default.
Qed.
End CheckerResult.

Lemma check_channels_covers_input_witness :
  ∃ out,
    List.filter is_result_ready
      (@check_channels ascii_runtime Script scripted_upstream scripted_checker
         [" Alice "; ""; "BOB"] stale_then_fresh).1 = [ResultReady out]
    ∧ dict_get "bob" out = Some default_info.
Proof.
  destruct (@check_channels_covers_input ascii_runtime Script scripted_upstream
              scripted_checker [" Alice "; ""; "BOB"] stale_then_fresh)
    as (_ & (out & Hready & _ & _ & Hdefault) & _).
  exists out. split; [exact Hready|]. apply Hdefault.
  - apply list_elem_of_further, list_elem_of_here.
  - intros h p r data item Hin Hok Hjson Hitem.
    vm_compute in Hin.
    repeat (apply elem_of_cons in Hin as [Hin|Hin]; [try discriminate|]).
    + injection Hin as -> -> ->. discriminate Hok.
    + injection Hin as -> -> ->. cbn in Hjson. injection Hjson as <-.
      apply elem_of_cons in Hitem as [Hitem|Hitem].
      * injection Hitem as ->. vm_compute. discriminate.
      * by apply elem_of_nil in Hitem.
    + by apply elem_of_nil in Hin.
Defined.

Section BatchFacts.
Context `{PyRuntime} {W : Type} `{Upstream W}.

(** [C4, as the code has it] A batch answered 401 makes the worker emit
    the auth-error signal and call the headers callable with a forced
    refresh. If the refresh succeeds the same batch is requested once
    more, with the new headers, and not again; if it fails an error is
    emitted and the loop over the batches stops. A response that is not
    ok (status 400 to 599), the retried one included, is reported as an
    error of that batch, leaves the mapping as it was, and the loop goes
    on with the remaining batches. *)
Theorem unauthorized_batch_retried_once self headers chunk rest out w :
  let params := map (λ l, ("user_login", l)) chunk in
  (∀ r w1 ok2 headers2 err2 w2,
     requests_get headers params w = (inr r, w1) →
     status_code r = 401 →
     _get_headers self true w1 = ((ok2, headers2, err2), w2) →
     let prefix := [RequestsGet headers params (inr r); AuthErrorSignal;
                    GetHeaders true (ok2, headers2, err2)] in
     (ok2 = true →
      ∃ a3 w3 fl out' tail,
        requests_get headers2 params w2 = (a3, w3)
        ∧ do_chunk self headers chunk out w
          = (fl, out', w3, prefix ++ RequestsGet headers2 params a3 :: tail)
        ∧ List.filter is_request tail = []
        ∧ ∀ r', a3 = inr r' → resp_ok r' = false →
            tail = [ErrorSignal (ErrQueryFailed (status_code r')
                                                (snippet (text r')))]
            ∧ fl = Continue ∧ out' = out
            ∧ run_chunks self headers (chunk :: rest) out w
              = (let '(fl2, out2, w4, ev2) :=
                   run_chunks self headers rest out w3 in
                 (fl2, out2, w4,
                  (prefix ++ RequestsGet headers2 params a3 :: tail) ++ ev2)))
     ∧ (ok2 = false →
        run_chunks self headers (chunk :: rest) out w
        = (Break, out, w2,
           prefix ++ [ErrorSignal (if str_truthy err2 then ErrGiven err2
                                   else ErrRefreshFailed)])))
  ∧ (∀ r w1,
       requests_get headers params w = (inr r, w1) →
       status_code r ≠ 401 →
       resp_ok r = false →
       run_chunks self headers (chunk :: rest) out w
       = (let '(fl2, out2, w4, ev2) :=
            run_chunks self headers rest out w1 in
          (fl2, out2, w4,
           [RequestsGet headers params (inr r);
            ErrorSignal (ErrQueryFailed (status_code r) (snippet (text r)))]
           ++ ev2))).
Proof.
  intros params. split.
  - intros r w1 ok2 headers2 err2 w2 Hget H401 Hhdr prefix. split.
    + intros ->.
      destruct (requests_get headers2 params w2) as [a3 w3] eqn:Hget2.
      destruct (use_response_keeps
                  match a3 with
                  | inr r' => r'
                  | inl _ => r
                  end out "") as (_ & _ & _ & Hnoreq).
      assert (do_chunk self headers chunk out w
              = match a3 with
                | inl e => (Raised e, out, w3,
                            prefix ++ [RequestsGet headers2 params a3])
                | inr r' =>
                    let '(fl, out', ev4) := use_response r' out in
                    (fl, out', w3,
                     (prefix ++ [RequestsGet headers2 params a3]) ++ ev4)
                end) as Hrun.
      { unfold do_chunk. fold params. rewrite Hget.
        rewrite (proj2 (Z.eqb_eq _ _) H401), Hhdr. cbn [negb].
        rewrite Hget2. by destruct a3. }
      destruct a3 as [e|r'].
      * exists (inl e), w3, (Raised e), out, [].
        repeat split; try done.
      * destruct (use_response r' out) as [[fl out'] ev4] eqn:Huse.
        exists (inr r'), w3, fl, out', ev4.
        split; [done|]. split.
        { rewrite Hrun. reflexivity. }
        split; [exact Hnoreq|].
        intros r2 Heq Hbad. injection Heq as <-.
        unfold use_response in Huse. rewrite Hbad in Huse.
        cbn [negb] in Huse. injection Huse as <- <- <-.
        repeat split; try done.
        cbn [run_chunks]. rewrite Hrun.
        destruct (run_chunks self headers rest out w3)
          as [[[fl2 out2] w4] ev2].
        reflexivity.
    + intros ->. cbn [run_chunks]. unfold do_chunk. fold params.
      rewrite Hget, (proj2 (Z.eqb_eq _ _) H401), Hhdr. by cbn [negb].
  - intros r w1 Hget Hne Hbad. cbn [run_chunks]. unfold do_chunk.
    fold params. rewrite Hget, (proj2 (Z.eqb_neq _ _) Hne).
    unfold use_response. rewrite Hbad. cbn [negb].
    by destruct (run_chunks self headers rest out w1)
      as [[[fl2 out2] w4] ev2].
Qed.
End BatchFacts.

Lemma unauthorized_batch_retried_once_witness :
  ∃ a3 w3 fl out' tail,
    do_chunk (H := ascii_runtime) (H0 := scripted_upstream) scripted_checker
      (bearer "old") ["alice"] (initial_out ["alice"]) stale_in_loop
    = (fl, out', w3,
       [RequestsGet (bearer "old") [("user_login", "alice")] (inr unauthorized);
        AuthErrorSignal; GetHeaders true (true, bearer "new", "")]
       ++ RequestsGet (bearer "new") [("user_login", "alice")] a3 :: tail)
    ∧ List.filter is_request tail = [].
Proof.
  destruct (proj1 (@unauthorized_batch_retried_once ascii_runtime Script
                     scripted_upstream scripted_checker (bearer "old")
                     ["alice"] [] (initial_out ["alice"]) stale_in_loop)
              unauthorized
              {| header_answers := [(true, bearer "new", "")];
                 get_answers := [answer 200 [item_for "Alice" "100"]] |}
              true (bearer "new") ""
              {| header_answers := [];
                 get_answers := [answer 200 [item_for "Alice" "100"]] |}
              eq_refl eq_refl eq_refl) as [Hretry _].
  destruct (Hretry eq_refl) as (a3 & w3 & fl & out' & tail & _ & Hrun & Hno & _).
  exists a3, w3, fl, out', tail. split; [exact Hrun | exact Hno].
Defined.

(** [C4, as the specification words it] fails: with the first of two
    batches answered 401 and the forced refresh failing, that batch is
    requested once, not twice, and the second batch is never requested. *)
Lemma failed_refresh_stops_the_poll :
  ¬ spec_retry_once
      (firstn 100 (@normalize ascii_runtime (channel_names 101)))
      (chunks (@normalize ascii_runtime (channel_names 101)))
      (@check_channels ascii_runtime Script scripted_upstream scripted_checker
         (channel_names 101) stale_no_refresh).1.
Proof.
  intros [Htwice _]. vm_compute in Htwice. discriminate Htwice.
Qed.

(** ** Sample runs *)

Example interval_of_empty_fields :
  @_current_interval_sec ascii_runtime (sample_window "" "") = 1.
Proof. reflexivity. Qed.

Example interval_of_text_fields :
  @_current_interval_sec ascii_runtime (sample_window "abc" "5") = 5.
Proof. reflexivity. Qed.

Example interval_of_large_fields :
  @_current_interval_sec ascii_runtime (sample_window "10000" "99") = 599999.
Proof. reflexivity. Qed.

Example interval_of_negative_fields :
  @_current_interval_sec ascii_runtime (sample_window "-3" "-1") = 1.
Proof. reflexivity. Qed.

Example save_config_keeps_wanted_secret :
  (save_config 1%positive
     {[1%positive := dict_set "save_client_secret" (PBool true)
                       (sample_cfg "hunter2")]}).2
  = Some (dict_set "save_client_secret" (PBool true) (sample_cfg "hunter2")).
Proof. by vm_compute. Qed.

Example no_secret_no_request :
  @_ensure_token ascii_runtime plain_clock unreachable 1000 true false
    {| cfg := []; live_sessions := ∅; le_client_id := "abc123";
       le_client_secret := "  "; cb_save_secret := false; le_token := "";
       lbl_token_exp := LblNotYet; le_minutes := "1"; le_seconds := "0";
       list_channels := []; cb_autostart := false; timer := None;
       btn_start_enabled := true; btn_stop_enabled := false |}
  = (Ret false,
     {| cfg := []; live_sessions := ∅; le_client_id := "abc123";
        le_client_secret := "  "; cb_save_secret := false; le_token := "";
        lbl_token_exp := LblNotYet; le_minutes := "1"; le_seconds := "0";
        list_channels := []; cb_autostart := false; timer := None;
        btn_start_enabled := true; btn_stop_enabled := false |},
     [Log MsgNeedClientSecret]).
Proof. reflexivity. Qed.

(** The run behind [failed_refresh_stops_the_poll]: one request in all, one
    error, and the result (101 channels, none live) still goes out. *)
Example failed_refresh_trace :
  let tr := (@check_channels ascii_runtime Script scripted_upstream
               scripted_checker (channel_names 101) stale_no_refresh).1 in
  length (chunks (@normalize ascii_runtime (channel_names 101))) = 2%nat
  ∧ length (List.filter is_request tr) = 1%nat
  ∧ length (List.filter is_error_signal tr) = 1%nat
  ∧ last tr
    = Some (ResultReady (map (λ l, (l, default_info)) (channel_names 101))).
Proof. by vm_compute. Qed.

Example refreshed_token_finds_alice :
  (@check_channels ascii_runtime Script scripted_upstream scripted_checker
     [" Alice "; ""; "BOB"] stale_then_fresh).1
  = [GetHeaders false (true, bearer "old", "");
     RequestsGet (bearer "old")
       [("user_login", "alice"); ("user_login", "bob")] (inr unauthorized);
     AuthErrorSignal;
     GetHeaders true (true, bearer "new", "");
     RequestsGet (bearer "new")
       [("user_login", "alice"); ("user_login", "bob")]
       (answer 200 [item_for "Alice" "100"]);
     ResultReady [("alice", alice_live "100"); ("bob", default_info)]].
Proof. by vm_compute. Qed.

(** * Further properties *)

(** ** The session tracker, beyond the first observation *)

Lemma track_one_opened now login info ls :
  (opened login (track_one now login info ls).2 ≤ 1)%nat
  ∧ (live info = false → opened login (track_one now login info ls).2 = 0%nat).
Proof.
  unfold track_one.
  destruct (live info); destruct (ls !! login) as [prev|];
    repeat (match goal with |- context [if ?b then _ else _] => destruct b end);
    cbn [snd]; rewrite ?opened_open_same;
    try (unfold opened; cbn [List.filter is_open length]);
    split; try done; lia.
Qed.

Lemma key_has_entry {V : Type} (k : string) (d : odict V) :
  k ∈ dict_keys d → ∃ v, (k, v) ∈ d.
Proof.
  unfold dict_keys. rewrite list_elem_of_fmap.
  intros [[k' v] [-> Hin]]. by exists v.
Qed.

(** [X1] In one call of [_on_result] a channel's page is opened at most
    once, and only if the result reports that channel live. *)
Theorem at_most_one_page_per_poll now result ls login :
  NoDup (dict_keys result) →
  (opened login (on_result now result ls).2 ≤ 1)%nat
  ∧ ((0 < opened login (on_result now result ls).2)%nat →
     ∃ info, (login, info) ∈ result ∧ live info = true).
Proof.
  intros Hnd. unfold on_result.
  destruct (decide (login ∈ dict_keys result)) as [Hin|Hout].
  - apply key_has_entry in Hin as [info Hin].
    destruct (track_all_present now result login info (sweep now ls) Hnd Hin)
      as [_ ->].
    destruct (track_one_opened now login info (sweep now ls)) as [Hle Hoff].
    split; [exact Hle|]. intros Hpos. exists info. split; [done|].
    destruct (live info); [done|]. rewrite Hoff in Hpos by done. lia.
  - destruct (track_all_absent now result login (sweep now ls) Hout) as [_ ->].
    split; lia.
Qed.

Lemma at_most_one_page_per_poll_witness :
  (opened "bob" (on_result 1000 (poll_alice "100") ∅).2 ≤ 1)%nat.
Proof.
  apply (at_most_one_page_per_poll 1000 (poll_alice "100") ∅ "bob").
  apply (bool_decide_unpack _). vm_compute. exact I.
Defined.

(** [X2] A channel the result reports offline never gets a page opened and
    never gets a record created. A record without [offline_since] gets it
    set to [now]; a record already offline for at most 300 seconds is left
    as it is; one offline for longer is dropped. *)
Theorem offline_report_never_opens now result ls login info :
  NoDup (dict_keys result) →
  (login, info) ∈ result →
  live info = false →
  opened login (on_result now result ls).2 = 0%nat
  ∧ (ls !! login = None → (on_result now result ls).1 !! login = None)
  ∧ (∀ prev,
       ls !! login = Some prev →
       optint_truthy (offline_since prev) = false →
       (on_result now result ls).1 !! login
       = Some {| session_id := session_id prev;
                 sess_started_at := sess_started_at prev;
                 last_seen := last_seen prev;
                 offline_since := Some now |})
  ∧ (∀ prev t,
       ls !! login = Some prev →
       offline_since prev = Some t → t ≠ 0 →
       (now - t ≤ 300 → (on_result now result ls).1 !! login = Some prev)
       ∧ (300 < now - t → (on_result now result ls).1 !! login = None)).
Proof.
  intros Hnd Hin Hoff. unfold on_result.
  destruct (track_all_present now result login info (sweep now ls) Hnd Hin)
    as [-> ->].
  destruct (track_one_opened now login info (sweep now ls)) as [_ Hzero].
  split; [by apply Hzero|].
  pose proof (sweep_lookup now ls login) as Hsw.
  unfold track_one. rewrite Hoff.
  split; [|split].
  - intros Hnone. rewrite Hnone in Hsw. by rewrite Hsw.
  - intros prev Hprev Hunset. rewrite Hprev in Hsw.
    assert (grace_over now prev = false) as Hkeep.
    { unfold grace_over. destruct (offline_since prev); [|done].
      by rewrite Hunset. }
    rewrite Hkeep in Hsw. rewrite Hsw, Hunset. cbn [negb fst].
    by rewrite lookup_insert_eq.
  - intros prev t Hprev Ht Hnz. rewrite Hprev in Hsw. split.
    + intros Hin300.
      assert (grace_over now prev = false) as Hkeep.
      { unfold grace_over, optint_truthy, RECONNECT_GRACE_SEC. rewrite Ht.
        apply andb_false_iff. right. lia. }
      assert (optint_truthy (offline_since prev) = true) as Hset.
      { rewrite Ht. cbn. apply negb_true_iff. lia. }
      rewrite Hkeep in Hsw. rewrite Hsw, Hset. cbn [negb fst]. exact Hsw.
    + intros Hlate.
      assert (grace_over now prev = true) as Hdrop.
      { unfold grace_over, optint_truthy, RECONNECT_GRACE_SEC. rewrite Ht.
        apply andb_true_iff. split; [apply negb_true_iff|]; lia. }
      rewrite Hdrop in Hsw. by rewrite Hsw.
Qed.

Lemma offline_report_never_opens_witness :
  opened "alice" (on_result 1120 poll_alice_offline after_poll2).2 = 0%nat
  ∧ (on_result 1120 poll_alice_offline after_poll2).1 !! "bob" = None.
Proof.
  split.
  - apply (offline_report_never_opens 1120 poll_alice_offline after_poll2
             "alice" default_info).
    + apply (bool_decide_unpack _). vm_compute. exact I.
    + apply list_elem_of_here.
    + reflexivity.
  - apply (offline_report_never_opens 1120 poll_alice_offline after_poll2
             "bob" default_info).
    + apply (bool_decide_unpack _). vm_compute. exact I.
    + apply list_elem_of_further, list_elem_of_here.
    + reflexivity.
    + by vm_compute.
Defined.

(** [X3] A channel the result does not mention gets no page opened, and its
    record is left exactly as it was unless its grace has run out, in which
    case it is dropped. *)
Theorem unlisted_channel_untouched now result ls login :
  login ∉ dict_keys result →
  opened login (on_result now result ls).2 = 0%nat
  ∧ (on_result now result ls).1 !! login
    = match ls !! login with
      | Some sess => if grace_over now sess then None else Some sess
      | None => None
      end.
Proof.
  intros Hout. unfold on_result.
  destruct (track_all_absent now result login (sweep now ls) Hout) as [-> ->].
  by rewrite sweep_lookup.
Qed.

Lemma unlisted_channel_untouched_witness :
  (on_result 1240 [("bob", default_info)] after_poll3).1 !! "alice"
  = Some (alice_session "100" 1060 (Some 1120)).
Proof.
  destruct (unlisted_channel_untouched 1240 [("bob", default_info)]
              after_poll3 "alice") as [_ Hkept].
  - apply (bool_decide_unpack _). vm_compute. exact I.
  - rewrite Hkept. by vm_compute.
Defined.

(** [X4] A live observation whose session key differs from the record's,
    for a channel that was not seen offline in between, counts as a new
    broadcast: the page is opened once and the record takes the new key and
    start timestamp. *)
Theorem changed_key_without_gap_opens now result ls login info prev :
  NoDup (dict_keys result) →
  (login, info) ∈ result →
  live info = true →
  ls !! login = Some prev →
  optint_truthy (offline_since prev) = false →
  session_key info ≠ session_id prev →
  opened login (on_result now result ls).2 = 1%nat
  ∧ (on_result now result ls).1 !! login
    = Some {| session_id := session_key info;
              sess_started_at := started_at info;
              last_seen := now;
              offline_since := None |}.
Proof.
  intros Hnd Hin Hlive Hprev Hunset Hdiff. unfold on_result.
  destruct (track_all_present now result login info (sweep now ls) Hnd Hin)
    as [-> ->].
  unfold track_one. rewrite Hlive, sweep_lookup, Hprev.
  assert (grace_over now prev = false) as ->.
  { unfold grace_over. destruct (offline_since prev); [|done].
    by rewrite Hunset. }
  assert (within_grace now prev = false) as ->.
  { unfold within_grace. destruct (offline_since prev); [|done].
    by rewrite Hunset. }
  rewrite (proj2 (String.eqb_neq _ _) Hdiff). cbn [fst snd].
  split; [apply opened_open_same | by rewrite lookup_insert_eq].
Qed.

Lemma changed_key_without_gap_opens_witness :
  opened "alice" (on_result 1060 (poll_alice "101") after_poll1).2 = 1%nat
  ∧ (on_result 1060 (poll_alice "101") after_poll1).1 !! "alice"
    = Some {| session_id := session_key (alice_live "101");
              sess_started_at := started_at (alice_live "101");
              last_seen := 1060;
              offline_since := None |}.
Proof.
  apply (changed_key_without_gap_opens 1060 (poll_alice "101") after_poll1
           "alice" (alice_live "101") (alice_session "100" 1000 None)).
  - apply (bool_decide_unpack _). vm_compute. exact I.
  - apply list_elem_of_here.
  - reflexivity.
  - by vm_compute.
  - reflexivity.
  - by vm_compute.
Defined.

(** [X5] After [_on_result], every channel the result reports live has a
    record that carries the observed session key, was seen [now] and is not
    marked offline. *)
Theorem live_channels_are_current now result ls login info :
  NoDup (dict_keys result) →
  (login, info) ∈ result →
  live info = true →
  ∃ r, (on_result now result ls).1 !! login = Some r
       ∧ session_id r = session_key info
       ∧ last_seen r = now
       ∧ offline_since r = None.
Proof.
  intros Hnd Hin Hlive. unfold on_result.
  destruct (track_all_present now result login info (sweep now ls) Hnd Hin)
    as [-> _].
  unfold track_one. rewrite Hlive.
  destruct (sweep now ls !! login) as [prev|].
  - destruct (String.eqb_spec (session_key info) (session_id prev)) as [Heq|];
      [|destruct (within_grace now prev)];
      cbn [fst]; rewrite lookup_insert_eq; eexists; split; done.
  - cbn [fst]. rewrite lookup_insert_eq. eexists; split; done.
Qed.

Lemma live_channels_are_current_witness :
  ∃ r, (on_result 1421 (poll_alice "102") after_poll3).1 !! "alice" = Some r
       ∧ session_id r = session_key (alice_live "102")
       ∧ last_seen r = 1421
       ∧ offline_since r = None.
Proof.
  apply (live_channels_are_current 1421 (poll_alice "102") after_poll3
           "alice" (alice_live "102")).
  - apply (bool_decide_unpack _). vm_compute. exact I.
  - apply list_elem_of_here.
  - reflexivity.
Defined.

(** [X6] While the clock does not read 0, [_on_result] never stores an
    [offline_since] of 0 (which the program would read as "not set"): if no
    record has one before the call, none has one after. *)
Theorem offline_stamps_stay_set now result ls :
  now ≠ 0 → stamps_set ls → stamps_set (on_result now result ls).1.
Proof. apply on_result_stamps. Qed.

Lemma offline_stamps_stay_set_witness :
  stamps_set (on_result 1120 poll_alice_offline after_poll2).1.
Proof.
  apply (offline_stamps_stay_set 1120 poll_alice_offline after_poll2).
  - discriminate.
  - intros login sess. unfold after_poll2.
    intros Hl. apply (on_result_stamps 1060 (poll_alice "100") after_poll1)
      in Hl; [done|discriminate|].
    intros login' sess' Hl'.
    apply (on_result_stamps 1000 (poll_alice "100") ∅) in Hl';
      [done|discriminate|].
    intros ? ? Hempty. by rewrite lookup_empty in Hempty.
Defined.

(** ** The worker: batches, requests and the emitted mapping *)

Lemma ceil_step n :
  (0 < n)%nat → ((n + 100 - 1) / 100 = S ((n - 100 + 100 - 1) / 100))%nat.
Proof.
  intros Hn. destruct (le_lt_dec n 100).
  - replace (n - 100 + 100 - 1)%nat with 99%nat by lia.
    change (99 / 100)%nat with 0%nat.
    symmetry. apply (Nat.div_unique _ _ _ (n - 1)%nat); lia.
  - replace (n + 100 - 1)%nat with ((n - 100 + 100 - 1) + 1 * 100)%nat by lia.
    rewrite Nat.div_add by lia. lia.
Qed.

Lemma chunks_nil : chunks [] = [].
Proof. reflexivity. Qed.

Lemma chunks_cons (l : list string) :
  l ≠ [] → chunks l = firstn 100 l :: chunks (skipn 100 l).
Proof.
  intros Hne. unfold chunks, py_range.
  assert (0 < length l)%nat as Hpos by (destruct l; [done|cbn; lia]).
  rewrite (ceil_step _ Hpos), length_drop.
  rewrite <- cons_seq, <- seq_shift. cbn [map]. f_equal.
  rewrite !map_map. apply map_ext. intros k.
  rewrite skipn_skipn. f_equal. f_equal. lia.
Qed.

(** [X7] The batches cut the normalized list into consecutive pieces: put
    back together they give the list, none is empty and none has more than
    100 logins. *)
Theorem chunks_partition (logins : list string) :
  concat (chunks logins) = logins
  ∧ Forall (λ c, c ≠ [] ∧ (length c ≤ 100)%nat) (chunks logins).
Proof.
  remember (length logins) as n eqn:Hn. revert logins Hn.
  induction n as [n IH] using lt_wf_ind. intros logins Hn.
  destruct logins as [|x rest]; [by split; [|constructor]|].
  rewrite chunks_cons by done.
  destruct (IH (length (skipn 100 (x :: rest)))
               ltac:(rewrite length_drop; cbn [length] in *; lia)
               (skipn 100 (x :: rest)) eq_refl) as [Hcat Hall].
  split.
  - cbn [concat]. rewrite Hcat. apply take_drop.
  - constructor; [|exact Hall]. split; [done|].
    rewrite length_take. lia.
Qed.

Section WorkerRun.
Context `{PyRuntime} {W : Type} `{Upstream W}.

Lemma unauthorized_is_not_ok (r : Response StreamData) :
  (status_code r =? 401) = true → resp_ok r = false.
Proof. unfold resp_ok. intros Heq%Z.eqb_eq. by rewrite Heq. Qed.

Lemma use_response_events r out :
  (use_response r out).2 = []
  ∨ ∃ p, (use_response r out).2 = [ErrorSignal p].
Proof.
  unfold use_response. destruct (resp_ok r); cbn [negb]; [|right; by eexists].
  destruct (json r) as [e|data]; [by left|].
  destruct (read_items data out). by left.
Qed.

(** A property of the mapping that writing a live entry keeps is kept by the
    whole loop over the batches. *)
Lemma read_items_invariant (P : odict Info → Prop) data out :
  (∀ k v d, live v = true → P d → P (dict_set k v d)) →
  P out → P (read_items data out).1.
Proof.
  intros Hset. revert out.
  induction data as [|[e|item] rest IH]; intros out Hout;
    cbn [read_items fst]; [done|done|].
  apply IH. by apply Hset.
Qed.

Lemma use_response_invariant (P : odict Info → Prop) r out :
  (∀ k v d, live v = true → P d → P (dict_set k v d)) →
  P out → P (use_response r out).1.2.
Proof.
  intros Hset Hout. unfold use_response.
  destruct (resp_ok r); cbn [negb]; [|done].
  destruct (json r) as [e|data]; [done|].
  pose proof (read_items_invariant P data out Hset Hout) as Hinv.
  by destruct (read_items data out).
Qed.

Lemma do_chunk_invariant (P : odict Info → Prop) self headers chunk out w :
  (∀ k v d, live v = true → P d → P (dict_set k v d)) →
  P out → P (do_chunk self headers chunk out w).1.1.2.
Proof.
  intros Hset Hout. unfold do_chunk.
  destruct (requests_get headers _ w) as [[e|r] w1]; [done|].
  destruct (status_code r =? 401).
  - destruct (_get_headers self true w1) as [[[ok2 headers2] err2] w2].
    destruct ok2; cbn [negb]; [|done].
    destruct (requests_get headers2 _ w2) as [[e|r'] w3]; [done|].
    pose proof (use_response_invariant P r' out Hset Hout) as Hinv.
    by destruct (use_response r' out) as [[fl out'] ev4].
  - pose proof (use_response_invariant P r out Hset Hout) as Hinv.
    by destruct (use_response r out) as [[fl out'] ev4].
Qed.

Lemma run_chunks_invariant (P : odict Info → Prop) self headers cs out w :
  (∀ k v d, live v = true → P d → P (dict_set k v d)) →
  P out → P (run_chunks self headers cs out w).1.1.2.
Proof.
  intros Hset. revert out w.
  induction cs as [|chunk rest IH]; intros out w Hout; cbn [run_chunks]; [done|].
  pose proof (do_chunk_invariant P self headers chunk out w Hset Hout) as H1.
  destruct (do_chunk self headers chunk out w) as [[[fl out1] w1] ev1].
  cbn [fst snd] in *. destruct fl; [|done|done].
  specialize (IH out1 w1 H1).
  by destruct (run_chunks self headers rest out1 w1) as [[[fl2 out2] w2] ev2].
Qed.

(** The mapping [check_channels] emits, read off its trace. *)
Lemma check_channels_emits self logins w :
  ∃ pre out,
    (check_channels self logins w).1 = pre ++ [ResultReady out]
    ∧ (∀ P : odict Info → Prop,
         (∀ k v d, live v = true → P d → P (dict_set k v d)) →
         P (initial_out (normalize logins)) → P out)
    ∧ ∀ out', ResultReady out' ∈ (check_channels self logins w).1 →
              out' = out.
Proof.
  unfold check_channels.
  destruct (normalize logins) as [|l0 ls] eqn:Hnorm.
  { exists [], (initial_out []). cbn [fst]. split; [done|]. split; [auto|].
    intros out' Hin. apply list_elem_of_singleton in Hin. by simplify_eq. }
  set (names := l0 :: ls).
  destruct (_get_headers self false w) as [[[ok headers] err] w1].
  destruct ok; cbn [negb].
  - pose proof (λ P, run_chunks_invariant P self headers (chunks names)
                       (initial_out names) w1) as Hinv.
    destruct (run_chunks_keeps self headers (chunks names) (initial_out names)
                w1 "") as (_ & _ & Hnone).
    destruct (run_chunks self headers (chunks names) (initial_out names) w1)
      as [[[fl out'] w2] ev]. cbn [fst snd] in *.
    assert (∀ o, ResultReady o ∉ ev) as Hnot.
    { intros o Hin.
      assert (ResultReady o ∈ List.filter is_result_ready ev) as Hf.
      { apply list_elem_of_In, filter_In. split; [by apply list_elem_of_In|done]. }
      rewrite Hnone in Hf. by apply elem_of_nil in Hf. }
    exists (GetHeaders false (true, headers, err) :: ev ++
            match fl with
            | Raised e => [ErrorSignal (exn_payload e)]
            | _ => []
            end), out'.
    split; [|split].
    + cbn [app]. f_equal. rewrite <- app_assoc. f_equal.
      by destruct fl as [| |[m|m]].
    + intros P Hset Hinit. by apply Hinv.
    + intros o Hin. apply elem_of_cons in Hin as [Hin|Hin]; [done|].
      apply elem_of_app in Hin as [Hin|Hin]; [by apply Hnot in Hin|].
      destruct fl as [| |[m|m]];
        repeat (apply elem_of_cons in Hin as [Hin|Hin]; simplify_eq; try done);
        by apply elem_of_nil in Hin.
  - exists [GetHeaders false (false, headers, err);
            ErrorSignal (if str_truthy err then ErrGiven err else ErrNotReady)],
           (initial_out names).
    cbn [fst]. split; [done|]. split; [auto|].
    intros o Hin.
    repeat (apply elem_of_cons in Hin as [Hin|Hin]; simplify_eq; try done).
    by apply elem_of_nil in Hin.
Qed.
End WorkerRun.

Section WorkerResult.
Context `{PyRuntime} {W : Type} `{Upstream W}.

Lemma reported_live_set l k v d :
  live v = true → reported_live l d → reported_live l (dict_set k v d).
Proof.
  intros Hv (info & Hget & Hlive). destruct (decide (l = k)) as [->|Hne].
  - exists v. by rewrite dict_get_set_eq.
  - exists info. by rewrite dict_get_set_ne.
Qed.

Lemma read_items_reads (pre : StreamData) item post out :
  (∀ e, inl e ∉ pre) →
  reported_live (str_lower (default "" (user_login item)))
    (read_items (pre ++ inr item :: post) out).1.
Proof.
  revert out. induction pre as [|[e|it] pre IH]; intros out Hclean.
  - cbn [app read_items].
    apply (read_items_invariant (reported_live _)).
    + intros k v d. apply reported_live_set.
    + eexists. by rewrite dict_get_set_eq.
  - exfalso. apply (Hclean e), list_elem_of_here.
  - cbn [app read_items]. apply IH.
    intros e Hin. apply (Hclean e). by apply list_elem_of_further.
Qed.

Lemma use_response_reads (r : Response StreamData) out
    (pre : StreamData) item post :
  resp_ok r = true →
  json r = inr (pre ++ inr item :: post) →
  (∀ e, inl e ∉ pre) →
  reported_live (str_lower (default "" (user_login item)))
    (use_response r out).1.2.
Proof.
  intros Hok Hjson Hclean. unfold use_response. rewrite Hok, Hjson.
  cbn [negb].
  pose proof (read_items_reads pre item post out Hclean) as Hlive.
  by destruct (read_items (pre ++ inr item :: post) out).
Qed.

Lemma do_chunk_reads self headers chunk out w h p (r : Response StreamData)
    (pre : StreamData) item post :
  RequestsGet h p (inr r) ∈ (do_chunk self headers chunk out w).2 →
  resp_ok r = true →
  json r = inr (pre ++ inr item :: post) →
  (∀ e, inl e ∉ pre) →
  reported_live (str_lower (default "" (user_login item)))
    (do_chunk self headers chunk out w).1.1.2.
Proof.
  intros Hin Hok Hjson Hclean. revert Hin. unfold do_chunk.
  destruct (requests_get headers _ w) as [[e|r1] w1].
  { cbn [snd]. intros Hin. apply list_elem_of_singleton in Hin. discriminate. }
  destruct (status_code r1 =? 401) eqn:H401.
  - apply unauthorized_is_not_ok in H401.
    destruct (_get_headers self true w1) as [[[ok2 headers2] err2] w2].
    destruct ok2; cbn [negb].
    + destruct (requests_get headers2 _ w2) as [[e|r'] w3].
      * cbn [snd]. intros Hin.
        repeat (apply elem_of_app in Hin as [Hin|Hin]);
          repeat (apply elem_of_cons in Hin as [Hin|Hin]; simplify_eq);
          try by apply elem_of_nil in Hin.
        congruence.
      * pose proof (use_response_reads r' out pre item post) as Hread.
        destruct (use_response_events r' out) as [Hev|[q Hev]];
          destruct (use_response r' out) as [[fl out'] ev4];
          cbn [fst snd] in *; subst ev4; intros Hin;
          repeat (apply elem_of_app in Hin as [Hin|Hin]);
          repeat (apply elem_of_cons in Hin as [Hin|Hin]; simplify_eq);
          try (by apply elem_of_nil in Hin); try congruence; by apply Hread.
    + cbn [snd]. intros Hin.
      repeat (apply elem_of_app in Hin as [Hin|Hin]);
        repeat (apply elem_of_cons in Hin as [Hin|Hin]; simplify_eq);
        try by apply elem_of_nil in Hin.
      congruence.
  - pose proof (use_response_reads r1 out pre item post) as Hread.
    destruct (use_response_events r1 out) as [Hev|[q Hev]];
      destruct (use_response r1 out) as [[fl out'] ev4];
      cbn [fst snd] in *; subst ev4; intros Hin;
      repeat (apply elem_of_app in Hin as [Hin|Hin]);
      repeat (apply elem_of_cons in Hin as [Hin|Hin]; simplify_eq);
      try (by apply elem_of_nil in Hin); by apply Hread.
Qed.

Lemma run_chunks_reads self headers cs out w h p (r : Response StreamData)
    (pre : StreamData) item post :
  RequestsGet h p (inr r) ∈ (run_chunks self headers cs out w).2 →
  resp_ok r = true →
  json r = inr (pre ++ inr item :: post) →
  (∀ e, inl e ∉ pre) →
  reported_live (str_lower (default "" (user_login item)))
    (run_chunks self headers cs out w).1.1.2.
Proof.
  intros Hin Hok Hjson Hclean. revert out w Hin.
  induction cs as [|chunk rest IH]; intros out w; cbn [run_chunks].
  { cbn [snd]. intros Hin. by apply elem_of_nil in Hin. }
  pose proof (do_chunk_reads self headers chunk out w h p r pre item post)
    as Hread.
  destruct (do_chunk self headers chunk out w) as [[[fl out1] w1] ev1].
  cbn [fst snd] in *.
  destruct fl; cbn [fst snd]; try (intros Hin; by apply Hread).
  specialize (IH out1 w1).
  pose proof (run_chunks_invariant
                (reported_live (str_lower (default "" (user_login item))))
                self headers rest out1 w1
                (λ k v d, reported_live_set _ k v d)) as Hmono.
  destruct (run_chunks self headers rest out1 w1) as [[[fl2 out2] w2] ev2].
  cbn [fst snd] in *. intros Hin. apply elem_of_app in Hin as [Hin|Hin].
  - by apply Hmono, Hread.
  - by apply IH.
Qed.

(** What [check_channels] emits reports as live every channel a successful
    response lists, as long as the entries before it in that response could
    be read. *)
Lemma check_channels_reads self logins w h p (r : Response StreamData)
    (pre : StreamData) item post :
  RequestsGet h p (inr r) ∈ (check_channels self logins w).1 →
  resp_ok r = true →
  json r = inr (pre ++ inr item :: post) →
  (∀ e, inl e ∉ pre) →
  ∃ out, last (check_channels self logins w).1 = Some (ResultReady out)
         ∧ reported_live (str_lower (default "" (user_login item))) out.
Proof.
  intros Hin Hok Hjson Hclean. revert Hin. unfold check_channels.
  destruct (normalize logins) as [|l0 ls] eqn:Hnorm.
  { cbn [fst]. intros Hin. apply list_elem_of_singleton in Hin. discriminate. }
  set (names := l0 :: ls).
  destruct (_get_headers self false w) as [[[ok headers] err] w1].
  destruct ok; cbn [negb].
  - pose proof (run_chunks_reads self headers (chunks names)
                  (initial_out names) w1 h p r pre item post) as Hread.
    destruct (run_chunks self headers (chunks names) (initial_out names) w1)
      as [[[fl out'] w2] ev]. cbn [fst snd] in *.
    intros Hin. exists out'. split.
    + rewrite last_cons.
      destruct fl as [| |[m|m]];
        rewrite ?(last_app_cons ev), ?last_cons; cbn [last]; try done;
        by rewrite last_snoc.
    + apply Hread; try done.
      apply elem_of_cons in Hin as [Hin|Hin]; [discriminate|].
      apply elem_of_app in Hin as [Hin|Hin]; [done|].
      destruct fl as [| |[m|m]];
        repeat (apply elem_of_cons in Hin as [Hin|Hin]; simplify_eq);
        by apply elem_of_nil in Hin.
  - cbn [fst]. intros Hin.
    repeat (apply elem_of_cons in Hin as [Hin|Hin]; simplify_eq).
    by apply elem_of_nil in Hin.
Qed.

(** [X8] Every channel that a successful response lists is reported live in
    the mapping [check_channels] emits, provided the entries listed before
    it in that response could be read. *)
Theorem listed_channel_reported_live self logins w h p
    (r : Response StreamData) (pre : StreamData) item post :
  RequestsGet h p (inr r) ∈ (check_channels self logins w).1 →
  resp_ok r = true →
  json r = inr (pre ++ inr item :: post) →
  (∀ e, inl e ∉ pre) →
  ∃ out info,
    last (check_channels self logins w).1 = Some (ResultReady out)
    ∧ dict_get (str_lower (default "" (user_login item))) out = Some info
    ∧ live info = true.
Proof.
  intros Hin Hok Hjson Hclean.
  destruct (check_channels_reads self logins w h p r pre item post
              Hin Hok Hjson Hclean) as (out & Hlast & info & Hget & Hlive).
  by exists out, info.
Qed.
End WorkerResult.

Lemma elem_of_dict_set_keys {V : Type} x k (v : V) (d : odict V) :
  x ∈ dict_keys (dict_set k v d) ↔ x = k ∨ x ∈ dict_keys d.
Proof.
  induction d as [|[k' v'] d IH]; cbn [dict_set dict_keys map fst].
  - rewrite list_elem_of_singleton, elem_of_nil. tauto.
  - destruct (String.eqb_spec k k') as [->|Hne];
      cbn [dict_keys map fst] in *; rewrite !elem_of_cons; [tauto|].
    rewrite IH. tauto.
Qed.

Lemma dict_set_keys_NoDup {V : Type} k (v : V) (d : odict V) :
  NoDup (dict_keys d) → NoDup (dict_keys (dict_set k v d)).
Proof.
  induction d as [|[k' v'] d IH]; cbn [dict_set dict_keys map fst]; intros Hnd.
  - apply NoDup_singleton.
  - apply NoDup_cons in Hnd as [Hfresh Hnd].
    destruct (String.eqb_spec k k') as [->|Hne];
      cbn [dict_keys map fst] in *.
    + by apply NoDup_cons.
    + apply NoDup_cons. split; [|by apply IH].
      intros Hin. apply (elem_of_dict_set_keys k' k v d) in Hin as [?|?];
        [congruence|done].
Qed.

Section WorkerTraffic.
Context `{PyRuntime} {W : Type} `{Upstream W}.

Lemma initial_out_NoDup logins : NoDup (dict_keys (initial_out logins)).
Proof.
  unfold initial_out.
  assert (∀ acc : odict Info, NoDup (dict_keys acc) →
            NoDup (dict_keys (fold_left (λ out l, dict_set l default_info out)
                                logins acc))) as Hgen.
  { induction logins as [|x xs IH]; intros acc Hacc; cbn [fold_left]; [done|].
    by apply IH, dict_set_keys_NoDup. }
  apply Hgen, NoDup_nil_2.
Qed.

(** The mapping [check_channels] emits holds each login once. *)
Lemma check_channels_keys_NoDup self logins w out :
  ResultReady out ∈ (check_channels self logins w).1 → NoDup (dict_keys out).
Proof.
  intros Hin.
  destruct (check_channels_emits self logins w) as (pre & o & _ & Hinv & Huniq).
  rewrite (Huniq out Hin).
  apply (Hinv (λ d, NoDup (dict_keys d))); [|apply initial_out_NoDup].
  intros k v d _. apply dict_set_keys_NoDup.
Qed.

Lemma do_chunk_requests self headers chunk out w :
  (length (List.filter is_request (do_chunk self headers chunk out w).2) ≤ 2)%nat.
Proof.
  unfold do_chunk.
  destruct (requests_get headers _ w) as [[e|r] w1]; [cbn; lia|].
  destruct (status_code r =? 401).
  - destruct (_get_headers self true w1) as [[[ok2 headers2] err2] w2].
    destruct ok2; cbn [negb]; [|cbn; lia].
    destruct (requests_get headers2 _ w2) as [[e|r'] w3]; [cbn; lia|].
    destruct (use_response_keeps r' out "") as (_ & _ & _ & Hnone).
    destruct (use_response r' out) as [[fl out'] ev4]. cbn [fst snd] in *.
    rewrite !List.filter_app, Hnone. cbn. lia.
  - destruct (use_response_keeps r out "") as (_ & _ & _ & Hnone).
    destruct (use_response r out) as [[fl out'] ev4]. cbn [fst snd] in *.
    rewrite !List.filter_app, Hnone. cbn. lia.
Qed.

Lemma run_chunks_requests self headers cs out w :
  (length (List.filter is_request (run_chunks self headers cs out w).2)
   ≤ 2 * length cs)%nat.
Proof.
  revert out w. induction cs as [|chunk rest IH]; intros out w;
    cbn [run_chunks]; [cbn; lia|].
  pose proof (do_chunk_requests self headers chunk out w) as H1.
  destruct (do_chunk self headers chunk out w) as [[[fl out1] w1] ev1].
  cbn [fst snd] in *. destruct fl; cbn [snd length]; try lia.
  specialize (IH out1 w1).
  destruct (run_chunks self headers rest out1 w1) as [[[fl2 out2] w2] ev2].
  cbn [fst snd] in *. rewrite List.filter_app, length_app. lia.
Qed.

(** [X9] One call of [check_channels] sends at most two requests per batch
    (the request and, after a 401, one retry), whatever the upstream
    answers. *)
Theorem at_most_two_requests_per_batch self logins w :
  (length (List.filter is_request (check_channels self logins w).1)
   ≤ 2 * length (chunks (normalize logins)))%nat.
Proof.
  unfold check_channels.
  destruct (normalize logins) as [|l0 ls] eqn:Hnorm; [cbn; lia|].
  set (names := l0 :: ls).
  destruct (_get_headers self false w) as [[[ok headers] err] w1].
  destruct ok; cbn [negb]; [|cbn; lia].
  pose proof (run_chunks_requests self headers (chunks names)
                (initial_out names) w1) as Hle.
  destruct (run_chunks self headers (chunks names) (initial_out names) w1)
    as [[[fl out'] w2] ev]. cbn [fst snd] in *.
  cbn [List.filter is_request]. rewrite List.filter_app.
  rewrite length_app.
  assert (length (List.filter is_request
            match fl with
            | Raised (RequestException m) =>
                [ErrorSignal (ErrNetwork m); ResultReady out']
            | Raised (OtherException m) =>
                [ErrorSignal (ErrUnknown m); ResultReady out']
            | _ => [ResultReady out']
            end) = 0%nat) as ->; [by destruct fl as [| |[m|m]]|].
  lia.
Qed.

Lemma do_chunk_raise self headers chunk out w h p e :
  RequestsGet h p (inl e) ∈ (do_chunk self headers chunk out w).2 →
  (do_chunk self headers chunk out w).1.1.1 = Raised e
  ∧ ∃ pre, (do_chunk self headers chunk out w).2
           = pre ++ [RequestsGet h p (inl e)].
Proof.
  unfold do_chunk.
  destruct (requests_get headers _ w) as [[e1|r] w1].
  { cbn [fst snd]. intros Hin. apply list_elem_of_singleton in Hin.
    simplify_eq. split; [done|]. by exists []. }
  destruct (status_code r =? 401).
  - destruct (_get_headers self true w1) as [[[ok2 headers2] err2] w2].
    destruct ok2; cbn [negb].
    + destruct (requests_get headers2 _ w2) as [[e2|r'] w3].
      * cbn [fst snd]. intros Hin.
        repeat (apply elem_of_app in Hin as [Hin|Hin]);
          repeat (apply elem_of_cons in Hin as [Hin|Hin]; simplify_eq);
          try by apply elem_of_nil in Hin.
        split; [done|]. by eexists.
      * destruct (use_response_events r' out) as [Hev|[q Hev]];
          destruct (use_response r' out) as [[fl out'] ev4];
          cbn [fst snd] in *; subst ev4; intros Hin;
          repeat (apply elem_of_app in Hin as [Hin|Hin]);
          repeat (apply elem_of_cons in Hin as [Hin|Hin]; simplify_eq);
          by apply elem_of_nil in Hin.
    + cbn [fst snd]. intros Hin.
      repeat (apply elem_of_app in Hin as [Hin|Hin]);
        repeat (apply elem_of_cons in Hin as [Hin|Hin]; simplify_eq);
        by apply elem_of_nil in Hin.
  - destruct (use_response_events r out) as [Hev|[q Hev]];
      destruct (use_response r out) as [[fl out'] ev4];
      cbn [fst snd] in *; subst ev4; intros Hin;
      repeat (apply elem_of_app in Hin as [Hin|Hin]);
      repeat (apply elem_of_cons in Hin as [Hin|Hin]; simplify_eq);
      by apply elem_of_nil in Hin.
Qed.

Lemma run_chunks_raise self headers cs out w h p e :
  RequestsGet h p (inl e) ∈ (run_chunks self headers cs out w).2 →
  (run_chunks self headers cs out w).1.1.1 = Raised e
  ∧ ∃ pre, (run_chunks self headers cs out w).2
           = pre ++ [RequestsGet h p (inl e)].
Proof.
  revert out w. induction cs as [|chunk rest IH]; intros out w;
    cbn [run_chunks].
  { cbn [snd]. intros Hin. by apply elem_of_nil in Hin. }
  pose proof (do_chunk_raise self headers chunk out w h p e) as Hone.
  destruct (do_chunk self headers chunk out w) as [[[fl out1] w1] ev1].
  cbn [fst snd] in *.
  destruct fl; cbn [fst snd]; try (intros Hin; by apply Hone).
  specialize (IH out1 w1).
  destruct (run_chunks self headers rest out1 w1) as [[[fl2 out2] w2] ev2].
  cbn [fst snd] in *. intros Hin. apply elem_of_app in Hin as [Hin|Hin].
  - by destruct (Hone Hin) as [? _].
  - destruct (IH Hin) as [-> [pre ->]]. split; [done|].
    exists (ev1 ++ pre). by rewrite app_assoc.
Qed.

(** [X10] A request that raises ends the run: the worker emits the matching
    error signal and then the mapping, and sends nothing after the failed
    request. *)
Theorem raised_request_ends_the_run self logins w h p e :
  RequestsGet h p (inl e) ∈ (check_channels self logins w).1 →
  ∃ pre out,
    (check_channels self logins w).1
    = pre ++ [RequestsGet h p (inl e); ErrorSignal (exn_payload e);
              ResultReady out].
Proof.
  unfold check_channels.
  destruct (normalize logins) as [|l0 ls] eqn:Hnorm.
  { cbn [fst]. intros Hin. apply list_elem_of_singleton in Hin. discriminate. }
  set (names := l0 :: ls).
  destruct (_get_headers self false w) as [[[ok headers] err] w1].
  destruct ok; cbn [negb].
  - pose proof (run_chunks_raise self headers (chunks names)
                  (initial_out names) w1 h p e) as Hraise.
    destruct (run_chunks self headers (chunks names) (initial_out names) w1)
      as [[[fl out'] w2] ev]. cbn [fst snd] in *.
    intros Hin.
    assert (RequestsGet h p (inl e) ∈ ev) as Hev.
    { apply elem_of_cons in Hin as [Hin|Hin]; [discriminate|].
      apply elem_of_app in Hin as [Hin|Hin]; [done|].
      destruct fl as [| |[m|m]];
        repeat (apply elem_of_cons in Hin as [Hin|Hin]; simplify_eq);
        by apply elem_of_nil in Hin. }
    destruct (Hraise Hev) as [-> [pre ->]].
    exists (GetHeaders false (true, headers, err) :: pre), out'.
    cbn [app]. f_equal. rewrite <- app_assoc. f_equal. by destruct e.
  - cbn [fst]. intros Hin.
    repeat (apply elem_of_cons in Hin as [Hin|Hin]; simplify_eq).
    by apply elem_of_nil in Hin.
Qed.

(** [X11] From the worker to the tracker: a channel without a session
    record that a successful response lists (after entries that could be
    read) has its page opened exactly once when [_on_result] applies the
    mapping the worker emitted, and gets a record seen [now]. *)
Theorem listed_channel_opened_once self logins w now ls h p
    (r : Response StreamData) (pre : StreamData) item post :
  RequestsGet h p (inr r) ∈ (check_channels self logins w).1 →
  resp_ok r = true →
  json r = inr (pre ++ inr item :: post) →
  (∀ e, inl e ∉ pre) →
  ls !! str_lower (default "" (user_login item)) = None →
  ∃ out,
    last (check_channels self logins w).1 = Some (ResultReady out)
    ∧ opened (str_lower (default "" (user_login item)))
        (on_result now out ls).2 = 1%nat
    ∧ ∃ sess,
        (on_result now out ls).1 !! str_lower (default "" (user_login item))
        = Some sess
        ∧ last_seen sess = now ∧ offline_since sess = None.
Proof.
  intros Hin Hok Hjson Hclean Hnew.
  destruct (check_channels_reads self logins w h p r pre item post
              Hin Hok Hjson Hclean) as (out & Hlast & info & Hget & Hlive).
  exists out. split; [exact Hlast|].
  assert (ResultReady out ∈ (check_channels self logins w).1) as Hready.
  { apply last_Some in Hlast as [l' ->]. apply elem_of_app. right.
    apply list_elem_of_here. }
  assert ((str_lower (default "" (user_login item)), info) ∈ out) as Hentry.
  { clear -Hget. induction out as [|[k v] out IH]; [done|].
    cbn [dict_get] in Hget.
    destruct (String.eqb_spec (str_lower (default "" (user_login item))) k)
      as [->|Hne].
    - simplify_eq. apply list_elem_of_here.
    - apply list_elem_of_further, IH, Hget. }
  destruct (first_live_is_new now out ls _ info
              (check_channels_keys_NoDup self logins w out Hready)
              Hentry Hlive Hnew) as [Hone Hrec].
  split; [exact Hone|]. eexists. split; [exact Hrec|]. done.
Qed.
End WorkerTraffic.

Lemma alice_listed_in_trace :
  RequestsGet (bearer "new") [("user_login", "alice"); ("user_login", "bob")]
    (inr alice_listed)
  ∈ (@check_channels ascii_runtime Script scripted_upstream scripted_checker
       [" Alice "; ""; "BOB"] stale_then_fresh).1.
Proof.
  rewrite refreshed_token_finds_alice.
  do 4 apply list_elem_of_further. apply list_elem_of_here.
Qed.

Lemma listed_channel_reported_live_witness :
  ∃ out info,
    last (@check_channels ascii_runtime Script scripted_upstream
            scripted_checker [" Alice "; ""; "BOB"] stale_then_fresh).1
    = Some (ResultReady out)
    ∧ dict_get "alice" out = Some info
    ∧ live info = true.
Proof.
  apply (@listed_channel_reported_live ascii_runtime Script scripted_upstream
           scripted_checker [" Alice "; ""; "BOB"] stale_then_fresh
           (bearer "new") [("user_login", "alice"); ("user_login", "bob")]
           alice_listed [] alice_item []).
  - exact alice_listed_in_trace.
  - reflexivity.
  - reflexivity.
  - intros e Hin. by apply elem_of_nil in Hin.
Defined.

Lemma raised_request_ends_the_run_witness :
  ∃ pre out,
    (@check_channels ascii_runtime Script scripted_upstream scripted_checker
       ["alice"] network_down).1
    = pre ++ [RequestsGet (bearer "old") [("user_login", "alice")]
                (inl (RequestException "no answer"));
              ErrorSignal (ErrNetwork "no answer"); ResultReady out].
Proof.
  apply (@raised_request_ends_the_run ascii_runtime Script scripted_upstream
           scripted_checker ["alice"] network_down (bearer "old")
           [("user_login", "alice")] (RequestException "no answer")).
  vm_compute. apply list_elem_of_further, list_elem_of_here.
Defined.

Lemma listed_channel_opened_once_witness :
  ∃ out,
    last (@check_channels ascii_runtime Script scripted_upstream
            scripted_checker [" Alice "; ""; "BOB"] stale_then_fresh).1
    = Some (ResultReady out)
    ∧ opened "alice" (on_result 1000 out ∅).2 = 1%nat
    ∧ ∃ sess, (on_result 1000 out ∅).1 !! "alice" = Some sess
              ∧ last_seen sess = 1000 ∧ offline_since sess = None.
Proof.
  apply (@listed_channel_opened_once ascii_runtime Script scripted_upstream
           scripted_checker [" Alice "; ""; "BOB"] stale_then_fresh 1000 ∅
           (bearer "new") [("user_login", "alice"); ("user_login", "bob")]
           alice_listed [] alice_item []).
  - exact alice_listed_in_trace.
  - reflexivity.
  - reflexivity.
  - intros e Hin. by apply elem_of_nil in Hin.
  - apply lookup_empty.
Defined.

(** ** The configuration the window keeps and writes *)

Lemma dict_set_same {V : Type} k (v : V) (d : odict V) :
  dict_get k d = Some v → dict_set k v d = d.
Proof.
  induction d as [|[k' v'] d IH]; cbn [dict_get dict_set]; [done|].
  destruct (String.eqb_spec k k') as [->|Hne].
  - intros [= ->]. done.
  - intros Hget. by rewrite IH.
Qed.

Section ConfigFacts.
Context `{PyRuntime} `{Clock}.

(** [_persist_config] changes [self.cfg] and nothing else, and writes one
    document. *)
Lemma persist_config_state w :
  (_persist_config w).1 = set_cfg (widgets_cfg w) w
  ∧ (_persist_config w).2
    = [WriteConfig (if cb_save_secret w then widgets_cfg w
                    else dict_set "client_secret" (PStr "") (widgets_cfg w))].
Proof.
  unfold _persist_config. fold (widgets_cfg w).
  destruct (save_config_run cfg_addr {[cfg_addr := widgets_cfg w]}
              (widgets_cfg w) (lookup_singleton_eq _ _)) as [Hdoc Hframe].
  specialize (Hframe cfg_addr).
  destruct (save_config cfg_addr {[cfg_addr := widgets_cfg w]}) as [h' doc].
  cbn [fst snd] in *.
  rewrite Hframe by (rewrite lookup_singleton_eq; by eexists).
  rewrite lookup_singleton_eq. cbn [default]. split; [done|].
  rewrite Hdoc.
  assert (dict_get_default "save_client_secret" (PBool false) (widgets_cfg w)
          = PBool (cb_save_secret w)) as ->.
  { unfold dict_get_default, widgets_cfg.
    rewrite !(dict_get_set_ne "save_client_secret") by done.
    by rewrite dict_get_set_eq. }
  by destruct (cb_save_secret w).
Qed.

Lemma widgets_cfg_secret w :
  dict_get "client_secret" (widgets_cfg w)
  = Some (PStr (str_strip (le_client_secret w))).
Proof.
  unfold widgets_cfg. rewrite !(dict_get_set_ne "client_secret") by done.
  apply dict_get_set_eq.
Qed.

(** [X12] [_persist_config] writes exactly one document. Its
    [client_secret] is the trimmed secret field when the "save secret" box
    is ticked and empty otherwise; every other key is written as the
    window's configuration has it. The configuration in memory keeps the
    secret in both cases. *)
Theorem persist_config_writes_secret_on_request w :
  ∃ doc,
    (_persist_config w).2 = [WriteConfig doc]
    ∧ dict_get "client_secret" doc
      = Some (PStr (if cb_save_secret w then str_strip (le_client_secret w)
                    else ""))
    ∧ (∀ k, k ≠ "client_secret" →
            dict_get k doc = dict_get k (cfg (_persist_config w).1))
    ∧ dict_get "client_secret" (cfg (_persist_config w).1)
      = Some (PStr (str_strip (le_client_secret w))).
Proof.
  destruct (persist_config_state w) as [-> ->]. cbn [cfg set_cfg].
  eexists. split; [done|].
  destruct (cb_save_secret w); repeat split.
  - apply widgets_cfg_secret.
  - apply widgets_cfg_secret.
  - apply dict_get_set_eq.
  - intros k Hk. by rewrite dict_get_set_ne.
  - apply widgets_cfg_secret.
Qed.

(** [X13] Saving twice is the same as saving once: a second
    [_persist_config] with no widget touched in between leaves the window
    as the first did and writes the same document. *)
Theorem persist_config_idempotent w :
  _persist_config (_persist_config w).1 = _persist_config w.
Proof.
  assert (widgets_cfg (set_cfg (widgets_cfg w) w) = widgets_cfg w) as Hfix.
  { unfold widgets_cfg at 1. cbn [cfg set_cfg cb_autostart cb_save_secret
      le_token le_client_secret le_client_id].
    assert (_channels (set_cfg (widgets_cfg w) w) = _channels w) as ->
      by reflexivity.
    assert (_current_interval_sec (set_cfg (widgets_cfg w) w)
            = _current_interval_sec w) as -> by reflexivity.
    rewrite (dict_set_same "client_id");
      [|unfold widgets_cfg; rewrite !(dict_get_set_ne "client_id") by done;
        apply dict_get_set_eq].
    rewrite (dict_set_same "client_secret");
      [|unfold widgets_cfg; rewrite !(dict_get_set_ne "client_secret") by done;
        apply dict_get_set_eq].
    rewrite (dict_set_same "save_client_secret");
      [|unfold widgets_cfg;
        rewrite !(dict_get_set_ne "save_client_secret") by done;
        apply dict_get_set_eq].
    rewrite (dict_set_same "access_token");
      [|unfold widgets_cfg; rewrite !(dict_get_set_ne "access_token") by done;
        apply dict_get_set_eq].
    rewrite (dict_set_same "poll_interval_sec");
      [|unfold widgets_cfg;
        rewrite !(dict_get_set_ne "poll_interval_sec") by done;
        apply dict_get_set_eq].
    rewrite (dict_set_same "channels");
      [|unfold widgets_cfg; rewrite !(dict_get_set_ne "channels") by done;
        apply dict_get_set_eq].
    apply dict_set_same. unfold widgets_cfg. apply dict_get_set_eq. }
  destruct (persist_config_state w) as [Hst Hev].
  destruct (persist_config_state (_persist_config w).1) as [Hst2 Hev2].
  apply injective_projections.
  - rewrite Hst2, Hst, Hfix. reflexivity.
  - rewrite Hev2, Hev, Hst, Hfix. reflexivity.
Qed.
End ConfigFacts.

(** ** The token exchange: what is sent and what a failure leaves behind *)

Section TokenTraffic.
Context `{PyRuntime} `{Clock}.

Lemma str_truthy_ne s : str_truthy s = true ↔ s ≠ "".
Proof.
  unfold str_truthy. rewrite negb_true_iff. apply String.eqb_neq.
Qed.

(** The shapes the trace of [_ensure_token] can take. *)
Lemma ensure_token_trace post now force force_refresh w :
  let data := {| pd_client_id := str_strip (le_client_id w);
                 pd_client_secret := str_strip (le_client_secret w);
                 pd_grant_type := "client_credentials" |} in
  ((_ensure_token post now force force_refresh w).2 = []
   ∨ (∃ m, (_ensure_token post now force force_refresh w).2 = [Log m]))
  ∨ (str_strip (le_client_id w) ≠ "" ∧ str_strip (le_client_secret w) ≠ ""
     ∧ ((∃ m, (_ensure_token post now force force_refresh w).2
              = [HttpPost data; Log m])
        ∨ (∃ doc, (_ensure_token post now force force_refresh w).2
                  = [HttpPost data; WriteConfig doc; Log MsgTokenOk]))).
Proof.
  intros data. unfold _ensure_token. fold data.
  destruct (py_int _) as [exp_at|]; [|by left; left].
  destruct (_ && _ && _ && _); [by left; left|].
  destruct (str_truthy (str_strip (le_client_id w))) eqn:Hid; cbn [negb];
    [|left; right; by eexists].
  destruct (str_truthy (str_strip (le_client_secret w))) eqn:Hsec; cbn [negb];
    [|left; destruct force; [right; by eexists | by left]].
  apply str_truthy_ne in Hid, Hsec.
  right. split; [done|]. split; [done|].
  destruct (post data) as [e|r]; [left; by eexists|].
  destruct (resp_ok r); cbn [negb]; [|left; by eexists].
  destruct (json r) as [e|[| | | | |payload]]; try (left; by eexists).
  destruct (py_int _) as [e|]; [|left; by eexists].
  destruct (_ || _); [left; by eexists|].
  destruct (dict_get_default "access_token" (PStr "") payload);
    try (left; by eexists).
  destruct (_fmt_expiry_label now (now + e)); [|left; by eexists].
  match goal with
  | |- context [_persist_config ?x] =>
      destruct (persist_config_state x) as [_ Hev];
      destruct (_persist_config x) as [w3 evs]
  end.
  cbn [fst snd] in *. subst evs. right. by eexists.
Qed.

(** [X14] One call of [_ensure_token] sends at most one request to the
    token endpoint, and whatever it sends carries the trimmed client id and
    secret, both non-empty, with grant type [client_credentials]. *)
Theorem token_request_discipline post now force force_refresh w :
  (length (List.filter is_http_post
             (_ensure_token post now force force_refresh w).2) ≤ 1)%nat
  ∧ ∀ data,
      HttpPost data ∈ (_ensure_token post now force force_refresh w).2 →
      data = {| pd_client_id := str_strip (le_client_id w);
                pd_client_secret := str_strip (le_client_secret w);
                pd_grant_type := "client_credentials" |}
      ∧ pd_client_id data ≠ "" ∧ pd_client_secret data ≠ "".
Proof.
  destruct (ensure_token_trace post now force force_refresh w)
    as [[-> | [m ->]] | (Hid & Hsec & [[m ->] | [doc ->]])].
  - split; [cbn; lia|]. intros data Hin. by apply elem_of_nil in Hin.
  - split; [cbn; lia|]. intros data Hin.
    apply list_elem_of_singleton in Hin. discriminate.
  - split; [cbn; lia|]. intros data Hin.
    repeat (apply elem_of_cons in Hin as [Hin|Hin]; simplify_eq; try done).
    by apply elem_of_nil in Hin.
  - split; [cbn; lia|]. intros data Hin.
    repeat (apply elem_of_cons in Hin as [Hin|Hin]; simplify_eq; try done).
    by apply elem_of_nil in Hin.
Qed.

Lemma failed_exchange_keeps_window post now force force_refresh w :
  (∀ data r, post data = inr r → resp_ok r = false) →
  (_ensure_token post now force force_refresh w).1.2 = w
  ∧ (∀ doc, WriteConfig doc ∉ (_ensure_token post now force force_refresh w).2)
  ∧ (is_Some (py_int (dict_get_default "token_expires_at" (PInt 0) (cfg w))) →
     force_refresh = true →
     (_ensure_token post now force force_refresh w).1.1 = Ret false).
Proof.
  intros Hdead. unfold _ensure_token.
  destruct (py_int _) as [exp_at|].
  2:{ split; [done|split].
      - intros doc Hin. by apply elem_of_nil in Hin.
      - by intros [? ?]. }
  destruct (negb force_refresh && _ && _ && _) eqn:Hcache.
  { split; [done|split].
    - intros doc Hin. by apply elem_of_nil in Hin.
    - intros _ Hforce. rewrite Hforce in Hcache. discriminate Hcache. }
  destruct (str_truthy (str_strip (le_client_id w))); cbn [negb].
  2:{ split; [done|split; [|done]]. intros doc Hin.
      apply list_elem_of_singleton in Hin. discriminate. }
  destruct (str_truthy (str_strip (le_client_secret w))); cbn [negb].
  2:{ split; [done|split; [|done]]. intros doc Hin.
      destruct force; [apply list_elem_of_singleton in Hin; discriminate|].
      by apply elem_of_nil in Hin. }
  match goal with
  | |- context [post ?d] => destruct (post d) as [e|r] eqn:Hpost
  end.
  - split; [done|split; [|done]]. intros doc Hin.
    repeat (apply elem_of_cons in Hin as [Hin|Hin]; simplify_eq).
    by apply elem_of_nil in Hin.
  - rewrite (Hdead _ r Hpost). cbn [negb]. split; [done|split; [|done]].
    intros doc Hin.
    repeat (apply elem_of_cons in Hin as [Hin|Hin]; simplify_eq).
    by apply elem_of_nil in Hin.
Qed.

(** [X15] When the token endpoint cannot be reached or answers with an
    error status, [_ensure_token] leaves the window exactly as it was (the
    cached token and its expiry included) and writes no configuration. *)
Theorem failed_exchange_changes_nothing post now force force_refresh w :
  (∀ data r, post data = inr r → resp_ok r = false) →
  (_ensure_token post now force force_refresh w).1.2 = w
  ∧ ∀ doc, WriteConfig doc ∉ (_ensure_token post now force force_refresh w).2.
Proof.
  intros Hdead.
  destruct (failed_exchange_keeps_window post now force force_refresh w Hdead)
    as (Hw & Hdoc & _).
  by split.
Qed.
End TokenTraffic.

Lemma token_request_discipline_witness :
  pd_client_id
    {| pd_client_id := "abc123"; pd_client_secret := "hunter2";
       pd_grant_type := "client_credentials" |} ≠ "".
Proof.
  apply (@token_request_discipline ascii_runtime plain_clock fresh_token 1000
           true false (sample_window "1" "0")).
  vm_compute. apply list_elem_of_here.
Defined.

Lemma failed_exchange_changes_nothing_witness :
  (@_ensure_token ascii_runtime plain_clock unreachable 1000 true false
     (sample_window "1" "0")).1.2 = sample_window "1" "0".
Proof.
  apply (@failed_exchange_changes_nothing ascii_runtime plain_clock
           unreachable 1000 true false (sample_window "1" "0")).
  intros data r Hpost. discriminate Hpost.
Defined.

Section CredentialFacts.
Context `{PyRuntime} `{Clock} `{PyStr}.

Lemma ensure_token_cached post now w tok exp :
  dict_get "access_token" (cfg w) = Some (PStr tok) →
  tok ≠ "" →
  dict_get "token_expires_at" (cfg w) = Some (PInt exp) →
  300 < exp - now →
  _ensure_token post now false false w = (Ret true, w, []).
Proof.
  intros Htok Hne Hexp Hleft. unfold _ensure_token, dict_get_default.
  rewrite Hexp, Htok. cbn [py_int truthy negb andb].
  rewrite (proj2 (String.eqb_neq _ _) Hne). cbn [negb andb].
  unfold TOKEN_REFRESH_BUFFER_SEC.
  by rewrite (proj2 (Z.ltb_lt _ _) Hleft).
Qed.

(** Without a usable cached token and with both credentials filled in, the
    first thing [_ensure_token] does is send the request. *)
Lemma ensure_token_sends post now force force_refresh w exp_at :
  py_int (dict_get_default "token_expires_at" (PInt 0) (cfg w)) = Some exp_at →
  negb force_refresh
  && truthy (dict_get_default "access_token" PNone (cfg w))
  && (TOKEN_REFRESH_BUFFER_SEC <? exp_at - now) && negb force = false →
  str_strip (le_client_id w) ≠ "" →
  str_strip (le_client_secret w) ≠ "" →
  ∃ rest,
    (_ensure_token post now force force_refresh w).2
    = HttpPost {| pd_client_id := str_strip (le_client_id w);
                  pd_client_secret := str_strip (le_client_secret w);
                  pd_grant_type := "client_credentials" |} :: rest.
Proof.
  intros Hexp Hmiss Hid%str_truthy_ne Hsec%str_truthy_ne.
  unfold _ensure_token. rewrite Hexp, Hmiss, Hid, Hsec. cbn [negb].
  match goal with
  | |- context [post ?d] => destruct (post d) as [e|r]
  end; [by eexists|].
  destruct (resp_ok r); cbn [negb]; [|by eexists].
  destruct (json r) as [e|[| | | | |payload]]; try by eexists.
  destruct (py_int (dict_get_default "expires_in" (PInt 0) payload))
    as [e|]; [|by eexists].
  destruct (negb _ || _); [by eexists|].
  destruct (dict_get_default "access_token" (PStr "") payload);
    try by eexists.
  destruct (_fmt_expiry_label now (now + e)); [|by eexists].
  destruct (_persist_config _) as [w3 evs]. by eexists.
Qed.

(** [X16] After the credentials change, the token at hand is not used
    again. [_on_creds_changed] blanks it and, when both credentials are
    filled in, always asks the endpoint for a new one; if the endpoint
    fails, the window is left without a token (empty token, expiry 0). *)
Theorem creds_change_forgets_token post now w :
  str_strip "" = "" →
  (_on_creds_changed post now w).1.1 = Ret tt
  ∧ (str_strip (le_client_id w) ≠ "" →
     str_strip (le_client_secret w) ≠ "" →
     HttpPost {| pd_client_id := str_strip (le_client_id w);
                 pd_client_secret := str_strip (le_client_secret w);
                 pd_grant_type := "client_credentials" |}
     ∈ (_on_creds_changed post now w).2)
  ∧ ((∀ data r, post data = inr r → resp_ok r = false) →
     dict_get "access_token" (cfg (_on_creds_changed post now w).1.2)
     = Some (PStr "")
     ∧ dict_get "token_expires_at" (cfg (_on_creds_changed post now w).1.2)
       = Some (PInt 0)
     ∧ le_token (_on_creds_changed post now w).1.2 = "").
Proof.
  intros Hstrip. unfold _on_creds_changed.
  change (_fmt_expiry_label now 0) with (Some LblNotYet).
  cbv beta iota zeta.
  set (w3 := set_token_widgets _ LblNotYet _).
  destruct (persist_config_state w3) as [Hst Hev].
  destruct (_persist_config w3) as [w4 ev1]. cbn [fst snd] in *. subst w4 ev1.
  set (w4 := set_cfg (widgets_cfg w3) w3).
  assert (dict_get "access_token" (cfg w4) = Some (PStr "")) as Htok.
  { subst w4. cbn [cfg set_cfg]. unfold widgets_cfg.
    rewrite !(dict_get_set_ne "access_token") by done.
    rewrite dict_get_set_eq. subst w3. cbn [le_token set_token_widgets set_cfg].
    by rewrite Hstrip. }
  assert (dict_get "token_expires_at" (cfg w4) = Some (PInt 0)) as Hexp.
  { subst w4. cbn [cfg set_cfg]. unfold widgets_cfg.
    rewrite !(dict_get_set_ne "token_expires_at") by done.
    subst w3. cbn [cfg set_token_widgets set_cfg]. apply dict_get_set_eq. }
  assert (py_int (dict_get_default "token_expires_at" (PInt 0) (cfg w4))
          = Some 0) as Hint.
  { unfold dict_get_default. by rewrite Hexp. }
  assert (negb false
          && truthy (dict_get_default "access_token" PNone (cfg w4))
          && (TOKEN_REFRESH_BUFFER_SEC <? 0 - now) && negb false = false)
    as Hmiss.
  { unfold dict_get_default. rewrite Htok. reflexivity. }
  split; [|split].
  - destruct (_ensure_token post now false false w4) as [[[b|e] w5] ev2] eqn:Hrun;
      [done|].
    exfalso. revert Hrun. unfold _ensure_token. rewrite Hint.
    repeat (match goal with
            | |- context [match ?x with _ => _ end] => destruct x
            end; try discriminate).
  - intros Hid Hsec.
    destruct (ensure_token_sends post now false false w4 0 Hint Hmiss Hid Hsec)
      as [rest Hsend].
    destruct (_ensure_token post now false false w4) as [[[b|e] w5] ev2];
      cbn [fst snd] in *; subst ev2;
      apply elem_of_app; right; apply list_elem_of_here.
  - intros Hdead.
    destruct (failed_exchange_keeps_window post now false false w4 Hdead)
      as (Hsame & _).
    destruct (_ensure_token post now false false w4) as [[[b|e] w5] ev2];
      cbn [fst snd] in *; subst w5; by rewrite Htok, Hexp.
Qed.

(** [X17] With a cached token that has more than 300 seconds left at both
    clock readings and a client id filled in, [_get_headers_safely] answers
    at once with the headers for that token: no request is sent and the
    window is left as it was. *)
Theorem cached_token_gives_headers post1 post2 now1 now2 now3 w tok exp :
  dict_get "access_token" (cfg w) = Some (PStr tok) →
  tok ≠ "" →
  dict_get "token_expires_at" (cfg w) = Some (PInt exp) →
  300 < exp - now1 →
  300 < exp - now2 →
  str_strip (le_client_id w) ≠ "" →
  _get_headers_safely post1 post2 now1 now2 now3 false w
  = (Ret (true,
          [("Client-Id", str_strip (le_client_id w));
           ("Authorization", "Bearer " +:+ tok)], ""),
     w, []).
Proof.
  intros Htok Hne Hexp Hleft1 Hleft2 Hid. unfold _get_headers_safely.
  rewrite (ensure_token_cached post1 now1 w tok exp Htok Hne Hexp Hleft1).
  cbv beta iota zeta.
  unfold dict_get_default. rewrite Htok, Hexp. cbn [truthy py_num].
  rewrite (proj2 (String.eqb_neq _ _) Hne). cbn [negb].
  unfold TOKEN_REFRESH_BUFFER_SEC.
  rewrite (proj2 (Z.leb_gt _ _)) by lia.
  cbv beta iota zeta. rewrite Htok. cbn [truthy format_value].
  rewrite (proj2 (String.eqb_neq _ _) Hne).
  unfold str_truthy. rewrite (proj2 (String.eqb_neq _ _) Hid).
  reflexivity.
Qed.

(** [X18] A forced refresh against an endpoint that cannot be reached or
    answers with an error status makes [_get_headers_safely] refuse: it
    answers [(False, {}, ...)] with the "no valid token" text and leaves
    the window as it was. *)
Theorem failed_refresh_gives_no_headers post1 post2 now1 now2 now3 w :
  (∀ data r, post1 data = inr r → resp_ok r = false) →
  is_Some (py_int (dict_get_default "token_expires_at" (PInt 0) (cfg w))) →
  (_get_headers_safely post1 post2 now1 now2 now3 true w).1
  = (Ret (false, [], NO_VALID_TOKEN), w).
Proof.
  intros Hdead Hint. unfold _get_headers_safely.
  destruct (failed_exchange_keeps_window post1 now1 false true w Hdead)
    as (Hsame & _ & Hfail).
  specialize (Hfail Hint eq_refl).
  destruct (_ensure_token post1 now1 false true w) as [[r w1] ev1].
  cbn [fst snd] in *. by subst.
Qed.
End CredentialFacts.

Lemma creds_change_forgets_token_witness :
  HttpPost {| pd_client_id := "abc123"; pd_client_secret := "hunter2";
              pd_grant_type := "client_credentials" |}
  ∈ (@_on_creds_changed ascii_runtime plain_clock unreachable 1000
       (sample_window "1" "0")).2
  ∧ dict_get "access_token"
      (cfg (@_on_creds_changed ascii_runtime plain_clock unreachable 1000
              (sample_window "1" "0")).1.2) = Some (PStr "").
Proof.
  destruct (@creds_change_forgets_token ascii_runtime plain_clock unreachable
              1000 (sample_window "1" "0") eq_refl) as (_ & Hsend & Hblank).
  split.
  - apply Hsend; by vm_compute.
  - apply Hblank. intros data r Hpost. discriminate Hpost.
Defined.

Lemma cached_token_gives_headers_witness :
  @_get_headers_safely ascii_runtime plain_clock scalar_str unreachable
    unreachable 1000 1001 1002 false (sample_window "1" "0")
  = (Ret (true, bearer "tok", ""), sample_window "1" "0", []).
Proof.
  apply (@cached_token_gives_headers ascii_runtime plain_clock scalar_str
           unreachable unreachable 1000 1001 1002 (sample_window "1" "0")
           "tok" 5000).
  - reflexivity.
  - discriminate.
  - reflexivity.
  - lia.
  - lia.
  - by vm_compute.
Defined.

Lemma failed_refresh_gives_no_headers_witness :
  (@_get_headers_safely ascii_runtime plain_clock scalar_str unreachable
     unreachable 1000 1001 1002 true (sample_window "1" "0")).1
  = (Ret (false, [], NO_VALID_TOKEN), sample_window "1" "0").
Proof.
  apply (@failed_refresh_gives_no_headers ascii_runtime plain_clock scalar_str
           unreachable unreachable 1000 1001 1002 (sample_window "1" "0")).
  - intros data r Hpost. discriminate Hpost.
  - by eexists.
Defined.

(** ** The channel list *)

Lemma existsb_eqb_elem (l : string) (cs : list string) :
  existsb (λ c, (l =? c)%string) cs = true ↔ l ∈ cs.
Proof.
  rewrite existsb_exists, list_elem_of_In. split.
  - intros (c & Hin & Heq%String.eqb_eq). by subst.
  - intros Hin. exists l. by rewrite String.eqb_refl.
Qed.

Lemma take_first_absent login rows :
  login ∉ rows → take_first login rows = rows.
Proof.
  induction rows as [|row rest IH]; cbn [take_first]; [done|].
  intros Hnot. apply not_elem_of_cons in Hnot as [Hne Hnot].
  destruct (String.eqb_spec row login) as [->|_]; [done|]. by rewrite IH.
Qed.

Lemma take_first_other login rows x :
  x ≠ login → (x ∈ take_first login rows ↔ x ∈ rows).
Proof.
  intros Hne. induction rows as [|row rest IH]; cbn [take_first]; [done|].
  destruct (String.eqb_spec row login) as [->|Hrow].
  - rewrite elem_of_cons. split; [by right|]. by intros [?|?].
  - by rewrite !elem_of_cons, IH.
Qed.

Lemma take_first_NoDup login rows :
  NoDup rows → NoDup (take_first login rows) ∧ login ∉ take_first login rows.
Proof.
  induction rows as [|row rest IH]; cbn [take_first]; intros Hnd.
  - split; [done|]. apply not_elem_of_nil.
  - apply NoDup_cons in Hnd as [Hfresh Hnd].
    destruct (String.eqb_spec row login) as [->|Hrow]; [done|].
    destruct (IH Hnd) as [IHa IHb]. split.
    + apply NoDup_cons. split; [|done].
      intros Hin. apply Hfresh.
      by apply (take_first_other login rest row Hrow).
    + apply not_elem_of_cons. split; [congruence|done].
Qed.

Section ChannelFacts.
Context `{PyRuntime} `{Clock} `{PyStr}.

(** What [_add_channel_item] does to the list. *)
Lemma add_channel_item_list login w :
  list_channels (_add_channel_item login w).1
  = if decide (str_lower (str_strip login) = ""
               ∨ str_lower (str_strip login) ∈ _channels w)
    then list_channels w
    else list_channels w ++ [str_lower (str_strip login)].
Proof.
  unfold _add_channel_item.
  destruct (str_truthy (str_lower (str_strip login))) eqn:Hfull; cbn [negb].
  2:{ rewrite decide_True; [done|]. left.
      unfold str_truthy in Hfull. apply negb_false_iff in Hfull.
      by apply String.eqb_eq. }
  apply str_truthy_ne in Hfull.
  destruct (existsb _ (_channels w)) eqn:Hdup.
  - apply existsb_eqb_elem in Hdup. rewrite decide_True; [done|by right].
  - rewrite decide_False.
    + match goal with
      | |- context [_persist_config ?x] =>
          destruct (persist_config_state x) as [Hst _];
          destruct (_persist_config x) as [w1 evs]
      end.
      cbn [fst snd] in *. by subst w1.
    + intros [?|Hin]; [done|]. apply existsb_eqb_elem in Hin. congruence.
Qed.

Lemma add_channel_item_spec login w :
  str_lower (str_strip (str_lower (str_strip login)))
  = str_lower (str_strip login) →
  NoDup (_channels w) →
  NoDup (_channels (_add_channel_item login w).1)
  ∧ (∀ x, x ∈ _channels w → x ∈ _channels (_add_channel_item login w).1)
  ∧ (str_lower (str_strip login) ≠ "" →
     str_lower (str_strip login) ∈ _channels (_add_channel_item login w).1).
Proof.
  intros Hidem Hnd.
  assert (_channels (_add_channel_item login w).1
          = if decide (str_lower (str_strip login) = ""
                       ∨ str_lower (str_strip login) ∈ _channels w)
            then _channels w
            else _channels w ++ [str_lower (str_strip login)]) as ->.
  { unfold _channels at 1. rewrite add_channel_item_list.
    destruct (decide _); [done|].
    rewrite map_app. cbn [map]. by rewrite Hidem. }
  destruct (decide _) as [[Hempty|Hdup]|Hnew].
  - split; [done|]. split; [done|]. by intros ?.
  - split; [done|]. split; [done|]. by intros _.
  - split; [|split].
    + apply NoDup_app. split; [done|]. split; [|apply NoDup_singleton].
      intros x Hin Hx. apply list_elem_of_singleton in Hx. subst x.
      apply Hnew. by right.
    + intros x Hin. apply elem_of_app. by left.
    + intros _. apply elem_of_app. right. apply list_elem_of_here.
Qed.

(** [X19] [_add_channel_item] keeps the channel list free of duplicates,
    compared on the trimmed, lower-cased name: a name that is empty or
    already listed changes nothing, any other name is listed afterwards. *)
Theorem add_channel_rejects_duplicates login w :
  str_lower (str_strip (str_lower (str_strip login)))
  = str_lower (str_strip login) →
  NoDup (_channels w) →
  NoDup (_channels (_add_channel_item login w).1)
  ∧ (str_lower (str_strip login) ≠ "" →
     str_lower (str_strip login) ∈ _channels (_add_channel_item login w).1)
  ∧ (str_lower (str_strip login) = ""
     ∨ str_lower (str_strip login) ∈ _channels w →
     list_channels (_add_channel_item login w).1 = list_channels w).
Proof.
  intros Hidem Hnd.
  destruct (add_channel_item_spec login w Hidem Hnd) as (Ha & _ & Hb).
  split; [done|]. split; [done|].
  intros Hskip. rewrite add_channel_item_list. by rewrite decide_True.
Qed.

(** [X20] Filling the list from a saved configuration, as [__init__] does,
    never yields duplicates, whatever the saved list holds: names that
    differ only in case or surrounding blanks are listed once, and every
    non-empty saved name is listed. *)
Theorem loaded_channels_are_distinct cs w :
  Forall (λ c, str_lower (str_strip (str_lower (str_strip c)))
               = str_lower (str_strip c)) cs →
  NoDup (_channels w) →
  NoDup (_channels (add_channels cs w).1)
  ∧ ∀ c, c ∈ cs → str_lower (str_strip c) ≠ "" →
         str_lower (str_strip c) ∈ _channels (add_channels cs w).1.
Proof.
  intros Hidem. revert w.
  assert (∀ w, NoDup (_channels w) →
            NoDup (_channels (add_channels cs w).1)
            ∧ (∀ x, x ∈ _channels w → x ∈ _channels (add_channels cs w).1)
            ∧ ∀ c, c ∈ cs → str_lower (str_strip c) ≠ "" →
                   str_lower (str_strip c) ∈ _channels (add_channels cs w).1)
    as Hgen.
  { induction Hidem as [|c cs Hc Hcs IH]; intros w Hnd; cbn [add_channels].
    - split; [done|]. split; [done|]. intros c Hin. by apply elem_of_nil in Hin.
    - destruct (add_channel_item_spec c w Hc Hnd) as (Ha1 & Ha2 & Ha3).
      destruct (_add_channel_item c w) as [w1 ev1]. cbn [fst] in *.
      destruct (IH w1 Ha1) as (I1 & I2 & I3).
      destruct (add_channels cs w1) as [w2 ev2]. cbn [fst] in *.
      split; [done|]. split; [by auto|].
      intros c' Hin Hfull. apply elem_of_cons in Hin as [->|Hin]; [|by auto].
      by apply I2, Ha3. }
  intros w Hnd. destruct (Hgen w Hnd) as (Ha & _ & Hb). by split.
Qed.

(** [X21] [_remove_channel_by_login] takes the named channel off a
    duplicate-free list and leaves every other channel listed; a name that
    is not listed changes nothing. The list it saves in the configuration
    is the list after the removal. *)
Theorem remove_channel_takes_it_off login w :
  NoDup (list_channels w) →
  (login ∉ list_channels (_remove_channel_by_login login w).1)
  ∧ (∀ x, x ≠ login →
          (x ∈ list_channels (_remove_channel_by_login login w).1
           ↔ x ∈ list_channels w))
  ∧ (login ∉ list_channels w →
     list_channels (_remove_channel_by_login login w).1 = list_channels w)
  ∧ dict_get "channels" (cfg (_remove_channel_by_login login w).1)
    = Some (PList (map PStr
                     (_channels (_remove_channel_by_login login w).1))).
Proof.
  intros Hnd. unfold _remove_channel_by_login.
  match goal with
  | |- context [_persist_config ?x] =>
      destruct (persist_config_state x) as [Hst _];
      destruct (_persist_config x) as [w1 evs]
  end.
  cbn [fst snd] in *. subst w1. cbn [list_channels set_cfg set_channels cfg].
  destruct (take_first_NoDup login (list_channels w) Hnd) as [_ Hgone].
  split; [done|]. split; [intros x Hx; by apply take_first_other|].
  split; [apply take_first_absent|].
  unfold widgets_cfg. rewrite (dict_get_set_ne "channels") by done.
  by rewrite dict_get_set_eq.
Qed.
End ChannelFacts.

Lemma add_channel_rejects_duplicates_witness :
  list_channels
    (@_add_channel_item ascii_runtime " ALICE " keeper_window).1
  = list_channels keeper_window.
Proof.
  apply (@add_channel_rejects_duplicates ascii_runtime " ALICE "
           keeper_window).
  - reflexivity.
  - apply (bool_decide_unpack _). vm_compute. exact I.
  - right. apply list_elem_of_here.
Defined.

Lemma loaded_channels_are_distinct_witness :
  NoDup (@_channels ascii_runtime
           (@add_channels ascii_runtime
              ["Alice"; " alice "; ""; "bob"] empty_window).1).
Proof.
  apply (@loaded_channels_are_distinct ascii_runtime
           ["Alice"; " alice "; ""; "bob"] empty_window).
  - repeat constructor.
  - apply NoDup_nil_2.
Defined.

Lemma remove_channel_takes_it_off_witness :
  "alice" ∉ list_channels
              (@_remove_channel_by_login ascii_runtime "alice"
                 keeper_window).1.
Proof.
  apply (@remove_channel_takes_it_off ascii_runtime "alice"
           keeper_window).
  apply (bool_decide_unpack _). vm_compute. exact I.
Defined.

(** ** Manual checks, starting with an empty list, and the saved interval *)

Lemma pretty_N_go_nonempty (x : N) (s : string) :
  s ≠ "" → pretty_N_go x s ≠ "".
Proof.
  revert s. induction (N.lt_wf_0 x) as [x _ IH]; intros s Hs.
  assert (x = 0 ∨ 0 < x)%N as [->|Hpos] by lia.
  - by rewrite pretty_N_go_0.
  - rewrite pretty_N_go_step by done. apply IH; [|done].
    by apply N.div_lt.
Qed.

Lemma pretty_Z_nonempty (z : Z) : pretty z ≠ "".
Proof.
  assert (∀ p : positive, pretty p ≠ "") as Hpos.
  { intros p. unfold pretty, pretty_positive, pretty, pretty_N.
    destruct (decide (N.pos p = 0%N)) as [|_]; [done|].
    rewrite pretty_N_go_step by lia. by apply pretty_N_go_nonempty. }
  unfold pretty, pretty_Z. destruct z as [|p|p]; [done|apply Hpos|done].
Qed.

Section ScheduleFacts.
Context `{PyRuntime} `{Clock}.

Lemma ensure_token_keeps_channels post now force force_refresh w :
  list_channels (_ensure_token post now force force_refresh w).1.2
  = list_channels w.
Proof.
  unfold _ensure_token.
  repeat (match goal with
          | |- context [match ?x with _ => _ end] =>
              lazymatch x with
              | _persist_config _ => fail
              | _ => destruct x eqn:?
              end
          end; cbn [fst snd]); try done.
  all: match goal with
       | |- context [_persist_config ?x] =>
           destruct (persist_config_state x) as [Hst _];
           destruct (_persist_config x) as [w3 evs]
       end.
  all: cbn [fst snd] in *; by subst.
Qed.

Lemma invoke_check_cases w :
  (list_channels w = [] ∧ _invoke_check w = [Log MsgNoChannels])
  ∨ (list_channels w ≠ [] ∧ _invoke_check w = [SigCheck (_channels w)]).
Proof.
  unfold _invoke_check, _channels.
  destruct (list_channels w) as [|c cs]; [by left|by right].
Qed.

(** [X22] A manual check leaves the timer and the tracked sessions as they
    are. After saving the configuration it hands the worker the channel
    list, trimmed and lower-cased, or, when the list is empty, only logs
    that there is nothing to check. *)
Theorem manual_check_leaves_schedule w :
  timer (_manual_check w).1 = timer w
  ∧ live_sessions (_manual_check w).1 = live_sessions w
  ∧ ∃ doc,
      (_manual_check w).2
      = [WriteConfig doc;
         if decide (list_channels w = []) then Log MsgNoChannels
         else SigCheck (_channels w)].
Proof.
  unfold _manual_check.
  destruct (persist_config_state w) as [Hst Hev].
  destruct (_persist_config w) as [w1 evs]. cbn [fst snd] in *. subst w1 evs.
  split; [done|]. split; [done|]. eexists. cbn [app]. f_equal.
  destruct (invoke_check_cases (set_cfg (widgets_cfg w) w))
    as [[Hnil ->]|[Hsome ->]]; cbn [list_channels set_cfg] in *.
  - by rewrite decide_True.
  - by rewrite decide_False.
Qed.

(** [X23] [_start_poll] with an empty channel list arms the timer but asks
    the worker for nothing; with channels listed, the last thing it does
    is hand the worker the list, trimmed and lower-cased. *)
Theorem start_poll_checks_only_with_channels post now w :
  is_Some (py_int (dict_get_default "token_expires_at" (PInt 0) (cfg w))) →
  (list_channels w = [] →
   ∀ logins, SigCheck logins ∉ (_start_poll post now w).2)
  ∧ (list_channels w ≠ [] →
     last (_start_poll post now w).2 = Some (SigCheck (_channels w))).
Proof.
  intros Hint.
  destruct (start_poll_returns post now w Hint) as (w' & evs & Hrun & _).
  revert Hrun. unfold _start_poll.
  destruct (persist_config_state w) as [Hst Hev].
  destruct (_persist_config w) as [w1 ev1]. cbn [fst snd] in *. subst w1 ev1.
  set (w2 := set_live_sessions ∅ (set_cfg (widgets_cfg w) w)).
  pose proof (ensure_token_keeps_channels post now false false w2) as Hch.
  pose proof (ensure_token_trace post now false false w2) as Htr.
  destruct (_ensure_token post now false false w2) as [[[got|e] w3] ev2];
    [|discriminate].
  cbn [fst snd] in *. intros [= <- <-]. cbn [snd].
  set (w4 := set_timer _ false true w3).
  assert (list_channels w4 = list_channels w) as Hsame.
  { subst w4. cbn [list_channels set_timer]. rewrite Hch. reflexivity. }
  assert (_channels w4 = _channels w) as Hnames
    by (unfold _channels; by rewrite Hsame).
  assert (∀ logins, SigCheck logins ∉ ev2) as Hquiet.
  { intros logins Hin.
    destruct Htr as [[-> | [m ->]] | (_ & _ & [[m ->] | [doc ->]])];
      repeat (apply elem_of_cons in Hin as [Hin|Hin]; simplify_eq);
      by apply elem_of_nil in Hin. }
  destruct (invoke_check_cases w4) as [[Hnil ->]|[Hsome ->]]; split.
  - intros _ logins Hin.
    repeat (apply elem_of_app in Hin as [Hin|Hin]);
      try (by apply Hquiet in Hin);
      destruct got;
      repeat (apply elem_of_cons in Hin as [Hin|Hin]; simplify_eq);
      by apply elem_of_nil in Hin.
  - intros Hne. rewrite Hsame in Hnil. done.
  - intros Hnil. rewrite Hsame in Hsome. done.
  - intros _. rewrite Hnames, !app_assoc. apply last_snoc.
Qed.

Lemma interval_bounds w : 1 ≤ _current_interval_sec w ≤ 599999.
Proof. unfold _current_interval_sec, _ival. lia. Qed.

(** [X24] The interval survives a restart: the two fields that [__init__]
    fills from the saved configuration give back the interval that was in
    force when the configuration was saved, as long as the runtime reads
    back the numbers it prints. *)
Theorem interval_survives_restart w w' :
  int_of_str (pretty (_current_interval_sec w / 60))
  = Some (_current_interval_sec w / 60) →
  int_of_str (pretty (_current_interval_sec w mod 60))
  = Some (_current_interval_sec w mod 60) →
  ∃ minutes seconds,
    init_interval_fields (cfg (_persist_config w).1) = Some (minutes, seconds)
    ∧ _current_interval_sec (set_interval_fields minutes seconds w')
      = _current_interval_sec w.
Proof.
  intros Hm Hs. pose proof (interval_bounds w) as Hb.
  destruct (persist_config_state w) as [-> _]. cbn [cfg set_cfg].
  unfold init_interval_fields, dict_get_default.
  assert (dict_get "poll_interval_sec" (widgets_cfg w)
          = Some (PInt (_current_interval_sec w))) as ->.
  { unfold widgets_cfg.
    rewrite !(dict_get_set_ne "poll_interval_sec") by done.
    apply dict_get_set_eq. }
  cbn [py_int]. rewrite Z.max_r by lia.
  eexists _, _. split; [done|].
  set (t := _current_interval_sec w) in *.
  unfold _current_interval_sec at 1.
  cbn [le_minutes le_seconds set_interval_fields].
  unfold _ival.
  rewrite !(proj2 (str_truthy_ne _)) by apply pretty_Z_nonempty.
  rewrite Hm, Hs.
  pose proof (Z.div_mod t 60 ltac:(lia)) as Hdm.
  pose proof (Z.mod_pos_bound t 60 ltac:(lia)) as Hmod.
  assert (0 ≤ t / 60 ≤ 9999) as Hdiv.
  { split; [apply Z.div_pos; lia|].
    assert (t / 60 < 10000) by (apply Z.div_lt_upper_bound; lia). lia. }
  lia.
Qed.
End ScheduleFacts.

Lemma start_poll_checks_only_with_channels_witness :
  last (@_start_poll ascii_runtime plain_clock unreachable 1000
          (sample_window "1" "0")).2 = Some (SigCheck ["alice"; "bob"]).
Proof.
  apply (@start_poll_checks_only_with_channels ascii_runtime plain_clock
           unreachable 1000 (sample_window "1" "0")).
  - by eexists.
  - discriminate.
Defined.

Lemma interval_survives_restart_witness :
  ∃ minutes seconds,
    @init_interval_fields ascii_runtime
      (cfg (@_persist_config ascii_runtime keeper_window).1)
    = Some (minutes, seconds)
    ∧ @_current_interval_sec ascii_runtime
        (set_interval_fields minutes seconds empty_window)
      = @_current_interval_sec ascii_runtime keeper_window.
Proof.
  apply (@interval_survives_restart ascii_runtime keeper_window empty_window).
  - reflexivity.
  - reflexivity.
Defined.

(** ** The configuration file, beyond the secret *)

(** [X25] [save_config] writes every key other than [client_secret] exactly
    as the configuration has it, and when [save_client_secret] is true (or
    any other truthy value) the document written is the configuration
    itself, secret included. *)
Theorem save_config_writes_rest_verbatim cfg h d :
  h !! cfg = Some d →
  ∃ doc,
    (save_config cfg h).2 = Some doc
    ∧ (∀ k, k ≠ "client_secret" → dict_get k doc = dict_get k d)
    ∧ (truthy (dict_get_default "save_client_secret" (PBool false) d) = true →
       doc = d).
Proof.
  intros Hd. destruct (save_config_run cfg h d Hd) as [-> _].
  eexists. split; [done|].
  destruct (truthy (dict_get_default "save_client_secret" (PBool false) d)).
  - by split.
  - split; [|done]. intros k Hk. by rewrite dict_get_set_ne.
Qed.

Lemma save_config_writes_rest_verbatim_witness :
  ∃ doc,
    (save_config 1%positive
       {[1%positive := dict_set "save_client_secret" (PInt 1)
                         (sample_cfg "hunter2")]}).2 = Some doc
    ∧ dict_get "client_secret" doc = Some (PStr "hunter2").
Proof.
  destruct (save_config_writes_rest_verbatim 1%positive
              {[1%positive := dict_set "save_client_secret" (PInt 1)
                                (sample_cfg "hunter2")]}
              (dict_set "save_client_secret" (PInt 1) (sample_cfg "hunter2")))
    as (doc & Hdoc & _ & Hsame).
  - apply lookup_singleton_eq.
  - exists doc. split; [exact Hdoc|]. rewrite Hsame; reflexivity.
Defined.

(** ** The session tracker over several polls *)

(** The record a live observation leaves behind. *)
Lemma after_live_poll now result ls login info :
  NoDup (dict_keys result) →
  (login, info) ∈ result →
  live info = true →
  ∃ sess, (on_result now result ls).1 !! login = Some sess
          ∧ session_id sess = session_key info
          ∧ offline_since sess = None.
Proof.
  intros Hnd Hin Hlive. unfold on_result.
  destruct (track_all_present now result login info (sweep now ls) Hnd Hin)
    as [-> _].
  unfold track_one. rewrite Hlive.
  destruct (sweep now ls !! login) as [prev|].
  - destruct (String.eqb_spec (session_key info) (session_id prev)) as [Heq|];
      [|destruct (within_grace now prev)];
      cbn [fst]; rewrite lookup_insert_eq; eexists; split; done.
  - cbn [fst]. rewrite lookup_insert_eq. eexists; split; done.
Qed.

(** What [_on_result] does for a channel that has a record the clean-up
    keeps. *)
Lemma on_result_kept now result ls login info prev :
  NoDup (dict_keys result) →
  (login, info) ∈ result →
  ls !! login = Some prev →
  grace_over now prev = false →
  (on_result now result ls).1 !! login
  = (track_one now login info {[login := prev]}).1 !! login
  ∧ opened login (on_result now result ls).2
    = opened login (track_one now login info {[login := prev]}).2.
Proof.
  intros Hnd Hin Hprev Hkeep. unfold on_result.
  destruct (track_all_present now result login info (sweep now ls) Hnd Hin)
    as [-> ->].
  destruct (track_one_local now login info (sweep now ls) {[login := prev]})
    as [-> ->]; [|done].
  by rewrite sweep_lookup, Hprev, Hkeep, lookup_singleton_eq.
Qed.

(** [X26] Two polls in a row that report a channel live with the same
    session key open its page at most once: the second poll opens
    nothing, however much later it comes. *)
Theorem same_stream_twice_opens_once now1 now2 r1 r2 ls login i1 i2 :
  NoDup (dict_keys r1) → (login, i1) ∈ r1 → live i1 = true →
  NoDup (dict_keys r2) → (login, i2) ∈ r2 → live i2 = true →
  session_key i2 = session_key i1 →
  opened login (on_result now2 r2 (on_result now1 r1 ls).1).2 = 0%nat.
Proof.
  intros Hnd1 Hin1 Hl1 Hnd2 Hin2 Hl2 Hkey.
  destruct (after_live_poll now1 r1 ls login i1 Hnd1 Hin1 Hl1)
    as (s1 & Hs1 & Hid1 & Hoff1).
  assert (grace_over now2 s1 = false) as Hkeep
    by (unfold grace_over; by rewrite Hoff1).
  destruct (on_result_kept now2 r2 _ login i2 s1 Hnd2 Hin2 Hs1 Hkeep)
    as [_ ->].
  unfold track_one. rewrite Hl2, lookup_singleton_eq, Hkey, Hid1.
  by rewrite String.eqb_refl.
Qed.

(** [X27] Live, then offline, then live again within 300 seconds of the
    offline report: neither the offline poll nor the reconnect opens the
    page, whether or not the session key changed, and the record ends up
    with the key of the reconnect and no offline mark. *)
Theorem reconnect_within_grace_is_quiet now1 now2 now3 r1 r2 r3 ls login
    i1 i2 i3 :
  NoDup (dict_keys r1) → (login, i1) ∈ r1 → live i1 = true →
  NoDup (dict_keys r2) → (login, i2) ∈ r2 → live i2 = false →
  NoDup (dict_keys r3) → (login, i3) ∈ r3 → live i3 = true →
  now2 ≠ 0 →
  now3 - now2 ≤ 300 →
  let ls1 := (on_result now1 r1 ls).1 in
  let ls2 := (on_result now2 r2 ls1).1 in
  opened login (on_result now2 r2 ls1).2 = 0%nat
  ∧ opened login (on_result now3 r3 ls2).2 = 0%nat
  ∧ ∃ sess, (on_result now3 r3 ls2).1 !! login = Some sess
            ∧ session_id sess = session_key i3
            ∧ offline_since sess = None.
Proof.
  intros Hnd1 Hin1 Hl1 Hnd2 Hin2 Hl2 Hnd3 Hin3 Hl3 Hnz Hsoon ls1 ls2.
  destruct (after_live_poll now1 r1 ls login i1 Hnd1 Hin1 Hl1)
    as (s1 & Hs1 & Hid1 & Hoff1). fold ls1 in Hs1.
  assert (grace_over now2 s1 = false) as Hkeep1
    by (unfold grace_over; by rewrite Hoff1).
  destruct (on_result_kept now2 r2 ls1 login i2 s1 Hnd2 Hin2 Hs1 Hkeep1)
    as [Hrec2 Hop2].
  unfold track_one in Hrec2, Hop2.
  rewrite Hl2, lookup_singleton_eq, Hoff1 in Hrec2, Hop2.
  cbn [optint_truthy negb fst snd] in Hrec2, Hop2.
  rewrite lookup_insert_eq in Hrec2. fold ls2 in Hrec2.
  split; [by rewrite Hop2|].
  set (s2 := {| session_id := session_id s1;
                sess_started_at := sess_started_at s1;
                last_seen := last_seen s1;
                offline_since := Some now2 |}) in *.
  assert (optint_truthy (Some now2) = true) as Hset
    by (cbn; apply negb_true_iff; lia).
  assert (grace_over now3 s2 = false) as Hkeep2.
  { unfold grace_over, RECONNECT_GRACE_SEC. cbn [offline_since s2].
    rewrite Hset. cbn [andb]. lia. }
  assert (within_grace now3 s2 = true) as Hin_grace.
  { unfold within_grace, RECONNECT_GRACE_SEC. cbn [offline_since s2].
    rewrite Hset. cbn [andb]. lia. }
  destruct (on_result_kept now3 r3 ls2 login i3 s2 Hnd3 Hin3 Hrec2 Hkeep2)
    as [-> ->].
  unfold track_one. rewrite Hl3, lookup_singleton_eq, Hin_grace.
  destruct (String.eqb_spec (session_key i3) (session_id s2)) as [Heq|Hne];
    cbn [fst snd]; rewrite lookup_insert_eq;
    (split; [done|]); eexists; (split; [done|]); by split.
Qed.

Lemma same_stream_twice_opens_once_witness :
  opened "alice"
    (on_result 5000 (poll_alice "100")
       (on_result 1000 (poll_alice "100") ∅).1).2 = 0%nat.
Proof.
  apply (same_stream_twice_opens_once 1000 5000 (poll_alice "100")
           (poll_alice "100") ∅ "alice" (alice_live "100")
           (alice_live "100")).
  - apply (bool_decide_unpack _). vm_compute. exact I.
  - apply list_elem_of_here.
  - reflexivity.
  - apply (bool_decide_unpack _). vm_compute. exact I.
  - apply list_elem_of_here.
  - reflexivity.
  - reflexivity.
Defined.

Lemma reconnect_within_grace_is_quiet_witness :
  opened "alice"
    (on_result 1120 poll_alice_offline
       (on_result 1000 (poll_alice "100") ∅).1).2 = 0%nat
  ∧ opened "alice"
      (on_result 1240 (poll_alice "101")
         (on_result 1120 poll_alice_offline
            (on_result 1000 (poll_alice "100") ∅).1).1).2 = 0%nat
  ∧ ∃ sess,
      (on_result 1240 (poll_alice "101")
         (on_result 1120 poll_alice_offline
            (on_result 1000 (poll_alice "100") ∅).1).1).1 !! "alice"
      = Some sess
      ∧ session_id sess = session_key (alice_live "101")
      ∧ offline_since sess = None.
Proof.
  apply (reconnect_within_grace_is_quiet 1000 1120 1240 (poll_alice "100")
           poll_alice_offline (poll_alice "101") ∅ "alice"
           (alice_live "100") default_info (alice_live "101")).
  - apply (bool_decide_unpack _). vm_compute. exact I.
  - apply list_elem_of_here.
  - reflexivity.
  - apply (bool_decide_unpack _). vm_compute. exact I.
  - apply list_elem_of_here.
  - reflexivity.
  - apply (bool_decide_unpack _). vm_compute. exact I.
  - apply list_elem_of_here.
  - reflexivity.
  - discriminate.
  - lia.
Defined.
